(** * asyncorm: field types, query compiler and paginated cursor

    A shallow embedding of [asyncorm/models/fields.py] and
    [asyncorm/database/db_manager.py], with the properties of the
    specification stated and proved over it.

    Conventions of the embedding.
    - Python objects are values of [pyval]; a [str] is a Rocq [string], one
      character per code point (code points below 256).
    - A Python call either returns or raises: [result A] is [Ok a] or
      [Raise e].  Exception messages are not modelled.  Where Python or a
      library would take a path this development does not describe, the
      embedding answers [Raise Unmodelled]; no statement below rests on
      such an answer.
    - [dict] objects with string keys ([**kwargs], [self.__dict__], the
      records of a query chain) are [gmap string pyval].
    - Query records are shared, mutable objects: they live in a store
      ([gmap nat (gmap string pyval)]) and a chain is a list of references. *)

From Stdlib Require Import ZArith String Ascii List Bool Lia.
From stdpp Require Import base option gmap strings pretty list fin_maps.


Local Open Scope Z_scope.

(** ** Results of Python calls *)

Inductive exn :=
| IndexError
| KeyError
| TypeError
| ValueError
| AttributeError
| NotImplementedError
| FieldError            (* asyncorm.exceptions.FieldError *)
| StopIteration
| StopAsyncIteration
| AddrFormatError       (* netaddr.core.AddrFormatError *)
| JSONDecodeError       (* json.decoder.JSONDecodeError *)
| Unmodelled.           (* a behaviour of Python this development leaves out *)

Inductive result (A : Type) :=
| Ok (a : A)
| Raise (e : exn).
Arguments Ok {A} a.
Arguments Raise {A} e.

Definition bind {A B} (r : result A) (k : A -> result B) : result B :=
  match r with
  | Ok a => k a
  | Raise e => Raise e
  end.

Notation "'do' x <- e ; k" := (bind e (fun x => k))
  (at level 10, x pattern, e at level 100, k at level 200).

Definition raises {A} (r : result A) (e : exn) : Prop := r = Raise e.

Definition returns {A} (r : result A) : Prop := exists a, r = Ok a.

(** ** Python values *)

Inductive pytype :=
| T_object | T_NoneType | T_bool | T_int | T_float | T_str | T_list | T_tuple | T_dict
| T_function | T_Decimal | T_datetime | T_date | T_time | T_UUID
| T_IPNetwork | T_EUI.

(** The value of a [float] or of a [Decimal]: a ratio of integers (with a
    power of two for a denominator in a float, a power of ten in a
    Decimal), or an infinity.  The NaNs of the two classes are left out. *)
Inductive number :=
| Ratio (n : Z) (d : positive)
| Infinite (negative : bool).

Definition number_of_Z (z : Z) : number := Ratio z 1.

(** Equality and order of numbers are those of their values, across the
    classes. *)
Definition number_eqb (a b : number) : bool :=
  match a, b with
  | Ratio n d, Ratio n' d' => n * Z.pos d' =? n' * Z.pos d
  | Infinite s, Infinite s' => Bool.eqb s s'
  | _, _ => false
  end.

Definition number_ltb (a b : number) : bool :=
  match a, b with
  | Ratio n d, Ratio n' d' => n * Z.pos d' <? n' * Z.pos d
  | Ratio _ _, Infinite s' => negb s'
  | Infinite s, Ratio _ _ => s
  | Infinite s, Infinite s' => s && negb s'
  end.

(** The classes whose objects are not modelled from the inside; a float and
    a Decimal are known by their value. *)
Inductive libtype :=
| L_float (x : number) | L_Decimal (x : number)
| L_datetime | L_date | L_time | L_UUID
| L_IPNetwork | L_EUI.

Definition lib_type (t : libtype) : pytype :=
  match t with
  | L_float _ => T_float
  | L_Decimal _ => T_Decimal
  | L_datetime => T_datetime
  | L_date => T_date
  | L_time => T_time
  | L_UUID => T_UUID
  | L_IPNetwork => T_IPNetwork
  | L_EUI => T_EUI
  end.

Definition number_of (t : libtype) : option number :=
  match t with
  | L_float x | L_Decimal x => Some x
  | _ => None
  end.

(** Objects of those classes (float, Decimal, datetime, UUID, netaddr
    addresses) are carried with their truth value and their [str] and [repr]
    texts; the truth value of a float or of a Decimal is read off its value,
    not off what is carried.  Date and time objects are naive and of fold
    0, address objects are in canonical form (a network without host bits, a
    MAC address in one dialect): equal objects of these classes then have
    equal [repr].  A callable is a zero-argument producer with the value it
    returns. *)
#[warnings="-register-all"]
Inductive pyval :=
| VNone
| VBool (b : bool)
| VInt (z : Z)
| VStr (s : string)
| VList (l : list pyval)
| VTuple (l : list pyval)
| VDict (items : list (pyval * pyval))
| VObj (t : libtype) (truthy : bool) (text rtext : string)
| VCallable (rtext : string) (ret : pyval).

Definition pytype_eqb (a b : pytype) : bool :=
  match a, b with
  | T_object, T_object | T_NoneType, T_NoneType | T_bool, T_bool | T_int, T_int | T_float, T_float
  | T_str, T_str | T_list, T_list | T_tuple, T_tuple | T_dict, T_dict
  | T_function, T_function | T_Decimal, T_Decimal | T_datetime, T_datetime
  | T_date, T_date | T_time, T_time | T_UUID, T_UUID
  | T_IPNetwork, T_IPNetwork | T_EUI, T_EUI => true
  | _, _ => false
  end.

(** [type(v)] *)
Definition type_of (v : pyval) : pytype :=
  match v with
  | VNone => T_NoneType
  | VBool _ => T_bool
  | VInt _ => T_int
  | VStr _ => T_str
  | VList _ => T_list
  | VTuple _ => T_tuple
  | VDict _ => T_dict
  | VObj t _ _ _ => lib_type t
  | VCallable _ _ => T_function
  end.

(** [issubclass(a, b)]: every class derives from [object], [bool] from
    [int] and [datetime] from [date]. *)
Definition issubclass (a b : pytype) : bool :=
  pytype_eqb a b ||
  match a, b with
  | _, T_object => true
  | T_bool, T_int => true
  | T_datetime, T_date => true
  | _, _ => false
  end.

(** [isinstance(v, t)] and [isinstance(v, (t1, ..., tn))] *)
Definition isinstance (v : pyval) (t : pytype) : bool := issubclass (type_of v) t.

Definition isinstance_any (v : pyval) (ts : list pytype) : bool :=
  existsb (isinstance v) ts.

(** Truth value of an object, as [if v:] and [not v] take it. *)
Definition truthy (v : pyval) : bool :=
  match v with
  | VNone => false
  | VBool b => b
  | VInt z => negb (z =? 0)
  | VStr s => negb (String.eqb s "")
  | VList l | VTuple l => match l with [] => false | _ => true end
  | VDict d => match d with [] => false | _ => true end
  | VObj t b _ _ =>
      match number_of t with
      | Some x => negb (number_eqb x (number_of_Z 0))
      | None => b
      end
  | VCallable _ _ => true
  end.

(** [a == b].  Numbers compare by value across [bool], [int], [float] and
    [Decimal]; the objects of the other library classes compare by class
    and [repr]. *)
Fixpoint py_eq (a b : pyval) {struct a} : bool :=
  let fix eq_list (l1 l2 : list pyval) {struct l1} : bool :=
    match l1, l2 with
    | [], [] => true
    | x :: l1', y :: l2' => py_eq x y && eq_list l1' l2'
    | _, _ => false
    end in
  let fix lookup_all (d1 d2 : list (pyval * pyval)) {struct d1} : bool :=
    match d1 with
    | [] => true
    | (k, v) :: d1' =>
        existsb (fun kv => py_eq k (fst kv) && py_eq v (snd kv)) d2
        && lookup_all d1' d2
    end in
  match a, b with
  | VNone, VNone => true
  | VBool x, VBool y => Bool.eqb x y
  | VBool x, VInt y | VInt y, VBool x => (if x then 1 else 0) =? y
  | VInt x, VInt y => x =? y
  | VStr x, VStr y => String.eqb x y
  | VList x, VList y => eq_list x y
  | VTuple x, VTuple y => eq_list x y
  | VDict x, VDict y => (length x =? length y)%nat && lookup_all x y
  | VObj t _ _ r, VObj t' _ _ r' =>
      match number_of t, number_of t' with
      | Some x, Some y => number_eqb x y
      | None, None => pytype_eqb (lib_type t) (lib_type t') && String.eqb r r'
      | _, _ => false
      end
  | VObj t _ _ _, VInt z | VInt z, VObj t _ _ _ =>
      match number_of t with
      | Some x => number_eqb x (number_of_Z z)
      | None => false
      end
  | VObj t _ _ _, VBool b | VBool b, VObj t _ _ _ =>
      match number_of t with
      | Some x => number_eqb x (number_of_Z (if b then 1 else 0))
      | None => false
      end
  | VCallable r _, VCallable r' _ => String.eqb r r'
  | _, _ => false
  end.

(** [hash(v)] succeeds: lists and dicts are unhashable. *)
Fixpoint hashable (v : pyval) : bool :=
  match v with
  | VList _ | VDict _ => false
  | VTuple l => forallb hashable l
  | _ => true
  end.

(** ** Strings *)

Definition startswith (s p : string) : bool := String.prefix p s.

Fixpoint contains (s sub : string) : bool :=
  String.prefix sub s ||
  match s with
  | EmptyString => false
  | String _ s' => contains s' sub
  end.

Definition endswith (s p : string) : bool :=
  let n := String.length s in
  let m := String.length p in
  (m <=? n)%nat && String.eqb (String.substring (n - m) m s) p.

(** [s[1:]] *)
Definition tail1 (s : string) : string :=
  match s with
  | EmptyString => EmptyString
  | String _ s' => s'
  end.

(** [s.replace(old, new)] for a non-empty [old]: occurrences are replaced
    from the left and do not overlap; [skip] counts the characters of the
    occurrence just replaced that remain to be passed over. *)
Fixpoint replace_from (old new : string) (skip : nat) (s : string) : string :=
  match s with
  | EmptyString => EmptyString
  | String c s' =>
      match skip with
      | S k => replace_from old new k s'
      | O =>
          if String.prefix old s
          then new +:+ replace_from old new (String.length old - 1) s'
          else String c (replace_from old new 0 s')
      end
  end.

Definition replace (s old new : string) : string := replace_from old new 0 s.

Definition chars (s : string) : list string :=
  map (fun c => String c EmptyString) (list_ascii_of_string s).

(** [s.lower()] on code points below 256 *)
Definition lower_char (c : ascii) : ascii :=
  let n := nat_of_ascii c in
  if ((65 <=? n) && (n <=? 90) || (192 <=? n) && (n <=? 222) && negb (n =? 215))%nat
  then ascii_of_nat (n + 32)
  else c.

Fixpoint lower (s : string) : string :=
  match s with
  | EmptyString => EmptyString
  | String c s' => String (lower_char c) (lower s')
  end.

(** *** [str] and [repr] *)

Definition hex_digit (n : nat) : ascii :=
  if (n <? 10)%nat then ascii_of_nat (48 + n) else ascii_of_nat (87 + n).

Definition repr_char (quote : ascii) (c : ascii) : string :=
  let n := nat_of_ascii c in
  if Ascii.eqb c quote || Ascii.eqb c "\"%char then String "\" (String c "")
  else if (n =? 9)%nat then "\t"
  else if (n =? 10)%nat then "\n"
  else if (n =? 13)%nat then "\r"
  else if ((n <? 32) || (n =? 127) || (128 <=? n) && (n <=? 160) || (n =? 173))%nat
  then String "\" (String "x" (String (hex_digit (n / 16)) (String (hex_digit (n mod 16)) "")))
  else String c "".

Fixpoint repr_chars (quote : ascii) (s : string) : string :=
  match s with
  | EmptyString => EmptyString
  | String c s' => repr_char quote c +:+ repr_chars quote s'
  end.

(** [repr(s)]: single quotes, unless the text has a single quote and no
    double quote. *)
Definition str_repr (s : string) : string :=
  let quote :=
    if contains s "'" && negb (contains s (String (ascii_of_nat 34) ""))
    then ascii_of_nat 34 else "'"%char in
  String quote (repr_chars quote s +:+ String quote "").

Definition int_str (z : Z) : string := pretty z.

Fixpoint py_repr (v : pyval) : string :=
  match v with
  | VNone => "None"
  | VBool b => if b then "True" else "False"
  | VInt z => int_str z
  | VStr s => str_repr s
  | VList l => "[" +:+ String.concat ", " (map py_repr l) +:+ "]"
  | VTuple l =>
      match l with
      | [x] => "(" +:+ py_repr x +:+ ",)"
      | _ => "(" +:+ String.concat ", " (map py_repr l) +:+ ")"
      end
  | VDict d =>
      "{" +:+ String.concat ", "
                (map (fun kv => py_repr (fst kv) +:+ ": " +:+ py_repr (snd kv)) d)
          +:+ "}"
  | VObj _ _ _ r => r
  | VCallable r _ => r
  end.

(** [str(v)], which is also what an empty format specification renders. *)
Definition py_str (v : pyval) : string :=
  match v with
  | VStr s => s
  | VObj _ _ t _ => t
  | _ => py_repr v
  end.

(** Iterating over an object, as [for x in v] and [iter(v)] do.  Whether an
    address object of netaddr can be iterated is left out. *)
Definition py_iter (v : pyval) : result (list pyval) :=
  match v with
  | VList l | VTuple l => Ok l
  | VStr s => Ok (map VStr (chars s))
  | VDict d => Ok (map fst d)
  | VObj L_IPNetwork _ _ _ | VObj L_EUI _ _ _ => Raise Unmodelled
  | _ => Raise TypeError
  end.

(** ** [str.format] with the keyword arguments [d]

    Literal text, the escapes [{{] and [}}], and replacement fields [{name}]
    looked up in [d].  A field with no name or a number for a name asks for a
    positional argument, of which there is none.  Fields with an attribute,
    an index, a conversion or a format specification are left out. *)

Inductive fmt_state :=
| InText                    (* in literal text *)
| AfterOpen                 (* an opening brace was just read *)
| AfterClose                (* a closing brace was just read in literal text *)
| InField (name : string).  (* in a replacement field, [name] read so far *)

Definition all_digits (s : string) : bool :=
  forallb (fun c => (48 <=? nat_of_ascii c)%nat && (nat_of_ascii c <=? 57)%nat)
          (list_ascii_of_string s).

Definition field_value (d : gmap string pyval) (name : string) : result pyval :=
  if String.eqb name "" || all_digits name then Raise IndexError
  else match d !! name with
       | Some v => Ok v
       | None => Raise KeyError
       end.

Definition field_special (c : ascii) : bool :=
  Ascii.eqb c "." || Ascii.eqb c "[" || Ascii.eqb c "!" || Ascii.eqb c ":".

Fixpoint format_from (d : gmap string pyval) (st : fmt_state) (s : string)
  : result string :=
  match s with
  | EmptyString =>
      match st with
      | InText => Ok EmptyString
      | _ => Raise ValueError
      end
  | String c s' =>
      let in_field (name : string) :=
        if Ascii.eqb c "}" then
          do v <- field_value d name;
          do r <- format_from d InText s';
          Ok (py_str v +:+ r)
        else if Ascii.eqb c "{" then Raise ValueError
        else if field_special c then Raise Unmodelled
        else format_from d (InField (name +:+ String c EmptyString)) s' in
      match st with
      | InText =>
          if Ascii.eqb c "{" then format_from d AfterOpen s'
          else if Ascii.eqb c "}" then format_from d AfterClose s'
          else do r <- format_from d InText s'; Ok (String c r)
      | AfterOpen =>
          if Ascii.eqb c "{" then do r <- format_from d InText s'; Ok (String c r)
          else in_field EmptyString
      | AfterClose =>
          if Ascii.eqb c "}" then do r <- format_from d InText s'; Ok (String c r)
          else Raise ValueError
      | InField name => in_field name
      end
  end.

Definition format (template : string) (d : gmap string pyval) : result string :=
  format_from d InText template.

(** ** Query compiler: [GeneralManager] *)

Module GeneralManager.

Definition db__create_table : string := "
            CREATE TABLE IF NOT EXISTS {table_name}
            ({field_queries}) ".

Definition db__drop_table : string := "DROP TABLE IF EXISTS {table_name} CASCADE".

Definition db__alter_table : string := "
            ALTER TABLE {table_name} ({field_queries}) ".

Definition db__constrain_table : string := "
            ALTER TABLE {table_name} ADD {constrain} ".

Definition db__table_add_column : string := "
            ALTER TABLE {table_name}
            ADD COLUMN {field_creation_string} ".

Definition db__table_alter_column : string :=
  replace db__table_add_column "ADD COLUMN " "ALTER COLUMN ".

Definition db__insert : string := "
            INSERT INTO {table_name} ({field_names}) VALUES ({field_values})
            RETURNING *
        ".

Definition db__select_all : string := "SELECT {select} FROM {table_name} {ordering}".

Definition db__select : string :=
  replace db__select_all "{ordering}" "WHERE ( {condition} ) {ordering}".

Definition db__where : string := "WHERE {condition} ".

Definition db__select_m2m : string := "
            SELECT {select} FROM {other_tablename}
            WHERE {otherdb_pk} = ANY (
                SELECT {other_tablename} FROM {m2m_tablename} WHERE {id_data}
            )
        ".

Definition db__update : string := "
            UPDATE ONLY {table_name}
            SET ({field_names}) = ({field_values})
            WHERE {id_data}
            RETURNING *
        ".

Definition db__delete : string := "DELETE FROM {table_name} WHERE {id_data} ".

(** [getattr(self, name)] where [name] is one of the template properties.
    Another name starting with [db__] is no attribute of the manager; the
    remaining attributes of the object (methods, [conn], [conn_data], ...)
    are not templates and are left out. *)
Definition templates : list (string * string) :=
  [ ("db__create_table", db__create_table);
    ("db__drop_table", db__drop_table);
    ("db__alter_table", db__alter_table);
    ("db__constrain_table", db__constrain_table);
    ("db__table_add_column", db__table_add_column);
    ("db__table_alter_column", db__table_alter_column);
    ("db__insert", db__insert);
    ("db__select_all", db__select_all);
    ("db__select", db__select);
    ("db__where", db__where);
    ("db__select_m2m", db__select_m2m);
    ("db__update", db__update);
    ("db__delete", db__delete) ].

Fixpoint assoc (name : string) (l : list (string * string)) : option string :=
  match l with
  | [] => None
  | (k, v) :: l' => if String.eqb k name then Some v else assoc name l'
  end.

Definition getattr (name : pyval) : result string :=
  match name with
  | VStr n =>
      match assoc n templates with
      | Some t => Ok t
      | None => if startswith n "db__" then Raise AttributeError else Raise Unmodelled
      end
  | _ => Raise TypeError
  end.

(** [query_clean] *)
Definition query_clean (query : string) : string := query +:+ ";".

(** One turn of the loop of [ordering_syntax]: the entry appended to
    [result]. *)
Definition ordering_entry (f : pyval) : result string :=
  match f with
  | VStr s =>
      if startswith s "-" then Ok (" " +:+ tail1 s +:+ " DESC ") else Ok s
  | _ => Raise AttributeError
  end.

Fixpoint ordering_entries (fs : list pyval) : result (list string) :=
  match fs with
  | [] => Ok []
  | f :: fs' =>
      do e <- ordering_entry f;
      do es <- ordering_entries fs';
      Ok (e :: es)
  end.

Definition ordering_syntax (ordering : pyval) : result string :=
  if negb (truthy ordering) then Ok EmptyString
  else
    do fs <- py_iter ordering;
    do result <- ordering_entries fs;
    Ok ("ORDER BY " +:+ String.concat "," result).

(** *** The store of query records *)

Definition deref (h : gmap nat (gmap string pyval)) (l : nat)
  : result (gmap string pyval) :=
  match h !! l with
  | Some d => Ok d
  | None => Raise Unmodelled     (* no such object: cannot happen in Python *)
  end.

(** [h[l].update({k: v})], also [h[l][k] = v] *)
Definition update (h : gmap nat (gmap string pyval)) (l : nat) (k : string) (v : pyval)
  : gmap nat (gmap string pyval) :=
  alter (fun d => <[k := v]> d) l h.

Definition getitem (d : gmap string pyval) (k : string) : result pyval :=
  match d !! k with
  | Some v => Ok v
  | None => Raise KeyError
  end.

(** [d.get(k, dflt)] *)
Definition get (d : gmap string pyval) (k : string) (dflt : pyval) : pyval :=
  default dflt (d !! k).

(** [' AND '.join([a, b])] *)
Definition join_and (a b : pyval) : result pyval :=
  match a, b with
  | VStr x, VStr y => Ok (VStr (String.concat " AND " [x; y]))
  | _, _ => Raise TypeError
  end.

(** The loop [for q in query_chain] of [construct_query]; [res] is the
    reference held by [res_dict], which is the first record of the chain
    itself, not a copy of it. *)
Fixpoint merge_conditions (res : nat) (h : gmap nat (gmap string pyval))
    (query_type : pyval) (qs : list nat)
  : result (gmap nat (gmap string pyval) * pyval) :=
  match qs with
  | [] => Ok (h, query_type)
  | q :: qs' =>
      do qd <- deref h q;
      do action <- getitem qd "action";
      if py_eq action (VStr "db__where") then
        let '(h1, query_type1) :=
          if py_eq query_type (VStr "db__select_all")
          then (update h res "action" (VStr "db__select"), VStr "db__select")
          else (h, query_type) in
        do rd <- deref h1 res;
        let condition := get rd "condition" (VStr "") in
        do qd1 <- deref h1 q;
        do condition1 <-
          (if truthy condition
           then do c <- getitem qd1 "condition"; join_and condition c
           else getitem qd1 "condition");
        merge_conditions res (update h1 res "condition" condition1) query_type1 qs'
      else merge_conditions res h query_type qs'
  end.

(** [construct_query]: the SQL text, and the store as the call leaves it. *)
Definition construct_query (h : gmap nat (gmap string pyval)) (query_chain : list nat)
  : result (string * gmap nat (gmap string pyval)) :=
  match query_chain with
  | [] => Raise IndexError
  | res :: _ =>
      do res_dict <- deref h res;
      do query_type <- getitem res_dict "action";
      do merged <- merge_conditions res h query_type query_chain;
      let h1 := fst merged in
      do res_dict1 <- deref h1 res;
      do ordering <-
        (if py_eq (get res_dict1 "select" (VStr "")) (VStr "*")
         then ordering_syntax (get res_dict1 "ordering" (VList []))
         else Ok EmptyString);
      let h2 := update h1 res "ordering" (VStr ordering) in
      do res_dict2 <- deref h2 res;
      do action <- getitem res_dict2 "action";
      do template <- getattr action;
      do query <- format template res_dict2;
      Ok (query_clean query, h2)
  end.

End GeneralManager.

(** ** Paginated cursor: [Cursor] *)

Module Cursor.

(** Calls made on the connection and on the driver cursor, in order. *)
Inductive call :=
| Begin                 (* [conn.transaction()] entered *)
| Commit                (* the transaction block left normally *)
| Rollback              (* the transaction block left by an exception *)
| OpenCursor            (* [conn.cursor(query)] *)
| Forward (n : Z)       (* [cursor.forward(n)] *)
| Fetch (n : Z).        (* [cursor.fetch(n)] *)

Section WithRows.

Context {Row : Type}.

(** The driver, an external collaborator: the query selects the rows
    [table], the same at every batch; a fresh driver cursor stands before
    the first row, [forward n] passes over [n] rows and [fetch n] hands out
    the next [n] rows at most.  The driver refuses a count that is not
    positive; what it raises then is left out. *)
Variable table : list Row.

Record state := {
  _cursor : option nat;     (* [None], or the driver cursor and its position *)
  _results : list Row;
  _step : Z;
  _forward : Z;
  _stop : option Z;
  calls : list call         (* calls made so far, oldest first *)
}.

(** [Cursor(conn, query, step, forward, stop)] *)
Definition init (step forward : Z) (stop : option Z) : state :=
  {| _cursor := None; _results := []; _step := step; _forward := forward;
     _stop := stop; calls := [] |}.

Definition log (c : call) (st : state) : state :=
  {| _cursor := _cursor st; _results := _results st; _step := _step st;
     _forward := _forward st; _stop := _stop st; calls := calls st ++ [c] |}.

Definition set_cursor (pos : nat) (st : state) : state :=
  {| _cursor := Some pos; _results := _results st; _step := _step st;
     _forward := _forward st; _stop := _stop st; calls := calls st |}.

Definition set_step (n : Z) (st : state) : state :=
  {| _cursor := _cursor st; _results := _results st; _step := n;
     _forward := _forward st; _stop := _stop st; calls := calls st |}.

Definition set_forward (n : Z) (st : state) : state :=
  {| _cursor := _cursor st; _results := _results st; _step := _step st;
     _forward := n; _stop := _stop st; calls := calls st |}.

Definition set_results (rs : list Row) (st : state) : state :=
  {| _cursor := _cursor st; _results := rs; _step := _step st;
     _forward := _forward st; _stop := _stop st; calls := calls st |}.

Definition position (st : state) : nat := default 0%nat (_cursor st).

(** [await self._cursor.forward(n)] *)
Definition driver_forward (n : Z) (st : state) : result unit * state :=
  let st := log (Forward n) st in
  if n <=? 0 then (Raise Unmodelled, st)
  else (Ok tt, set_cursor (position st + Z.to_nat n) st).

(** [await self._cursor.fetch(n)] *)
Definition driver_fetch (n : Z) (st : state) : result (list Row) * state :=
  let st := log (Fetch n) st in
  if n <=? 0 then (Raise Unmodelled, st)
  else
    let rows := take (Z.to_nat n) (drop (position st) table) in
    (Ok rows, set_cursor (position st + length rows) st).

(** The body of the transaction block of [get_results]. *)
Definition get_results_body (st : state) : result (list Row) * state :=
  let st := set_cursor 0 (log OpenCursor st) in
  let forwarded :=
    if _forward st =? 0 then (Ok tt, st) else driver_forward (_forward st) st in
  match forwarded with
  | (Raise e, st) => (Raise e, st)
  | (Ok _, st) =>
      let reached :=
        match _stop st with
        | Some stop => stop <=? _forward st
        | None => false
        end in
      if reached then (Raise StopAsyncIteration, st)
      else
        let st :=
          match _stop st with
          | Some stop =>
              if stop <=? _forward st + _step st
              then set_step (stop - _forward st) st else st
          | None => st
          end in
        match driver_fetch (_step st) st with
        | (Raise e, st) => (Raise e, st)
        | (Ok [], st) => (Raise StopAsyncIteration, st)
        | (Ok results, st) => (Ok results, st)
        end
  end.

(** [get_results] *)
Definition get_results (st : state) : result (list Row) * state :=
  match get_results_body (log Begin st) with
  | (Ok results, st) => (Ok results, log Commit st)
  | (Raise e, st) => (Raise e, log Rollback st)
  end.

(** [__anext__] *)
Definition anext (st : state) : result Row * state :=
  let first :=
    match _cursor st with
    | None =>
        match get_results st with
        | (Ok results, st) => (Ok tt, set_results results st)
        | (Raise e, st) => (Raise e, st)
        end
    | Some _ => (Ok tt, st)
    end in
  match first with
  | (Raise e, st) => (Raise e, st)
  | (Ok _, st) =>
      let refill :=
        match _results st with
        | [] =>
            let st := set_forward (_forward st + _step st) st in
            let st :=
              match _stop st with
              | Some stop => if stop <? _forward st then set_forward stop st else st
              | None => st
              end in
            match get_results st with
            | (Ok results, st) => (Ok tt, set_results results st)
            | (Raise e, st) => (Raise e, st)
            end
        | _ => (Ok tt, st)
        end in
      match refill with
      | (Raise e, st) => (Raise e, st)
      | (Ok _, st) =>
          match _results st with
          | [] => (Raise IndexError, st)
          | row :: rest => (Ok row, set_results rest st)
          end
      end
  end.

(** [n] successive calls of [__anext__]: what each call produced, and the
    state after the last. *)
Fixpoint anext_times (n : nat) (st : state) : list (result Row) * state :=
  match n with
  | O => ([], st)
  | S n' =>
      let (r, st1) := anext st in
      let (rs, st2) := anext_times n' st1 in
      (r :: rs, st2)
  end.

(** The sizes asked of [fetch], in order. *)
Fixpoint fetches (cs : list call) : list Z :=
  match cs with
  | [] => []
  | Fetch n :: cs' => n :: fetches cs'
  | _ :: cs' => fetches cs'
  end.

End WithRows.

End Cursor.

(** ** Field type system: [asyncorm.models.fields] *)

Module Fields.

(** The concrete field classes.  [Field] and [NumberField] declare no
    [internal_type] and cannot be instantiated ([__new__] raises
    [NotImplementedError]); they are present through the methods the
    concrete classes inherit. *)
Inductive field_class :=
| BooleanField | CharField | EmailField | TextField
| IntegerField | BigIntegerField | FloatField | DecimalField
| AutoField | BigAutoField
| DateTimeField | DateField | TimeField
| ForeignKey | ManyToManyField
| JsonField | Uuid4Field | ArrayField
| GenericIPAddressField | MACAdressField.

(** A field object: its class and its instance dictionary [self.__dict__]. *)
Record field := {
  cls : field_class;
  attrs : gmap string pyval
}.

(** [self.__class__.__name__] *)
Definition class_name (c : field_class) : string :=
  match c with
  | BooleanField => "BooleanField" | CharField => "CharField"
  | EmailField => "EmailField" | TextField => "TextField"
  | IntegerField => "IntegerField" | BigIntegerField => "BigIntegerField"
  | FloatField => "FloatField" | DecimalField => "DecimalField"
  | AutoField => "AutoField" | BigAutoField => "BigAutoField"
  | DateTimeField => "DateTimeField" | DateField => "DateField"
  | TimeField => "TimeField" | ForeignKey => "ForeignKey"
  | ManyToManyField => "ManyToManyField" | JsonField => "JsonField"
  | Uuid4Field => "Uuid4Field" | ArrayField => "ArrayField"
  | GenericIPAddressField => "GenericIPAddressField"
  | MACAdressField => "MACAdressField"
  end.

Definition DATE_FIELDS : list pyval := [VStr "DateField"; VStr "DateTimeField"].

Definition KWARGS_TYPES : list (string * list pytype) :=
  [ ("auto_now", [T_bool]);
    ("choices", [T_dict; T_tuple]);
    ("db_column", [T_str]);
    ("db_index", [T_bool]);
    ("decimal_places", [T_int]);
    ("default", [T_object]);
    ("dialect", [T_str]);
    ("foreign_key", [T_str]);
    ("max_digits", [T_int]);
    ("max_length", [T_int]);
    ("null", [T_bool]);
    ("protocol", [T_str]);
    ("reverse_field", [T_str]);
    ("strftime", [T_str]);
    ("unpack_protocol", [T_str]);
    ("unique", [T_bool]);
    ("uuid_type", [T_str]) ].

Fixpoint lookup_types (k : string) (l : list (string * list pytype))
  : option (list pytype) :=
  match l with
  | [] => None
  | (k', ts) :: l' => if String.eqb k' k then Some ts else lookup_types k l'
  end.

(** The class attribute [internal_type], a class or a tuple of classes. *)
Definition internal_type (c : field_class) : list pytype :=
  match c with
  | BooleanField => [T_bool]
  | CharField | EmailField | TextField => [T_str]
  | IntegerField | BigIntegerField | AutoField | BigAutoField => [T_int]
  | FloatField => [T_float]
  | DecimalField => [T_Decimal; T_float; T_int]
  | DateTimeField => [T_datetime]
  | DateField => [T_date]
  | TimeField => [T_time]
  | ForeignKey => [T_int]
  | ManyToManyField => [T_list; T_int]
  | JsonField => [T_dict; T_list; T_str]
  | Uuid4Field => [T_UUID]
  | ArrayField => [T_list]
  | GenericIPAddressField => [T_IPNetwork]
  | MACAdressField => [T_EUI]
  end.

Definition required_kwargs (c : field_class) : list string :=
  match c with
  | CharField | EmailField | JsonField => ["max_length"]
  | ForeignKey | ManyToManyField => ["foreign_key"]
  | _ => []
  end.

(** [self.name] for an attribute no class defines: found in the instance
    dictionary or missing. *)
Definition getattr (f : field) (name : string) : result pyval :=
  match attrs f !! name with
  | Some v => Ok v
  | None => Raise AttributeError
  end.

(** *** What the field classes ask of libraries

    [IPNetwork v] is the [version] of [netaddr.IPNetwork(v)], [EUI v] stands
    for [netaddr.EUI(v)]; either may raise.  [json_loads] and [json_dumps]
    are the functions of the [json] module. *)
Record Library := {
  IPNetwork : pyval -> result Z;
  EUI : pyval -> result unit;
  json_loads : string -> result pyval;
  json_dumps : pyval -> result string
}.

(** *** Regular expressions of the module *)

(** [\w] on code points below 256 *)
Definition word_char (c : ascii) : bool :=
  let n := nat_of_ascii c in
  ((48 <=? n) && (n <=? 57) || (65 <=? n) && (n <=? 90) || (97 <=? n) && (n <=? 122)
   || (n =? 95) || (n =? 170) || (n =? 178) || (n =? 179) || (n =? 181)
   || (n =? 185) || (n =? 186) || (188 <=? n) && (n <=? 190)
   || (192 <=? n) && negb (n =? 215) && negb (n =? 247))%nat.

Fixpoint all_chars (p : ascii -> bool) (s : string) : bool :=
  match s with
  | EmptyString => true
  | String c s' => p c && all_chars p s'
  end.

(** The text before and after the first [c] of [s]. *)
Fixpoint split_first (c : ascii) (s : string) : option (string * string) :=
  match s with
  | EmptyString => None
  | String a s' =>
      if Ascii.eqb a c then Some (EmptyString, s')
      else match split_first c s' with
           | Some (l, r) => Some (String a l, r)
           | None => None
           end
  end.

(** [$] also matches before a newline that ends the text. *)
Fixpoint drop_final_newline (s : string) : string :=
  match s with
  | EmptyString => EmptyString
  | String c EmptyString => if (nat_of_ascii c =? 10)%nat then EmptyString else s
  | String c s' => String c (drop_final_newline s')
  end.

Definition nonempty (s : string) : bool := negb (String.eqb s EmptyString).

(** [re.match(r'^[\w][\w0-9_.+-]+@[\w0-9-]+\.[\w0-9-.]+$', s)] finds a match.
    No class of the expression holds the at sign, and the class before the
    escaped dot does not hold the dot, so the text splits in one way. *)
Definition email_regex_match (s : string) : bool :=
  match split_first "@" s with
  | Some (String a user, domain) =>
      word_char a && nonempty user
      && all_chars (fun c => word_char c || Ascii.eqb c "." || Ascii.eqb c "+"
                             || Ascii.eqb c "-") user
      && match split_first "." domain with
         | Some (host, rest) =>
             let rest := drop_final_newline rest in
             nonempty host && all_chars (fun c => word_char c || Ascii.eqb c "-") host
             && nonempty rest
             && all_chars (fun c => word_char c || Ascii.eqb c "-" || Ascii.eqb c ".") rest
         | None => false
         end
  | _ => false
  end.

(** [re.match(r'^[a-zA-Z0-9\-\b]{36}$', s)] finds a match. *)
Definition uuid_regex_match (s : string) : bool :=
  let s := drop_final_newline s in
  (String.length s =? 36)%nat
  && all_chars (fun c => let n := nat_of_ascii c in
                         ((48 <=? n) && (n <=? 57) || (65 <=? n) && (n <=? 90)
                          || (97 <=? n) && (n <=? 122) || (n =? 45) || (n =? 8))%nat) s.

(** *** Builtins used by the methods *)

Definition is_none (v : pyval) : bool :=
  match v with VNone => true | _ => false end.

(** [value in d.keys()] *)
Definition in_keys (value : pyval) (d : pyval) : result bool :=
  match d with
  | VDict items =>
      if hashable value then Ok (existsb (fun kv => py_eq value (fst kv)) items)
      else Raise TypeError
  | _ => Raise AttributeError
  end.

(** [len(v)] *)
Definition py_len (v : pyval) : result Z :=
  match v with
  | VStr s => Ok (Z.of_nat (String.length s))
  | VList l | VTuple l => Ok (Z.of_nat (length l))
  | VDict d => Ok (Z.of_nat (length d))
  | VObj L_IPNetwork _ _ _ | VObj L_EUI _ _ _ => Raise Unmodelled
  | _ => Raise TypeError
  end.

(** [n > v] for an integer [n] *)
Definition int_gt (n : Z) (v : pyval) : result bool :=
  match v with
  | VInt m => Ok (m <? n)
  | VBool b => Ok ((if b then 1 else 0) <? n)
  | VObj t _ _ _ =>
      match number_of t with
      | Some x => Ok (number_ltb x (number_of_Z n))
      | None => Raise TypeError
      end
  | _ => Raise TypeError
  end.

(** *** [validate] *)

(** [Field.validate] *)
Definition Field_validate (f : field) (value : pyval) : result pyval :=
  do _ <- (if is_none value
           then do null <- getattr f "null";
                if negb (truthy null) then Raise FieldError else Ok tt
           else Ok tt);
  do _ <- (match attrs f !! "choices" with
           | None | Some VNone => Ok tt
           | Some choices =>
               do found <- in_keys value choices;
               if negb found then Raise FieldError else Ok tt
           end);
  if negb (is_none value) && negb (isinstance_any value (internal_type (cls f)))
  then Raise FieldError
  else Ok VNone.

(** [EmailField.validate] *)
Definition EmailField_validate (f : field) (value : pyval) : result pyval :=
  do _ <- Field_validate f value;
  match value with
  | VStr s => if negb (email_regex_match s) then Raise FieldError else Ok VNone
  | _ => Raise TypeError
  end.

Fixpoint validate_each (f : field) (values : list pyval) : result unit :=
  match values with
  | [] => Ok tt
  | i :: rest => do _ <- Field_validate f i; validate_each f rest
  end.

(** [ManyToManyField.validate] *)
Definition ManyToManyField_validate (f : field) (value : pyval) : result pyval :=
  match value with
  | VList l => do _ <- validate_each f l; Ok VNone
  | _ => Field_validate f value
  end.

(** [ArrayField.homogeneous_type]: the type of the first element, or
    [None] here for the [False] of the source. *)
Definition homogeneous_type (value : pyval) : result (option pytype) :=
  do iseq <- py_iter value;
  match iseq with
  | [] => Raise StopIteration
  | first :: rest =>
      let first_type := type_of first in
      Ok (if forallb (fun x => isinstance x first_type) rest
          then Some first_type else None)
  end.

(** [all(len(item) == len(value[0]) for item in value)], [first] being
    [value[0]] *)
Fixpoint same_lengths (first : pyval) (items : list pyval) : result bool :=
  match items with
  | [] => Ok true
  | item :: rest =>
      do m <- py_len item;
      do n <- py_len first;
      if m =? n then same_lengths first rest else Ok false
  end.

(** [ArrayField.validate] *)
Definition ArrayField_validate (f : field) (value : pyval) : result pyval :=
  do _ <- Field_validate f value;
  if truthy value then
    do items_type <- homogeneous_type value;
    match items_type with
    | None => Raise FieldError
    | Some t =>
        if pytype_eqb t T_list then
          do items <- py_iter value;
          do same <-
            (match items with
             | [] => Ok true
             | first :: _ => same_lengths first items
             end);
          if negb same then Raise FieldError else Ok value
        else Ok value
    end
  else Ok value.

(** [int(s[-1:])] *)
Definition last_digit (s : string) : result Z :=
  match rev (list_ascii_of_string s) with
  | c :: _ =>
      let n := nat_of_ascii c in
      if ((48 <=? n) && (n <=? 57))%nat then Ok (Z.of_nat (n - 48)) else Raise ValueError
  | [] => Raise ValueError
  end.

Definition ManyToManyField_creation_string : string := "
        {own_model} INTEGER REFERENCES {own_model} NOT NULL,
        {foreign_key} INTEGER REFERENCES {foreign_key} NOT NULL
    ".

(** [self.creation_string]: a class attribute, and a property of
    [Uuid4Field]. *)
Definition creation_string (f : field) : result string :=
  match cls f with
  | BooleanField => Ok "boolean"
  | CharField | EmailField => Ok "varchar({max_length})"
  | TextField => Ok "text"
  | IntegerField => Ok "integer"
  | BigIntegerField => Ok "bigint"
  | FloatField => Ok "double precision"
  | DecimalField => Ok "decimal({max_digits},{decimal_places})"
  | AutoField | BigAutoField => Ok "serial PRIMARY KEY"
  | DateTimeField => Ok "timestamp"
  | DateField => Ok "date"
  | TimeField => Ok "time"
  | ForeignKey => Ok "integer references {foreign_key}"
  | ManyToManyField => Ok ManyToManyField_creation_string
  | JsonField => Ok "JSON"
  | Uuid4Field =>
      do uuid_type <- getattr f "uuid_type";
      if negb (hashable uuid_type) then Raise TypeError
      else if py_eq uuid_type (VStr "v1") then Ok "UUID DEFAULT uuid_generate_v1mc()"
      else if py_eq uuid_type (VStr "v4") then Ok "UUID DEFAULT uuid_generate_v4()"
      else Raise KeyError
  | ArrayField => Ok "{value_type} ARRAY"
  | GenericIPAddressField => Ok "INET"
  | MACAdressField => Ok "MACADDR"
  end.

Section WithLibrary.

Variable lib : Library.

(** [GenericIPAddressField.validate] *)
Definition GenericIPAddressField_validate (f : field) (value : pyval)
  : result pyval :=
  do _ <- (match IPNetwork lib value with
           | Raise AddrFormatError => Raise FieldError
           | r => r
           end);
  do protocol <- getattr f "protocol";
  match protocol with
  | VStr p =>
      if negb (String.eqb (lower p) "both") then
        do version <- IPNetwork lib value;
        do n <- last_digit p;
        if negb (version =? n) then Raise FieldError else Ok VNone
      else Ok VNone
  | _ => Raise AttributeError
  end.

(** [MACAdressField.validate] *)
Definition MACAdressField_validate (f : field) (value : pyval) : result pyval :=
  match EUI lib value with
  | Raise AddrFormatError => Raise FieldError
  | Raise e => Raise e
  | Ok _ => Ok VNone
  end.

(** [self.validate(value)], by the class of [self] *)
Definition validate (f : field) (value : pyval) : result pyval :=
  match cls f with
  | EmailField => EmailField_validate f value
  | ManyToManyField => ManyToManyField_validate f value
  | ArrayField => ArrayField_validate f value
  | GenericIPAddressField => GenericIPAddressField_validate f value
  | MACAdressField => MACAdressField_validate f value
  | _ => Field_validate f value
  end.

(** *** [sanitize_data] *)

(** [Field.sanitize_data] *)
Definition Field_sanitize_data (f : field) (value : pyval) : result pyval :=
  do _ <- validate f value;
  Ok value.

(** [BooleanField.sanitize_data] *)
Definition BooleanField_sanitize_data (f : field) (value : pyval) : result pyval :=
  if isinstance value T_bool || is_none value then Ok value else Raise FieldError.

(** [CharField.sanitize_data] *)
Definition CharField_sanitize_data (f : field) (value : pyval) : result pyval :=
  do value <- Field_sanitize_data f value;
  do n <- py_len value;
  do max_length <- getattr f "max_length";
  do too_long <- int_gt n max_length;
  if too_long then Raise FieldError else Ok (VStr (py_str value)).

(** [JsonField.sanitize_data] *)
Definition JsonField_sanitize_data (f : field) (value : pyval) : result pyval :=
  do _ <- validate f value;
  do value <-
    (if negb (is_none value) then
       do value <-
         (match value with
          | VStr s =>
              match json_loads lib s with
              | Raise JSONDecodeError => Raise FieldError
              | r => r
              end
          | _ => Ok value
          end);
       do text <- json_dumps lib value;
       Ok (VStr text)
     else Ok value);
  do n <- py_len value;
  do max_length <- getattr f "max_length";
  do too_long <- int_gt n max_length;
  if too_long then Raise FieldError else Ok value.

(** [Uuid4Field.sanitize_data] *)
Definition Uuid4Field_sanitize_data (f : field) (value : pyval) : result pyval :=
  match value with
  | VStr s => if uuid_regex_match s then Ok value else Raise FieldError
  | _ => Raise TypeError
  end.

(** [self.sanitize_data(value)], by the class of [self] *)
Definition sanitize_data (f : field) (value : pyval) : result pyval :=
  match cls f with
  | BooleanField => BooleanField_sanitize_data f value
  | CharField | EmailField => CharField_sanitize_data f value
  | JsonField => JsonField_sanitize_data f value
  | Uuid4Field => Uuid4Field_sanitize_data f value
  | GenericIPAddressField | MACAdressField => Ok value
  | _ => Field_sanitize_data f value
  end.

(** *** [creation_query] *)


(** The text appended for [self.default], when there is one. *)
Definition default_clause (f : field) (default_ : pyval) : result string :=
  let default_value :=
    match default_ with
    | VCallable _ ret => ret
    | _ => default_
    end in
  do text <-
    (if isinstance default_value T_str then Ok ("'" +:+ py_str default_value +:+ "'")
     else if isinstance default_value T_bool then Ok (py_str default_value)
     else do v <- sanitize_data f default_value; Ok (py_str v));
  Ok (" DEFAULT " +:+ text).

(** [Field.creation_query] *)
Definition Field_creation_query (f : field) : result string :=
  do fragment <- creation_string f;
  let creation_string := "{db_column} " +:+ fragment in
  do field_type <- getattr f "field_type";
  let date_field := existsb (py_eq field_type) DATE_FIELDS in
  do clause <-
    (match attrs f !! "default" with
     | Some (VNone) | None =>
         if date_field then
           do auto_now <- getattr f "auto_now";
           Ok (if truthy auto_now then " DEFAULT now()" else "")
         else Ok ""
     | Some default_ => default_clause f default_
     end);
  let creation_string := creation_string +:+ clause in
  do unique <- getattr f "unique";
  let creation_string :=
    creation_string +:+ (if truthy unique then " UNIQUE" else "") in
  do null <- getattr f "null";
  let creation_string :=
    creation_string +:+ (if truthy null then " NULL" else " NOT NULL") in
  format creation_string (attrs f).

(** [ManyToManyField.creation_query] *)
Definition ManyToManyField_creation_query (f : field) : result string :=
  do fragment <- creation_string f;
  format fragment (attrs f).

(** [self.creation_query()], by the class of [self] *)
Definition creation_query (f : field) : result string :=
  match cls f with
  | ManyToManyField => ManyToManyField_creation_query f
  | _ => Field_creation_query f
  end.

End WithLibrary.

(** *** [recompose] *)

(** [Field.recompose] *)
Definition Field_recompose (value : pyval) : result pyval := Ok value.

(** [CharField.recompose]; the two literals of the source are a backslash
    followed by a semicolon, and a backslash followed by two hyphens. *)
Definition CharField_recompose (value : pyval) : result pyval :=
  match value with
  | VNone => Ok value
  | VStr s => Ok (VStr (replace (replace s "\;" ";") "\--" "--"))
  | _ => Raise AttributeError
  end.


(** *** Construction *)

(** [Field.set_field_name]; it is only ever handed a [str]. *)
Definition set_field_name (self : gmap string pyval) (db_column : pyval)
  : result (gmap string pyval) :=
  match db_column with
  | VStr s =>
      if contains s "__" then Raise FieldError
      else if startswith s "_" then Raise FieldError
      else if endswith s "_" then Raise FieldError
      else Ok (<["db_column" := db_column]> self)
  | _ => Raise Unmodelled
  end.

(** [kwargs.get(k, dflt)] on keyword arguments in the order they were
    written *)
Fixpoint kwargs_get (kwargs : list (string * pyval)) (k : string) (dflt : pyval)
  : pyval :=
  match kwargs with
  | [] => dflt
  | (k', v) :: rest => if String.eqb k' k then v else kwargs_get rest k dflt
  end.

Fixpoint check_required (kwargs : list (string * pyval)) (required : list string)
  : result unit :=
  match required with
  | [] => Ok tt
  | kw :: rest =>
      if negb (truthy (kwargs_get kwargs kw VNone)) then Raise FieldError
      else check_required kwargs rest
  end.

Fixpoint check_types (items : list (string * pyval)) : result unit :=
  match items with
  | [] => Ok tt
  | (k, v) :: rest =>
      let null_choices := is_none v && String.eqb k "choices" in
      do expected <- (match lookup_types k KWARGS_TYPES with
                      | Some ts => Ok ts
                      | None => Raise KeyError
                      end);
      if negb (isinstance_any v expected) && negb null_choices then Raise FieldError
      else check_types rest
  end.

(** [Field.validate_kwargs]; the instance dictionary [self] is handed on,
    with [db_column] set when a name was given. *)
Definition validate_kwargs (c : field_class) (self : gmap string pyval)
    (kwargs : list (string * pyval)) : result (gmap string pyval) :=
  do _ <- check_required kwargs (required_kwargs c);
  do _ <- check_types kwargs;
  if truthy (kwargs_get kwargs "db_column" (VStr ""))
  then set_field_name self (kwargs_get kwargs "db_column" VNone)
  else Ok self.

(** [d[k] = v] on a dict whose keys are objects *)
Fixpoint dict_set (d : list (pyval * pyval)) (k v : pyval) : list (pyval * pyval) :=
  match d with
  | [] => [(k, v)]
  | (k', v') :: rest =>
      if py_eq k' k then (k', v) :: rest else (k', v') :: dict_set rest k v
  end.

Fixpoint dict_of_pairs (d : list (pyval * pyval)) (pairs : list pyval)
  : result (list (pyval * pyval)) :=
  match pairs with
  | [] => Ok d
  | item :: rest =>
      do kv <- py_iter item;
      match kv with
      | [k; v] =>
          if hashable k then dict_of_pairs (dict_set d k v) rest else Raise TypeError
      | _ => Raise ValueError
      end
  end.

(** The loop [for kw in kwargs.keys()] of [Field.__init__] *)
Fixpoint set_attributes (self : gmap string pyval) (items : list (string * pyval))
  : result (gmap string pyval) :=
  match items with
  | [] => Ok self
  | (kw, v) :: rest =>
      let self := <[kw := v]> self in
      do self <-
        (if String.eqb kw "choices" then
           match v with
           | VDict _ => Ok (<["choices" := v]> self)
           | VNone => Ok self
           | _ =>
               do pairs <- py_iter v;
               do d <- dict_of_pairs [] pairs;
               Ok (<["choices" := VDict d]> self)
           end
         else Ok self);
      set_attributes self rest
  end.

(** [Field.__init__(self, **kwargs)], [self] being the instance dictionary
    with what the constructor of the class has already stored *)
Definition Field_init (c : field_class) (self : gmap string pyval)
    (kwargs : list (string * pyval)) : result field :=
  do self <- validate_kwargs c self kwargs;
  let self := <["field_type" := VStr (class_name c)]> self in
  let self := <["db_index" := VBool false]> self in
  do self <- set_attributes self kwargs;
  Ok {| cls := c; attrs := self |}.

(** The parameters of the constructor of each class, with their defaults. *)
Definition signature (c : field_class) : list (string * pyval) :=
  match c with
  | BooleanField =>
      [("db_column", VStr ""); ("db_index", VBool false); ("default", VNone);
       ("null", VBool false); ("unique", VBool false)]
  | CharField | EmailField | JsonField =>
      [("choices", VNone); ("db_column", VStr ""); ("db_index", VBool false);
       ("default", VNone); ("max_length", VInt 0); ("null", VBool false);
       ("unique", VBool false)]
  | TextField | IntegerField | BigIntegerField | FloatField =>
      [("choices", VNone); ("db_column", VStr ""); ("db_index", VBool false);
       ("default", VNone); ("null", VBool false); ("unique", VBool false)]
  | DecimalField =>
      [("choices", VNone); ("db_column", VStr ""); ("db_index", VBool false);
       ("decimal_places", VInt 2); ("default", VNone); ("max_digits", VInt 10);
       ("null", VBool false); ("unique", VBool false)]
  | AutoField | BigAutoField => [("db_column", VStr "id")]
  | DateTimeField | DateField | TimeField =>
      [("auto_now", VBool false); ("choices", VNone); ("db_column", VStr "");
       ("db_index", VBool false); ("default", VNone); ("null", VBool false);
       ("strftime", VNone); ("unique", VBool false)]
  | ForeignKey =>
      [("db_column", VStr ""); ("db_index", VBool false); ("default", VNone);
       ("foreign_key", VStr ""); ("null", VBool false); ("unique", VBool false)]
  | ManyToManyField =>
      [("db_column", VStr ""); ("db_index", VBool false); ("default", VNone);
       ("foreign_key", VNone); ("unique", VBool false)]
  | Uuid4Field =>
      [("db_column", VStr ""); ("db_index", VBool false); ("null", VBool false);
       ("unique", VBool true); ("uuid_type", VStr "v4")]
  | ArrayField =>
      [("db_column", VStr ""); ("db_index", VBool false); ("default", VNone);
       ("null", VBool true); ("unique", VBool false); ("value_type", VStr "text")]
  | GenericIPAddressField =>
      [("db_column", VStr ""); ("db_index", VBool false); ("null", VBool false);
       ("protocol", VStr "both"); ("unique", VBool false);
       ("unpack_protocol", VStr "same")]
  | MACAdressField =>
      [("db_column", VStr ""); ("db_index", VBool false); ("default", VNone);
       ("dialect", VStr "unix"); ("null", VBool false); ("unique", VBool true)]
  end.

(** The value a parameter is bound to: the argument given, or the default. *)
Definition param (args : gmap string pyval) (name : string) (dflt : pyval) : pyval :=
  default dflt (args !! name).

Definition bound (c : field_class) (args : gmap string pyval)
  : list (string * pyval) :=
  map (fun p => (fst p, param args (fst p) (snd p))) (signature c).

(** The class attribute [strftime] of the date and time classes *)
Definition class_strftime (c : field_class) : string :=
  match c with
  | DateField => "%Y-%m-%d"
  | TimeField => "%H:%s"
  | _ => "%Y-%m-%d  %H:%s"
  end.

Definition mac_dialects : list string :=
  ["bare"; "cisco"; "eui48"; "pgsql"; "unix"; "unix_expanded"].

Definition field_requirement : string :=
  "CREATE EXTENSION IF NOT EXISTS " +:+ String (ascii_of_nat 34) "uuid-ossp"
  +:+ String (ascii_of_nat 34) ";".

(** [x.lower()] where [x] should be a [str] *)
Definition str_lower (x : pyval) : result string :=
  match x with
  | VStr s => Ok (lower s)
  | _ => Raise AttributeError
  end.

Definition str_in (s : string) (l : list string) : bool := existsb (String.eqb s) l.

(** The keyword arguments each constructor hands to [Field.__init__]. *)
Definition forwarded (c : field_class) (args : gmap string pyval)
  : list (string * pyval) :=
  match c with
  | AutoField | BigAutoField =>
      [("choices", VNone); ("db_column", param args "db_column" (VStr "id"));
       ("db_index", VBool false); ("default", VNone); ("null", VBool false);
       ("unique", VBool true)]
  | DateTimeField | DateField | TimeField =>
      let strftime := param args "strftime" VNone in
      [("auto_now", param args "auto_now" (VBool false));
       ("choices", param args "choices" VNone);
       ("db_column", param args "db_column" (VStr ""));
       ("db_index", param args "db_index" (VBool false));
       ("default", param args "default" VNone);
       ("null", param args "null" (VBool false));
       ("strftime", if truthy strftime then strftime else VStr (class_strftime c));
       ("unique", param args "unique" (VBool false))]
  | Uuid4Field =>
      [("db_column", param args "db_column" (VStr ""));
       ("db_index", param args "db_index" (VBool false));
       ("default", VNone);
       ("null", param args "null" (VBool false));
       ("unique", param args "unique" (VBool true));
       ("uuid_type", param args "uuid_type" (VStr "v4"))]
  | ArrayField =>
      [("db_column", param args "db_column" (VStr ""));
       ("db_index", param args "db_index" (VBool false));
       ("default", param args "default" VNone);
       ("null", param args "null" (VBool true));
       ("unique", param args "unique" (VBool false))]
  | GenericIPAddressField =>
      [("db_column", param args "db_column" (VStr ""));
       ("db_index", param args "db_index" (VBool false));
       ("default", VNone);
       ("null", param args "null" (VBool false));
       ("protocol", param args "protocol" (VStr "both"));
       ("unique", param args "unique" (VBool false));
       ("unpack_protocol", param args "unpack_protocol" (VStr "same"))]
  | _ => bound c args
  end.

(** What a constructor does before it calls [Field.__init__]: the checks
    that may raise, and the attributes it has stored by then. *)
Definition before_init (c : field_class) (args : gmap string pyval)
  : result (gmap string pyval) :=
  match c with
  | Uuid4Field =>
      let uuid_type := param args "uuid_type" (VStr "v4") in
      if negb (existsb (py_eq uuid_type) [VStr "v1"; VStr "v4"]) then Raise FieldError
      else Ok {[ "field_requirement" := VStr field_requirement ]}
  | GenericIPAddressField =>
      let protocol := param args "protocol" (VStr "both") in
      let unpack_protocol := param args "unpack_protocol" (VStr "same") in
      do p <- str_lower protocol;
      if negb (str_in p ["both"; "ipv6"; "ipv4"]) then Raise FieldError
      else
        do u <- str_lower unpack_protocol;
        if negb (str_in u ["same"; "ipv6"; "ipv4"]) then Raise FieldError
        else if negb (String.eqb p "both") && negb (py_eq unpack_protocol (VStr "same"))
        then Raise FieldError
        else Ok ∅
  | MACAdressField =>
      let dialect := param args "dialect" (VStr "unix") in
      if negb (hashable dialect) then Raise TypeError
      else if negb (existsb (fun k => py_eq dialect (VStr k)) mac_dialects)
      then Raise FieldError
      else Ok ∅
  | _ => Ok ∅
  end.

(** What a constructor does after [Field.__init__] has returned. *)
Definition after_init (c : field_class) (args : gmap string pyval) (f : field)
  : field :=
  match c with
  | ArrayField =>
      {| cls := cls f;
         attrs := <["value_type" := param args "value_type" (VStr "text")]> (attrs f) |}
  | _ => f
  end.

(** Calling the class [c] with the keyword arguments [args].  A
    keyword that is no parameter of the constructor is a [TypeError]. *)
Definition init (c : field_class) (args : gmap string pyval) : result field :=
  if negb (bool_decide (map_Forall (fun k _ => k ∈ map fst (signature c)) args))
  then Raise TypeError
  else
    do self <- before_init c args;
    do f <- Field_init c self (forwarded c args);
    Ok (after_init c args f).

(** *** [current_state] *)

(** The class attribute [args] *)
Definition args (c : field_class) : list string :=
  match c with
  | BooleanField | TextField | IntegerField | BigIntegerField | FloatField
  | AutoField | BigAutoField =>
      ["choices"; "db_column"; "db_index"; "default"; "null"; "unique"]
  | CharField | EmailField | JsonField =>
      ["choices"; "db_column"; "db_index"; "default"; "max_length"; "null"; "unique"]
  | DecimalField =>
      ["choices"; "db_column"; "db_index"; "decimal_places"; "default"; "null";
       "unique"; "max_digits"]
  | DateTimeField | DateField | TimeField =>
      ["auto_now"; "choices"; "db_column"; "db_index"; "default"; "null"; "strftime";
       "unique"]
  | ForeignKey => ["db_column"; "db_index"; "default"; "foreign_key"; "null"; "unique"]
  | ManyToManyField => ["db_column"; "db_index"; "default"; "foreign_key"; "unique"]
  | Uuid4Field => ["db_column"; "db_index"; "null"; "unique"; "uuid_type"]
  | ArrayField => ["db_column"; "db_index"; "default"; "null"; "unique"; "value_type"]
  | GenericIPAddressField =>
      ["db_column"; "db_index"; "null"; "protocol"; "unique"; "unpack_protocol"]
  | MACAdressField => ["db_column"; "db_index"; "default"; "dialect"; "null"; "unique"]
  end.

(** [getattr(self, arg)] for a name of [args]: the instance dictionary
    first, then the class, which defines [strftime] for the date and time
    classes and none of the other names. *)
Definition getattr_arg (f : field) (name : string) : result pyval :=
  match attrs f !! name with
  | Some v => Ok v
  | None =>
      match cls f with
      | DateTimeField | DateField | TimeField =>
          if String.eqb name "strftime" then Ok (VStr (class_strftime (cls f)))
          else Raise AttributeError
      | _ => Raise AttributeError
      end
  end.

(** [{arg: getattr(self, arg) for arg in names}], entry by entry *)
Fixpoint collect_args (f : field) (names : list string)
  : result (list (string * pyval)) :=
  match names with
  | [] => Ok []
  | arg :: rest =>
      do v <- getattr_arg f arg;
      do items <- collect_args f rest;
      Ok ((arg, v) :: items)
  end.

(** [state.update(items)] *)
Definition dict_update (state : gmap string pyval) (items : list (string * pyval))
  : gmap string pyval :=
  foldl (fun st kv => <[fst kv := snd kv]> st) state items.

(** [Field.current_state]; [module] is the name under which the module of
    the field classes was imported, which every class keeps as
    [__module__]. *)
Definition current_state (module : string) (f : field)
  : result (gmap string pyval) :=
  let state :=
    {[ "field_type" := VStr (module +:+ "." +:+ class_name (cls f)) ]} in
  do items <- collect_args f (args (cls f));
  Ok (dict_update state items).

End Fields.

(** * Definitions used in the statements *)

Local Arguments String.append !s1 s2.

(** ** Templates read as pieces

    A template without escapes is a sequence of literal texts and named
    fields; [render] is what [format] computes on it. *)

Inductive piece :=
| Lit (text : string)
| Fld (name : string).

Definition brace (c : ascii) : bool := Ascii.eqb c "{" || Ascii.eqb c "}".

(** No brace occurs in [s]. *)
Definition plain (s : string) : bool :=
  Fields.all_chars (fun c => negb (brace c)) s.

Definition field_name_ok (n : string) : bool :=
  negb (String.eqb n "")
  && Fields.all_chars (fun c => negb (brace c) && negb (field_special c)) n.

Definition piece_ok (p : piece) : bool :=
  match p with
  | Lit s => plain s
  | Fld n => field_name_ok n
  end.

Fixpoint template_text (ps : list piece) : string :=
  match ps with
  | [] => ""
  | Lit s :: ps' => s +:+ template_text ps'
  | Fld n :: ps' => "{" +:+ n +:+ "}" +:+ template_text ps'
  end.

Fixpoint render (d : gmap string pyval) (ps : list piece) : result string :=
  match ps with
  | [] => Ok ""
  | Lit s :: ps' => do r <- render d ps'; Ok (s +:+ r)
  | Fld n :: ps' =>
      do v <- field_value d n;
      do r <- render d ps';
      Ok (py_str v +:+ r)
  end.

(** ** Query chains of the examples *)

(** [s] occurs in [v]: [v = a + s + b] for some [a] and [b]. *)
Definition occurs_in (s v : string) : Prop :=
  exists a b : string, v = a +:+ s +:+ b.

(** The records [d] and [d'] agree on every key outside [keys]. *)
Definition same_but (keys : list string) (d d' : gmap string pyval) : Prop :=
  forall k, k ∉ keys -> d' !! k = d !! k.

(** The SQL text of a compilation, without the store. *)
Definition sql_of (r : result (string * gmap nat (gmap string pyval))) : result string :=
  match r with
  | Ok (sql, _) => Ok sql
  | Raise e => Raise e
  end.

(** The store after a compilation. *)
Definition store_of (h : gmap nat (gmap string pyval))
    (r : result (string * gmap nat (gmap string pyval))) : gmap nat (gmap string pyval) :=
  match r with
  | Ok (_, h') => h'
  | Raise _ => h
  end.

(** [[SelectAll(table, select="*"), Where(c1), Where(c2)]]: the records at the
    references 0, 1 and 2. *)
Definition select_where_where (table c1 c2 : string) : gmap nat (gmap string pyval) :=
  {[ 0%nat := {[ "action" := VStr "db__select_all";
                 "table_name" := VStr table;
                 "select" := VStr "*" ]};
     1%nat := {[ "action" := VStr "db__where"; "condition" := VStr c1 ]};
     2%nat := {[ "action" := VStr "db__where"; "condition" := VStr c2 ]} ]}.

Definition book_chain_store : gmap nat (gmap string pyval) :=
  select_where_where "book" "price > 100" "quantity > 0".

Definition book_chain : list nat := [0; 1; 2]%nat.

(** A chain of one select-all record with a select clause and an ordering. *)
Definition select_all_store (select : string) (ordering : list string)
  : gmap nat (gmap string pyval) :=
  {[ 0%nat := {[ "action" := VStr "db__select_all";
                 "table_name" := VStr "book";
                 "select" := VStr select;
                 "ordering" := VList (map VStr ordering) ]} ]}.

(** The entry [ordering_syntax] makes of a column name. *)
Definition ordering_entry_text (f : string) : string :=
  if startswith f "-" then " " +:+ tail1 f +:+ " DESC " else f.

(** ** The cursor of the example *)

(** The state of the cursor with batch size 3 and stop bound 7 once its
    seven rows are out. *)
Definition drained {Row : Type} (st : @Cursor.state Row) : Prop :=
  Cursor._cursor st <> None /\ Cursor._results st = [] /\ Cursor._step st = 1
  /\ Cursor._forward st = 7 /\ Cursor._stop st = Some 7.

(** ** Fields of the examples *)

(** A stand-in for the libraries where an example does not reach them: every
    call of it raises. *)
Definition no_library : Fields.Library :=
  {| Fields.IPNetwork := fun _ => Raise Unmodelled;
     Fields.EUI := fun _ => Raise Unmodelled;
     Fields.json_loads := fun _ => Raise Unmodelled;
     Fields.json_dumps := fun _ => Raise Unmodelled |}.

(** [CharField(max_length=5, null=True, choices={'a': 'A'})] *)
Definition nullable_char_args : gmap string pyval :=
  {[ "max_length" := VInt 5; "null" := VBool true;
     "choices" := VDict [(VStr "a", VStr "A")] ]}.

Definition nullable_char_with_choices : Fields.field :=
  {| Fields.cls := Fields.CharField;
     Fields.attrs :=
       {[ "field_type" := VStr "CharField"; "db_index" := VBool false;
          "choices" := VDict [(VStr "a", VStr "A")]; "db_column" := VStr "";
          "default" := VNone; "max_length" := VInt 5; "null" := VBool true;
          "unique" := VBool false ]} |}.

(** [CharField(max_length=5, null=True)] and [CharField(max_length=5)] *)
Definition char_field (null : bool) : Fields.field :=
  {| Fields.cls := Fields.CharField;
     Fields.attrs :=
       {[ "field_type" := VStr "CharField"; "db_index" := VBool false;
          "choices" := VNone; "db_column" := VStr "";
          "default" := VNone; "max_length" := VInt 5; "null" := VBool null;
          "unique" := VBool false ]} |}.

(** [ArrayField()] *)
Definition array_field : Fields.field :=
  {| Fields.cls := Fields.ArrayField;
     Fields.attrs :=
       {[ "field_type" := VStr "ArrayField"; "db_index" := VBool false;
          "db_column" := VStr ""; "default" := VNone; "null" := VBool true;
          "unique" := VBool false; "value_type" := VStr "text" ]} |}.

(** [TimeField(auto_now=True, db_column='t')] *)
Definition time_auto_now_args : gmap string pyval :=
  {[ "auto_now" := VBool true; "db_column" := VStr "t" ]}.

Definition time_auto_now : Fields.field :=
  {| Fields.cls := Fields.TimeField;
     Fields.attrs :=
       {[ "field_type" := VStr "TimeField"; "db_index" := VBool false;
          "auto_now" := VBool true; "choices" := VNone; "db_column" := VStr "t";
          "default" := VNone; "null" := VBool false; "strftime" := VStr "%H:%s";
          "unique" := VBool false ]} |}.

(** [DateField(auto_now=True, db_column='t')] *)
Definition date_auto_now_args : gmap string pyval :=
  {[ "auto_now" := VBool true; "db_column" := VStr "t" ]}.

Definition date_auto_now : Fields.field :=
  {| Fields.cls := Fields.DateField;
     Fields.attrs :=
       {[ "field_type" := VStr "DateField"; "db_index" := VBool false;
          "auto_now" := VBool true; "choices" := VNone; "db_column" := VStr "t";
          "default" := VNone; "null" := VBool false; "strftime" := VStr "%Y-%m-%d";
          "unique" := VBool false ]} |}.

(** [CharField(max_length=5, db_column='name', default='x', unique=True)] *)
Definition char_default_args : gmap string pyval :=
  {[ "max_length" := VInt 5; "db_column" := VStr "name"; "default" := VStr "x";
     "unique" := VBool true ]}.

Definition char_default : Fields.field :=
  {| Fields.cls := Fields.CharField;
     Fields.attrs :=
       {[ "field_type" := VStr "CharField"; "db_index" := VBool false;
          "choices" := VNone; "db_column" := VStr "name";
          "default" := VStr "x"; "max_length" := VInt 5; "null" := VBool false;
          "unique" := VBool true ]} |}.

(** [ManyToManyField(foreign_key='author')], with the attribute [own_model]
    that the model layer sets on it *)
Definition many_to_many : Fields.field :=
  {| Fields.cls := Fields.ManyToManyField;
     Fields.attrs :=
       {[ "field_type" := VStr "ManyToManyField"; "db_index" := VBool false;
          "db_column" := VStr ""; "default" := VNone;
          "foreign_key" := VStr "author"; "unique" := VBool false;
          "own_model" := VStr "book" ]} |}.

(** [ManyToManyField(foreign_key='author')], as the constructor returns it *)
Definition many_to_many_args : gmap string pyval :=
  {[ "foreign_key" := VStr "author" ]}.

Definition many_to_many_built : Fields.field :=
  {| Fields.cls := Fields.ManyToManyField;
     Fields.attrs :=
       {[ "field_type" := VStr "ManyToManyField"; "db_index" := VBool false;
          "db_column" := VStr ""; "default" := VNone;
          "foreign_key" := VStr "author"; "unique" := VBool false ]} |}.

(** [DateTimeField(strftime=0)] *)
Definition datetime_strftime_0 : Fields.field :=
  {| Fields.cls := Fields.DateTimeField;
     Fields.attrs :=
       {[ "field_type" := VStr "DateTimeField"; "db_index" := VBool false;
          "auto_now" := VBool false; "choices" := VNone; "db_column" := VStr "";
          "default" := VNone; "null" := VBool false;
          "strftime" := VStr "%Y-%m-%d  %H:%s"; "unique" := VBool false ]} |}.

(** ** Notions of the statements about fields *)

(** The choices of a field, if it has any, hold [None] among their keys. *)
Definition choices_admit_None (f : Fields.field) : bool :=
  match Fields.attrs f !! "choices" with
  | None | Some VNone => true
  | Some (VDict items) => existsb (fun kv => py_eq VNone (fst kv)) items
  | Some _ => false
  end.

(** The choices of a field are a dict without the key [None]. *)
Definition choices_exclude_None (f : Fields.field) : bool :=
  match Fields.attrs f !! "choices" with
  | Some (VDict items) => negb (existsb (fun kv => py_eq VNone (fst kv)) items)
  | _ => false
  end.

Definition is_list (v : pyval) : bool :=
  match v with VList _ => true | _ => false end.

(** [len(v)] of a list, 0 for another object *)
Definition list_length (v : pyval) : nat :=
  match v with VList l => length l | _ => 0%nat end.

(** The value of [k] among keyword arguments, the later entry winning. *)
Fixpoint lookup_later (items : list (string * pyval)) (k : string) : option pyval :=
  match items with
  | [] => None
  | (kw, v) :: rest =>
      match lookup_later rest k with
      | Some v' => Some v'
      | None => if String.eqb kw k then Some v else None
      end
  end.

(** The value [v] given for the parameter [k] is not an instance of the
    type [KWARGS_TYPES] declares for [k]; [choices=None] is let through. *)
Definition mistyped (k : string) (v : pyval) : bool :=
  match Fields.lookup_types k Fields.KWARGS_TYPES with
  | Some expected =>
      negb (isinstance_any v expected)
      && negb (Fields.is_none v && String.eqb k "choices")
  | None => false
  end.

Definition bad_column_name (s : string) : bool :=
  contains s "__" || startswith s "_" || endswith s "_".

Definition date_or_time_class (c : Fields.field_class) : bool :=
  match c with
  | Fields.DateTimeField | Fields.DateField | Fields.TimeField => true
  | _ => false
  end.

(** *** The DDL fragment of a column, in the words of the specification *)

Definition attr_text (f : Fields.field) (name : string) : string :=
  match Fields.attrs f !! name with
  | Some v => py_str v
  | None => ""
  end.

Definition attr_true (f : Fields.field) (name : string) : bool :=
  match Fields.attrs f !! name with
  | Some v => truthy v
  | None => false
  end.

(** The DDL fragment of the kind, with its parameters filled in. *)
Definition ddl_fragment (f : Fields.field) : string :=
  match Fields.cls f with
  | Fields.BooleanField => "boolean"
  | Fields.CharField | Fields.EmailField =>
      "varchar(" +:+ attr_text f "max_length" +:+ ")"
  | Fields.TextField => "text"
  | Fields.IntegerField => "integer"
  | Fields.BigIntegerField => "bigint"
  | Fields.FloatField => "double precision"
  | Fields.DecimalField =>
      "decimal(" +:+ attr_text f "max_digits" +:+ ","
      +:+ attr_text f "decimal_places" +:+ ")"
  | Fields.AutoField | Fields.BigAutoField => "serial PRIMARY KEY"
  | Fields.DateTimeField => "timestamp"
  | Fields.DateField => "date"
  | Fields.TimeField => "time"
  | Fields.ForeignKey => "integer references " +:+ attr_text f "foreign_key"
  | Fields.ManyToManyField => ""
  | Fields.JsonField => "JSON"
  | Fields.Uuid4Field =>
      if String.eqb (attr_text f "uuid_type") "v1"
      then "UUID DEFAULT uuid_generate_v1mc()"
      else "UUID DEFAULT uuid_generate_v4()"
  | Fields.ArrayField => attr_text f "value_type" +:+ " ARRAY"
  | Fields.GenericIPAddressField => "INET"
  | Fields.MACAdressField => "MACADDR"
  end.

(** The default resolved: a producer is called, a string is quoted, a
    boolean is written bare, anything else goes through [sanitize_data]. *)
Definition resolved_default (lib : Fields.Library) (f : Fields.field) (d : pyval)
  : result string :=
  let v := match d with VCallable _ ret => ret | _ => d end in
  match v with
  | VStr s => Ok ("'" +:+ s +:+ "'")
  | VBool b => Ok (if b then "True" else "False")
  | _ => do x <- Fields.sanitize_data lib f v; Ok (py_str x)
  end.

(** The default clause: the resolved default if there is one; [now()] for a
    date or date-time column with [auto_now]; nothing otherwise. *)
Definition default_clause_text (lib : Fields.Library) (f : Fields.field)
  : result string :=
  match Fields.attrs f !! "default" with
  | None | Some VNone =>
      match Fields.cls f with
      | Fields.DateField | Fields.DateTimeField =>
          Ok (if attr_true f "auto_now" then " DEFAULT now()" else "")
      | _ => Ok ""
      end
  | Some d => do text <- resolved_default lib f d; Ok (" DEFAULT " +:+ text)
  end.

(** The column definition: name, fragment, default clause, [UNIQUE] when
    the column is unique, [NULL] or [NOT NULL]. *)
Definition column_definition (lib : Fields.Library) (f : Fields.field)
  : result string :=
  do clause <- default_clause_text lib f;
  Ok (attr_text f "db_column" +:+ " " +:+ ddl_fragment f +:+ clause
      +:+ (if attr_true f "unique" then " UNIQUE" else "")
      +:+ (if attr_true f "null" then " NULL" else " NOT NULL")).

(** [f.own_model = own]: the attribute that the model layer sets on a
    many-to-many field before it asks for its columns. *)
Definition set_own_model (f : Fields.field) (own : pyval) : Fields.field :=
  {| Fields.cls := Fields.cls f;
     Fields.attrs := <["own_model" := own]> (Fields.attrs f) |}.

(** The two columns of a link table, from the model [own] to the model
    [fk], laid out as the template of the class has them. *)
Definition link_table_columns (own fk : string) : string :=
  "
        " +:+ own +:+ " INTEGER REFERENCES " +:+ own +:+ " NOT NULL,
        " +:+ fk +:+ " INTEGER REFERENCES " +:+ fk +:+ " NOT NULL
    ".

(** The template of the many-to-many class as pieces. *)
Definition many_to_many_pieces : list piece :=
  [Lit "
        "; Fld "own_model"; Lit " INTEGER REFERENCES "; Fld "own_model";
   Lit " NOT NULL,
        "; Fld "foreign_key"; Lit " INTEGER REFERENCES "; Fld "foreign_key";
   Lit " NOT NULL
    "].

(** Every keyword has a declared type. *)
Definition known_keys (kwargs : list (string * pyval)) : bool :=
  forallb (fun kv => match Fields.lookup_types (fst kv) Fields.KWARGS_TYPES with
                     | Some _ => true
                     | None => false
                     end) kwargs.

(** The fragment template of a class as pieces; [v1] tells the variant of a
    UUID column. *)
Definition class_pieces (c : Fields.field_class) (v1 : bool) : list piece :=
  match c with
  | Fields.BooleanField => [Lit "boolean"]
  | Fields.CharField | Fields.EmailField =>
      [Lit "varchar("; Fld "max_length"; Lit ")"]
  | Fields.TextField => [Lit "text"]
  | Fields.IntegerField => [Lit "integer"]
  | Fields.BigIntegerField => [Lit "bigint"]
  | Fields.FloatField => [Lit "double precision"]
  | Fields.DecimalField =>
      [Lit "decimal("; Fld "max_digits"; Lit ","; Fld "decimal_places"; Lit ")"]
  | Fields.AutoField | Fields.BigAutoField => [Lit "serial PRIMARY KEY"]
  | Fields.DateTimeField => [Lit "timestamp"]
  | Fields.DateField => [Lit "date"]
  | Fields.TimeField => [Lit "time"]
  | Fields.ForeignKey => [Lit "integer references "; Fld "foreign_key"]
  | Fields.ManyToManyField => []
  | Fields.JsonField => [Lit "JSON"]
  | Fields.Uuid4Field =>
      [Lit (if v1 then "UUID DEFAULT uuid_generate_v1mc()"
            else "UUID DEFAULT uuid_generate_v4()")]
  | Fields.ArrayField => [Fld "value_type"; Lit " ARRAY"]
  | Fields.GenericIPAddressField => [Lit "INET"]
  | Fields.MACAdressField => [Lit "MACADDR"]
  end.

(** ** Further notions: the cursor in general *)

(** The rows a cursor at offset [f] has yet to hand out: the rows of the
    table from [f] on, up to the stop bound when there is one. *)
Definition rows_from {Row : Type} (table : list Row) (stop : option Z) (f : Z)
  : list Row :=
  match stop with
  | Some s => take (Z.to_nat (s - f)) (drop (Z.to_nat f) table)
  | None => drop (Z.to_nat f) table
  end.

(** A stop bound, when there is one, is not negative. *)
Definition stop_ok (stop : option Z) : Prop :=
  match stop with
  | Some s => 0 <= s
  | None => True
  end.

(** A cursor with [ys] yet to hand out: before its first fetch, the rows
    from its offset on; after it, the rows in its buffer, then the rows from
    the next offset on. *)
Definition pending {Row : Type} (table : list Row) (st : @Cursor.state Row)
    (ys : list Row) : Prop :=
  0 <= Cursor._forward st
  /\ 0 < Cursor._step st
  /\ stop_ok (Cursor._stop st)
  /\ match Cursor._cursor st with
     | None =>
         Cursor._results st = []
         /\ ys = rows_from table (Cursor._stop st) (Cursor._forward st)
     | Some _ =>
         ys = Cursor._results st
                ++ rows_from table (Cursor._stop st)
                     (Cursor._forward st + Cursor._step st)
     end.

(** ** Further notions: the query compiler *)

(** In the store [h], the reference [q] holds a Where record with the
    condition [c]. *)
Definition where_at (h : gmap nat (gmap string pyval)) (q : nat) (c : string) : Prop :=
  exists dq, h !! q = Some dq
             /\ dq !! "action" = Some (VStr "db__where")
             /\ dq !! "condition" = Some (VStr c).

(** In the store [h], the reference [q] holds a record with an action that
    is not the Where action. *)
Definition not_where_at (h : gmap nat (gmap string pyval)) (q : nat) : Prop :=
  exists dq a, h !! q = Some dq
               /\ dq !! "action" = Some a
               /\ py_eq a (VStr "db__where") = false.

(** The select-all record over [table] with the star for a select clause and
    the ordering list [names]. *)
Definition select_star_ordered (table : string) (names : list string)
  : gmap string pyval :=
  {[ "action" := VStr "db__select_all";
     "table_name" := VStr table;
     "select" := VStr "*";
     "ordering" := VList (map VStr names) ]}.

(** The chain of a select-all over the table of books, ordered by
    descending identifier, and three Where records. *)
Definition three_conditions_store : gmap nat (gmap string pyval) :=
  {[ 0%nat := select_star_ordered "book" ["-id"];
     1%nat := {[ "action" := VStr "db__where"; "condition" := VStr "price > 100" ]};
     2%nat := {[ "action" := VStr "db__where"; "condition" := VStr "quantity > 0" ]};
     3%nat := {[ "action" := VStr "db__where"; "condition" := VStr "year = 2000" ]} ]}.

(** A chain of one Where record. *)
Definition where_alone_store : gmap nat (gmap string pyval) :=
  {[ 0%nat := {[ "action" := VStr "db__where"; "condition" := VStr "price > 100" ]} ]}.

(** A chain of two Where records. *)
Definition two_wheres_store : gmap nat (gmap string pyval) :=
  {[ 0%nat := {[ "action" := VStr "db__where"; "condition" := VStr "price > 100" ]};
     1%nat := {[ "action" := VStr "db__where"; "condition" := VStr "quantity > 0" ]} ]}.

(** ** Further notions: the field classes *)

(** The [choices] attribute that [Field.__init__] makes of the argument
    [v]: a dict and [None] as they are, pairs gathered into a dict. *)
Definition choices_of (v : pyval) : result pyval :=
  match v with
  | VDict _ | VNone => Ok v
  | _ =>
      do pairs <- py_iter v;
      do d <- Fields.dict_of_pairs [] pairs;
      Ok (VDict d)
  end.

(** The pair [(k, label)] of a choices tuple, the key [k] being a text. *)
Definition choice_pair (kv : string * pyval) : pyval :=
  VTuple [VStr (fst kv); snd kv].

(** *** Further fields of the examples *)

(** [BooleanField()] *)
Definition boolean_field : Fields.field :=
  {| Fields.cls := Fields.BooleanField;
     Fields.attrs :=
       {[ "field_type" := VStr "BooleanField"; "db_index" := VBool false;
          "db_column" := VStr ""; "default" := VNone; "null" := VBool false;
          "unique" := VBool false ]} |}.

(** [CharField(max_length=5, choices=(('a', 'A'), ('b', 'B')))] *)
Definition char_choice_pairs_args : gmap string pyval :=
  {[ "max_length" := VInt 5;
     "choices" := VTuple (map choice_pair [("a", VStr "A"); ("b", VStr "B")]) ]}.

Definition char_choice_pairs : Fields.field :=
  {| Fields.cls := Fields.CharField;
     Fields.attrs :=
       {[ "field_type" := VStr "CharField"; "db_index" := VBool false;
          "choices" := VDict [(VStr "a", VStr "A"); (VStr "b", VStr "B")];
          "db_column" := VStr ""; "default" := VNone; "max_length" := VInt 5;
          "null" := VBool false; "unique" := VBool false ]} |}.

(** [Uuid4Field()] *)
Definition uuid4_field : Fields.field :=
  {| Fields.cls := Fields.Uuid4Field;
     Fields.attrs :=
       {[ "field_requirement" := VStr Fields.field_requirement;
          "field_type" := VStr "Uuid4Field"; "db_index" := VBool false;
          "db_column" := VStr ""; "default" := VNone; "null" := VBool false;
          "unique" := VBool true; "uuid_type" := VStr "v4" ]} |}.

(** [MACAdressField()] *)
Definition mac_field : Fields.field :=
  {| Fields.cls := Fields.MACAdressField;
     Fields.attrs :=
       {[ "field_type" := VStr "MACAdressField"; "db_index" := VBool false;
          "db_column" := VStr ""; "default" := VNone; "dialect" := VStr "unix";
          "null" := VBool false; "unique" := VBool true ]} |}.

(** [GenericIPAddressField(protocol='IPv4')] *)
Definition ipv4_args : gmap string pyval := {[ "protocol" := VStr "IPv4" ]}.

Definition ipv4_field : Fields.field :=
  {| Fields.cls := Fields.GenericIPAddressField;
     Fields.attrs :=
       {[ "field_type" := VStr "GenericIPAddressField"; "db_index" := VBool false;
          "db_column" := VStr ""; "default" := VNone; "null" := VBool false;
          "protocol" := VStr "IPv4"; "unique" := VBool false;
          "unpack_protocol" := VStr "same" ]} |}.

(** A stand-in for netaddr that reads two addresses, one of each version,
    and refuses every other value. *)
Definition two_addresses : Fields.Library :=
  {| Fields.IPNetwork := fun v =>
       match v with
       | VStr s =>
           if String.eqb s "10.0.0.1" then Ok 4
           else if String.eqb s "::1" then Ok 6
           else Raise AddrFormatError
       | _ => Raise AddrFormatError
       end;
     Fields.EUI := fun _ => Raise Unmodelled;
     Fields.json_loads := fun _ => Raise Unmodelled;
     Fields.json_dumps := fun _ => Raise Unmodelled |}.

(** [EmailField(max_length=20)] *)
Definition email_field : Fields.field :=
  {| Fields.cls := Fields.EmailField;
     Fields.attrs :=
       {[ "field_type" := VStr "EmailField"; "db_index" := VBool false;
          "choices" := VNone; "db_column" := VStr "";
          "default" := VNone; "max_length" := VInt 20; "null" := VBool false;
          "unique" := VBool false ]} |}.




(** * Properties *)

(** ** [str.format] *)

Lemma append_empty_r (s : string) : s +:+ "" = s.
Proof. induction s; simpl; congruence. Qed.

Lemma append_assoc (a b c : string) : (a +:+ b) +:+ c = a +:+ b +:+ c.
Proof. induction a; simpl; congruence. Qed.

Lemma format_from_plain d s rest :
  plain s = true ->
  format_from d InText (s +:+ rest)
  = do r <- format_from d InText rest; Ok (s +:+ r).
Proof.
  induction s as [|c s IH]; intros Hp; simpl.
  - destruct (format_from d InText rest); reflexivity.
  - unfold plain in Hp. simpl in Hp. apply andb_true_iff in Hp as [Hc Hs].
    unfold brace in Hc. apply negb_true_iff, orb_false_iff in Hc as [Ho Hcl].
    rewrite Ho, Hcl. rewrite (IH Hs).
    destruct (format_from d InText rest); reflexivity.
Qed.

Lemma format_from_field d acc n rest :
  Fields.all_chars (fun c => negb (brace c) && negb (field_special c)) n = true ->
  format_from d (InField acc) (n +:+ String "}" rest)
  = do v <- field_value d (acc +:+ n);
    do r <- format_from d InText rest;
    Ok (py_str v +:+ r).
Proof.
  revert acc. induction n as [|c n IH]; intros acc Hn; simpl.
  - rewrite append_empty_r. reflexivity.
  - simpl in Hn. apply andb_true_iff in Hn as [Hc Hn].
    apply andb_true_iff in Hc as [Hb Hs].
    unfold brace in Hb. apply negb_true_iff, orb_false_iff in Hb as [Ho Hcl].
    apply negb_true_iff in Hs.
    rewrite Ho, Hcl, Hs. rewrite (IH _ Hn).
    rewrite append_assoc. reflexivity.
Qed.

Lemma field_value_Some (d : gmap string pyval) name v :
  (String.eqb name "" || all_digits name) = false /\ d !! name = Some v ->
  field_value d name = Ok v.
Proof. intros [H1 H2]. unfold field_value. by rewrite H1, H2. Qed.

(** On a template made of well-formed pieces, [format] renders the pieces
    from left to right. *)
Lemma format_template d ps :
  forallb piece_ok ps = true ->
  format (template_text ps) d = render d ps.
Proof.
  unfold format. induction ps as [|[s|n] ps IH]; intros Hok; simpl in *.
  - reflexivity.
  - apply andb_true_iff in Hok as [Hs Hps].
    rewrite (format_from_plain _ _ _ Hs), (IH Hps). reflexivity.
  - apply andb_true_iff in Hok as [Hn Hps].
    apply andb_true_iff in Hn as [Hne Hn].
    destruct n as [|c n]; [discriminate|].
    simpl in Hn. apply andb_true_iff in Hn as [Hc Hn].
    apply andb_true_iff in Hc as [Hb Hs].
    unfold brace in Hb. apply negb_true_iff, orb_false_iff in Hb as [Ho Hcl].
    apply negb_true_iff in Hs.
    simpl. rewrite Ho, Hcl, Hs.
    rewrite (format_from_field d (String c "") n (template_text ps) Hn).
    rewrite (IH Hps). reflexivity.
Qed.

(** A call that returned: the first step of the sequence returned too. *)
Ltac bind_ok H x Hx :=
  match type of H with
  | bind ?c _ = Ok _ =>
      destruct c as [x|] eqn:Hx; cbn [bind] in H; [|discriminate H]
  end.

(** ** Query compiler *)

Section Compiler.

Import GeneralManager.

Implicit Types (h : gmap nat (gmap string pyval)) (d : gmap string pyval).

Lemma update_lookup_ne h l l' k v :
  l ≠ l' -> update h l k v !! l' = h !! l'.
Proof. intros Hne. unfold update. by rewrite lookup_alter_ne. Qed.

Lemma update_lookup_eq h l k v d :
  h !! l = Some d -> update h l k v !! l = Some (<[k := v]> d).
Proof. intros Hd. unfold update. by rewrite lookup_alter_eq, Hd. Qed.

Lemma deref_Ok h l d : deref h l = Ok d <-> h !! l = Some d.
Proof.
  unfold deref. destruct (h !! l); split; intros H; congruence.
Qed.

Lemma same_but_refl keys d : same_but keys d d.
Proof. intros k _. reflexivity. Qed.

Lemma same_but_insert keys d d' k v :
  k ∈ keys -> same_but keys d d' -> same_but keys d (<[k := v]> d').
Proof.
  intros Hk H k' Hk'. rewrite lookup_insert_ne; [by apply H|].
  intros ->. contradiction.
Qed.

(** The loop over the chain writes the first record only, and there only
    the keys [action] and [condition]. *)
Lemma merge_conditions_frame res qs :
  forall h query_type h' query_type' d,
    h !! res = Some d ->
    merge_conditions res h query_type qs = Ok (h', query_type') ->
    (forall l, l ≠ res -> h' !! l = h !! l)
    /\ exists d', h' !! res = Some d' /\ same_but ["action"; "condition"] d d'.
Proof.
  induction qs as [|q qs IH]; intros h qt h' qt' d Hd Hm; simpl in Hm.
  - injection Hm as <- <-. split; [reflexivity|].
    exists d. split; [assumption | apply same_but_refl].
  - destruct (deref h q) as [qd|] eqn:Hq; simpl in Hm; [|discriminate].
    destruct (getitem qd "action") as [action|] eqn:Ha; simpl in Hm; [|discriminate].
    destruct (py_eq action (VStr "db__where")); [|by eapply IH].
    destruct (py_eq qt (VStr "db__select_all")).
    + rewrite (proj2 (deref_Ok _ _ _) (update_lookup_eq _ _ "action" (VStr "db__select") _ Hd))
        in Hm. simpl in Hm.
      destruct (deref (update h res "action" (VStr "db__select")) q) as [qd1|];
        simpl in Hm; [|discriminate].
      match type of Hm with
      | bind ?c _ = _ => destruct c as [c1|] eqn:Hc; simpl in Hm; [|discriminate]
      end.
      eapply IH in Hm as [Hframe (d' & Hd' & Hsame)];
        [|by eapply update_lookup_eq, update_lookup_eq].
      split.
      * intros l Hl. rewrite (Hframe l Hl).
        rewrite !update_lookup_ne by congruence. reflexivity.
      * exists d'. split; [assumption|].
        intros k Hk. rewrite (Hsame k Hk).
        rewrite !lookup_insert_ne; [reflexivity| |]; intros Heq; apply Hk; rewrite <- Heq; apply list_elem_of_In; simpl; auto.
    + rewrite (proj2 (deref_Ok _ _ _) Hd) in Hm. simpl in Hm. rewrite Hq in Hm.
      simpl in Hm.
      match type of Hm with
      | bind ?c _ = _ => destruct c as [c1|] eqn:Hc; simpl in Hm; [|discriminate]
      end.
      eapply IH in Hm as [Hframe (d' & Hd' & Hsame)];
        [|by eapply update_lookup_eq].
      split.
      * intros l Hl. rewrite (Hframe l Hl).
        rewrite !update_lookup_ne by congruence. reflexivity.
      * exists d'. split; [assumption|].
        intros k Hk. rewrite (Hsame k Hk).
        rewrite !lookup_insert_ne; [reflexivity|]; intros Heq; apply Hk; rewrite <- Heq; apply list_elem_of_In; simpl; auto.
Qed.

Lemma get_same_but keys d d' k dflt :
  k ∉ keys -> same_but keys d d' -> get d' k dflt = get d k dflt.
Proof. intros Hk H. unfold get. by rewrite (H k Hk). Qed.

(** What a successful compilation leaves behind: every record but the first
    is as before; in the first, [ordering] holds the clause that
    [ordering_syntax] made of the ordering list when the select clause is
    the star, the empty text otherwise, and besides [action], [condition]
    and [ordering] nothing has changed.  The SQL text is the template of the
    final action filled from that record, with a semicolon at the end. *)
Lemma construct_query_frame h res rest d sql h' :
  h !! res = Some d ->
  construct_query h (res :: rest) = Ok (sql, h') ->
  (forall l, l ≠ res -> h' !! l = h !! l)
  /\ exists d' clause action template query,
       h' !! res = Some d'
       /\ same_but ["action"; "condition"; "ordering"] d d'
       /\ d' !! "ordering" = Some (VStr clause)
       /\ (if py_eq (get d "select" (VStr "")) (VStr "*")
           then ordering_syntax (get d "ordering" (VList [])) = Ok clause
           else clause = "")
       /\ d' !! "action" = Some action
       /\ getattr action = Ok template
       /\ format template d' = Ok query
       /\ sql = query_clean query.
Proof.
  intros Hd Hc. unfold construct_query in Hc.
  rewrite (proj2 (deref_Ok _ _ _) Hd) in Hc. cbn [bind] in Hc.
  bind_ok Hc qt Hqt. bind_ok Hc m Hm. destruct m as [h1 qt1].
  destruct (merge_conditions_frame _ _ _ _ _ _ _ Hd Hm) as [Hframe (d1 & Hd1 & Hsame)].
  cbn [fst] in Hc.
  rewrite (proj2 (deref_Ok _ _ _) Hd1) in Hc. cbn [bind] in Hc.
  assert (Hsel : get d1 "select" (VStr "") = get d "select" (VStr "")).
  { apply (get_same_but ["action"; "condition"]); [|assumption].
    intros Hin. apply list_elem_of_In in Hin. simpl in Hin.
    destruct Hin as [H|[H|[]]]; discriminate. }
  assert (Hord : get d1 "ordering" (VList []) = get d "ordering" (VList [])).
  { apply (get_same_but ["action"; "condition"]); [|assumption].
    intros Hin. apply list_elem_of_In in Hin. simpl in Hin.
    destruct Hin as [H|[H|[]]]; discriminate. }
  rewrite Hsel, Hord in Hc.
  bind_ok Hc clause Hclause.
  rewrite (proj2 (deref_Ok _ _ _) (update_lookup_eq _ _ "ordering" (VStr clause) _ Hd1))
    in Hc. cbn [bind] in Hc.
  bind_ok Hc action Hact. bind_ok Hc template Ht. bind_ok Hc query Hf.
  injection Hc as <- <-.
  split.
  - intros l Hl. rewrite update_lookup_ne by congruence. by apply Hframe.
  - exists (<["ordering" := VStr clause]> d1), clause, action, template, query.
    repeat split.
    + by apply update_lookup_eq.
    + intros k Hk. rewrite lookup_insert_ne.
      * apply Hsame. intros Hin. apply Hk.
        apply list_elem_of_In in Hin. apply list_elem_of_In. simpl in *. tauto.
      * intros Heq. apply Hk. rewrite <- Heq. apply list_elem_of_In. simpl. auto.
    + apply lookup_insert_eq.
    + destruct (py_eq (get d "select" (VStr "")) (VStr "*")); congruence.
    + unfold getitem in Hact.
      destruct (<["ordering" := VStr clause]> d1 !! "action"); congruence.
    + assumption.
    + assumption.
Qed.

Lemma ordering_entries_names (names : list string) :
  ordering_entries (map VStr names) = Ok (map ordering_entry_text names).
Proof.
  induction names as [|f names IH]; [reflexivity|].
  cbn [map ordering_entries]. rewrite IH.
  unfold ordering_entry, ordering_entry_text.
  destruct (startswith f "-"); reflexivity.
Qed.

(** [ordering_syntax] on a list of column names *)
Lemma ordering_syntax_names (names : list string) :
  names ≠ [] ->
  ordering_syntax (VList (map VStr names))
  = Ok ("ORDER BY " +:+ String.concat "," (map ordering_entry_text names)).
Proof.
  intros Hne. unfold ordering_syntax.
  destruct names as [|f names]; [contradiction|].
  cbn [truthy map negb py_iter bind].
  change (VStr f :: map VStr names) with (map VStr (f :: names)).
  rewrite ordering_entries_names. reflexivity.
Qed.

(** C1, as the code has it.  The chain [SelectAll(table, select="*"),
    Where(c1), Where(c2)] with a non-empty [c1] compiles to the conditioned
    select over both conditions joined by AND, with an empty ordering
    clause and ONE space between the closing parenthesis and the final
    semicolon; the first record ends as a conditioned select holding the
    merged condition and the empty ordering clause. *)
Theorem construct_query_select_where_where (table c1 c2 : string) :
  c1 ≠ "" ->
  let r := construct_query (select_where_where table c1 c2) [0; 1; 2]%nat in
  sql_of r
  = Ok ("SELECT * FROM " +:+ table +:+ " WHERE ( " +:+ c1 +:+ " AND " +:+ c2 +:+ " ) ;")
  /\ store_of ∅ r !! 0%nat
     = Some {[ "action" := VStr "db__select";
               "table_name" := VStr table;
               "select" := VStr "*";
               "condition" := VStr (c1 +:+ " AND " +:+ c2);
               "ordering" := VStr "" ]}.
Proof.
  intros Hc1 r.
  assert (Hstore : store_of ∅ r !! 0%nat
                   = Some {[ "action" := VStr "db__select";
                             "table_name" := VStr table;
                             "select" := VStr "*";
                             "condition" := VStr (c1 +:+ " AND " +:+ c2);
                             "ordering" := VStr "" ]}).
  { subst r. destruct c1 as [|a c1]; [contradiction|]. vm_compute. reflexivity. }
  split; [|exact Hstore].
  destruct r as [[sql h']|e] eqn:Hr; [|discriminate Hstore].
  cbn [sql_of store_of] in *.
  assert (Hd : select_where_where table c1 c2 !! 0%nat
               = Some {[ "action" := VStr "db__select_all";
                         "table_name" := VStr table;
                         "select" := VStr "*" ]}) by reflexivity.
  destruct (construct_query_frame _ _ _ _ _ _ Hd Hr)
    as [_ (d' & clause & action & template & query
           & Hd' & _ & _ & _ & Hact & Ht & Hf & ->)].
  rewrite Hstore in Hd'. injection Hd' as <-.
  vm_compute in Hact. injection Hact as <-.
  vm_compute in Ht. injection Ht as <-.
  change (format
            (template_text [Lit "SELECT "; Fld "select"; Lit " FROM ";
                            Fld "table_name"; Lit " WHERE ( "; Fld "condition";
                            Lit " ) "; Fld "ordering"])
            {[ "action" := VStr "db__select";
               "table_name" := VStr table;
               "select" := VStr "*";
               "condition" := VStr (c1 +:+ " AND " +:+ c2);
               "ordering" := VStr "" ]} = Ok query) in Hf.
  rewrite format_template in Hf by reflexivity.
  cbn [render] in Hf.
  rewrite (field_value_Some _ "select" (VStr "*")) in Hf by (split; reflexivity).
  rewrite (field_value_Some _ "table_name" (VStr table)) in Hf by (split; reflexivity).
  rewrite (field_value_Some _ "condition" (VStr (c1 +:+ " AND " +:+ c2))) in Hf
    by (split; reflexivity).
  rewrite (field_value_Some _ "ordering" (VStr "")) in Hf by (split; reflexivity).
  cbn [bind py_str] in Hf. injection Hf as <-.
  unfold query_clean. repeat (rewrite ?append_assoc; simpl). reflexivity.
Qed.

(** The chain of the specification, compiled. *)
Lemma construct_query_book :
  sql_of (construct_query book_chain_store book_chain)
  = Ok "SELECT * FROM book WHERE ( price > 100 AND quantity > 0 ) ;"
  /\ store_of ∅ (construct_query book_chain_store book_chain) !! 0%nat
     = Some {[ "action" := VStr "db__select";
               "table_name" := VStr "book";
               "select" := VStr "*";
               "condition" := VStr "price > 100 AND quantity > 0";
               "ordering" := VStr "" ]}.
Proof.
  apply (construct_query_select_where_where "book" "price > 100" "quantity > 0").
  discriminate.
Defined.

(** C1 as stated fails: the text with two spaces before the semicolon is
    not what the chain of the specification compiles to. *)
Lemma construct_query_book_not_two_spaces :
  sql_of (construct_query book_chain_store book_chain)
  <> Ok "SELECT * FROM book WHERE ( price > 100 AND quantity > 0 )  ;".
Proof. vm_compute. discriminate. Qed.

Lemma py_eq_str v s : py_eq v (VStr s) = true -> v = VStr s.
Proof.
  destruct v; try discriminate. simpl. intros H.
  apply String.eqb_eq in H. congruence.
Qed.

Lemma select_not_star d :
  d !! "select" ≠ Some (VStr "*") ->
  py_eq (get d "select" (VStr "")) (VStr "*") = false.
Proof.
  intros Hne. destruct (py_eq _ _) eqn:Heq; [|reflexivity].
  apply py_eq_str in Heq. unfold get in Heq.
  destruct (d !! "select") as [v|]; simpl in Heq; [congruence|discriminate].
Qed.

(** C7.  [ordering_syntax] turns the list ["-id"] into the clause
    "ORDER BY  id DESC ": an entry with a leading hyphen becomes the column
    name between a space and " DESC ", the other entries stay, and the
    entries are joined by commas behind "ORDER BY "; the empty list gives
    the empty text.  A compilation stores in the first record the clause of
    its ordering list when its select clause is the star, and the empty
    text when its select clause is anything else, whatever the ordering
    list; the clause then fills the template, as the two compilations at
    the end show. *)
Theorem ordering_synthesis :
  ordering_syntax (VList [VStr "-id"]) = Ok "ORDER BY  id DESC "
  /\ ordering_syntax (VList []) = Ok ""
  /\ (forall names : list string,
        names ≠ [] ->
        ordering_syntax (VList (map VStr names))
        = Ok ("ORDER BY " +:+ String.concat "," (map ordering_entry_text names)))
  /\ (forall h res rest d sql h',
        h !! res = Some d ->
        construct_query h (res :: rest) = Ok (sql, h') ->
        exists d',
          h' !! res = Some d'
          /\ (d !! "select" = Some (VStr "*") ->
              d !! "ordering" = Some (VList [VStr "-id"]) ->
              d' !! "ordering" = Some (VStr "ORDER BY  id DESC "))
          /\ (d !! "select" = Some (VStr "*") ->
              d !! "ordering" = None \/ d !! "ordering" = Some (VList []) ->
              d' !! "ordering" = Some (VStr ""))
          /\ (d !! "select" ≠ Some (VStr "*") ->
              d' !! "ordering" = Some (VStr "")))
  /\ sql_of (construct_query (select_all_store "*" ["-id"]) [0%nat])
     = Ok "SELECT * FROM book ORDER BY  id DESC ;"
  /\ sql_of (construct_query (select_all_store "COUNT(*)" ["-id"]) [0%nat])
     = Ok "SELECT COUNT(*) FROM book ;".
Proof.
  split; [reflexivity|]. split; [reflexivity|].
  split; [exact ordering_syntax_names|].
  split; [|split; vm_compute; reflexivity].
  intros h res rest d sql h' Hd Hc.
  destruct (construct_query_frame _ _ _ _ _ _ Hd Hc)
    as [_ (d' & clause & action & template & query
           & Hd' & _ & Hclause & Hsyn & _)].
  exists d'. split; [assumption|]. repeat split.
  - intros Hsel Hord. unfold get in Hsyn. rewrite Hsel, Hord in Hsyn.
    simpl in Hsyn. vm_compute in Hsyn. congruence.
  - intros Hsel Hord. unfold get in Hsyn. rewrite Hsel in Hsyn. simpl in Hsyn.
    destruct Hord as [Hord|Hord]; rewrite Hord in Hsyn; vm_compute in Hsyn;
      congruence.
  - intros Hsel. rewrite (select_not_star _ Hsel) in Hsyn. congruence.
Qed.

(** The compilation part of [ordering_synthesis] at the two one-record
    chains. *)
Lemma ordering_synthesis_witness :
  (exists d',
     store_of ∅ (construct_query (select_all_store "*" ["-id"]) [0%nat]) !! 0%nat
     = Some d'
     /\ d' !! "ordering" = Some (VStr "ORDER BY  id DESC "))
  /\ (exists d',
        store_of ∅ (construct_query (select_all_store "COUNT(*)" ["-id"]) [0%nat])
          !! 0%nat = Some d'
        /\ d' !! "ordering" = Some (VStr "")).
Proof.
  destruct ordering_synthesis as (_ & _ & _ & Hcompile & _).
  split.
  - destruct (Hcompile (select_all_store "*" ["-id"]) 0%nat []
                {[ "action" := VStr "db__select_all"; "table_name" := VStr "book";
                   "select" := VStr "*"; "ordering" := VList [VStr "-id"] ]}
                "SELECT * FROM book ORDER BY  id DESC ;"
                (store_of ∅ (construct_query (select_all_store "*" ["-id"]) [0%nat]))
                eq_refl ltac:(vm_compute; reflexivity))
      as (d' & Hd' & Hstar & _).
    exists d'. split; [assumption|]. apply Hstar; reflexivity.
  - destruct (Hcompile (select_all_store "COUNT(*)" ["-id"]) 0%nat []
                {[ "action" := VStr "db__select_all"; "table_name" := VStr "book";
                   "select" := VStr "COUNT(*)"; "ordering" := VList [VStr "-id"] ]}
                "SELECT COUNT(*) FROM book ;"
                (store_of ∅
                   (construct_query (select_all_store "COUNT(*)" ["-id"]) [0%nat]))
                eq_refl ltac:(vm_compute; reflexivity))
      as (d' & Hd' & _ & _ & Hother).
    exists d'. split; [assumption|]. apply Hother. vm_compute. discriminate.
Defined.

(** C9.  Compilation writes into the first record of the chain it is given:
    after a call that returned, the other records are as before and the
    first one holds an ordering clause, with nothing changed in it besides
    [action], [condition] and [ordering].  On the chain of the
    specification the first record starts as a select-all without
    condition and ends as a conditioned select with the merged condition;
    compiled again, the same chain yields a different text, in which the two
    conditions are merged in once more. *)
Theorem construct_query_mutates_chain :
  (forall h res rest d sql h',
     h !! res = Some d ->
     construct_query h (res :: rest) = Ok (sql, h') ->
     (forall l, l ≠ res -> h' !! l = h !! l)
     /\ exists d' clause,
          h' !! res = Some d'
          /\ d' !! "ordering" = Some (VStr clause)
          /\ same_but ["action"; "condition"; "ordering"] d d')
  /\ let r1 := construct_query book_chain_store book_chain in
     let h1 := store_of book_chain_store r1 in
     let r2 := construct_query h1 book_chain in
     book_chain_store !! 0%nat
     = Some {[ "action" := VStr "db__select_all";
               "table_name" := VStr "book";
               "select" := VStr "*" ]}
     /\ sql_of r1 = Ok "SELECT * FROM book WHERE ( price > 100 AND quantity > 0 ) ;"
     /\ h1 !! 0%nat
        = Some {[ "action" := VStr "db__select";
                  "table_name" := VStr "book";
                  "select" := VStr "*";
                  "condition" := VStr "price > 100 AND quantity > 0";
                  "ordering" := VStr "" ]}
     /\ sql_of r2
        = Ok "SELECT * FROM book WHERE ( price > 100 AND quantity > 0 AND price > 100 AND quantity > 0 ) ;"
     /\ sql_of r2 ≠ sql_of r1.
Proof.
  split.
  - intros h res rest d sql h' Hd Hc.
    destruct (construct_query_frame _ _ _ _ _ _ Hd Hc)
      as [Hframe (d' & clause & action & template & query
                  & Hd' & Hsame & Hclause & _)].
    split; [assumption|]. exists d', clause. auto.
  - repeat split; try (vm_compute; reflexivity).
    vm_compute. discriminate.
Qed.

(** The first part of [construct_query_mutates_chain] at the chain of the
    specification. *)
Lemma construct_query_mutates_chain_witness :
  exists d' clause,
    store_of ∅ (construct_query book_chain_store book_chain) !! 0%nat = Some d'
    /\ d' !! "ordering" = Some (VStr clause).
Proof.
  destruct (proj1 construct_query_mutates_chain book_chain_store 0%nat [1; 2]%nat
              {[ "action" := VStr "db__select_all"; "table_name" := VStr "book";
                 "select" := VStr "*" ]}
              "SELECT * FROM book WHERE ( price > 100 AND quantity > 0 ) ;"
              (store_of ∅ (construct_query book_chain_store book_chain))
              eq_refl ltac:(vm_compute; reflexivity))
    as (_ & d' & clause & Hd' & Hclause & _).
  exists d', clause. split; assumption.
Defined.

End Compiler.

(** ** Paginated cursor *)

Section CursorProperties.

Import Cursor.

Context {Row : Type}.

Implicit Types (table : list Row) (st : @state Row).

Lemma fetches_app (cs cs' : list call) :
  fetches (cs ++ cs') = fetches cs ++ fetches cs'.
Proof.
  induction cs as [|c cs IH]; [reflexivity|].
  destruct c; simpl; rewrite IH; reflexivity.
Qed.

(** With a stop bound that the offset has reached, [get_results] signals the
    end of the sequence and asks the driver for no rows. *)
Lemma get_results_at_stop table st stop :
  _stop st = Some stop ->
  0 <= _forward st ->
  stop <= _forward st ->
  fst (get_results table st) = Raise StopAsyncIteration
  /\ fetches (calls (snd (get_results table st))) = fetches (calls st).
Proof.
  intros Hstop Hnonneg Hle.
  destruct st as [cur res step fwd stop' cs]. cbn in Hstop, Hnonneg, Hle.
  subst stop'. apply Z.leb_le in Hle.
  unfold get_results, get_results_body, driver_forward. cbn.
  destruct (fwd =? 0) eqn:Hz; cbn.
  - rewrite Hle. cbn. rewrite !fetches_app. cbn. rewrite !app_nil_r. auto.
  - assert (Hpos : (fwd <=? 0) = false).
    { apply Z.leb_gt. apply Z.eqb_neq in Hz. lia. }
    rewrite Hpos. cbn. rewrite Hle. cbn.
    rewrite !fetches_app. cbn. rewrite !app_nil_r. auto.
Qed.

Lemma anext_drained table st :
  drained st ->
  fst (anext table st) = Raise StopAsyncIteration
  /\ drained (snd (anext table st))
  /\ fetches (calls (snd (anext table st))) = fetches (calls st).
Proof.
  intros (Hc & Hr & Hs & Hf & Hstop).
  destruct st as [cur res step fwd stop cs]. cbn in *. subst.
  destruct cur as [pos|]; [|contradiction].
  cbv - [fetches app]. rewrite !fetches_app. cbn [fetches].
  rewrite !app_nil_r. repeat split; try reflexivity. discriminate.
Qed.

Lemma anext_times_drained table n : forall st,
  drained st ->
  fst (anext_times table n st) = repeat (Raise StopAsyncIteration) n
  /\ fetches (calls (snd (anext_times table n st))) = fetches (calls st).
Proof.
  induction n as [|n IH]; intros st Hd; [split; reflexivity|].
  cbn [anext_times].
  destruct (anext_drained table st Hd) as (Hout & Hd' & Hf).
  destruct (anext table st) as [r st1]. cbn [fst snd] in *.
  destruct (IH st1 Hd') as [Houts Hf'].
  destruct (anext_times table n st1) as [rs st2]. cbn [fst snd] in *.
  subst. split; [reflexivity|congruence].
Qed.

Lemma anext_times_add table n m st :
  anext_times table (n + m) st
  = let (rs, st1) := anext_times table n st in
    let (rs', st2) := anext_times table m st1 in
    (rs ++ rs', st2).
Proof.
  revert st. induction n as [|n IH]; intros st; cbn [anext_times Nat.add].
  - destruct (anext_times table m st). reflexivity.
  - destruct (anext table st) as [r st1]. rewrite IH.
    destruct (anext_times table n st1) as [rs st2].
    destruct (anext_times table m st2). reflexivity.
Qed.

(** C2.  A cursor with batch size 3, offset 0 and stop bound 7, over a query
    that selects seven rows or more: the first seven calls of [__anext__]
    hand out the first seven rows, with the driver asked for 3, 3 and 1
    rows; every later call signals the end of the sequence, and asks the
    driver for no rows (the eighth call opens a cursor, passes over seven
    rows and leaves).  In any state, [get_results] with the offset at or
    beyond the stop bound signals the end of the sequence without a
    fetch. *)
Theorem cursor_step_3_stop_7 :
  (forall table,
     (7 <= length table)%nat ->
     let start := init 3 0 (Some 7) in
     (forall n,
        fst (anext_times table (7 + S n) start)
        = map Ok (take 7 table) ++ repeat (Raise StopAsyncIteration) (S n)
        /\ fetches (calls (snd (anext_times table (7 + S n) start))) = [3; 3; 1])
     /\ calls (snd (anext_times table 7 start))
        = [Begin; OpenCursor; Fetch 3; Commit;
           Begin; OpenCursor; Forward 3; Fetch 3; Commit;
           Begin; OpenCursor; Forward 6; Fetch 1; Commit]
     /\ calls (snd (anext_times table 8 start))
        = calls (snd (anext_times table 7 start))
          ++ [Begin; OpenCursor; Forward 7; Rollback])
  /\ (forall table st stop,
        _stop st = Some stop ->
        0 <= _forward st ->
        stop <= _forward st ->
        fst (get_results table st) = Raise StopAsyncIteration
        /\ fetches (calls (snd (get_results table st))) = fetches (calls st)).
Proof.
  split; [|exact get_results_at_stop].
  intros table Hlen start.
  destruct table as [|r0 [|r1 [|r2 [|r3 [|r4 [|r5 [|r6 rest]]]]]]];
    cbn in Hlen; try lia.
  assert (H7 : anext_times (r0 :: r1 :: r2 :: r3 :: r4 :: r5 :: r6 :: rest) 7 start
               = ([Ok r0; Ok r1; Ok r2; Ok r3; Ok r4; Ok r5; Ok r6],
                  {| _cursor := Some 7%nat; _results := []; _step := 1;
                     _forward := 6; _stop := Some 7;
                     calls := [Begin; OpenCursor; Fetch 3; Commit;
                               Begin; OpenCursor; Forward 3; Fetch 3; Commit;
                               Begin; OpenCursor; Forward 6; Fetch 1; Commit] |}))
    by (vm_compute; reflexivity).
  assert (H8 : anext (r0 :: r1 :: r2 :: r3 :: r4 :: r5 :: r6 :: rest)
                 {| _cursor := Some 7%nat; _results := []; _step := 1;
                    _forward := 6; _stop := Some 7;
                    calls := [Begin; OpenCursor; Fetch 3; Commit;
                              Begin; OpenCursor; Forward 3; Fetch 3; Commit;
                              Begin; OpenCursor; Forward 6; Fetch 1; Commit] |}
               = (Raise StopAsyncIteration,
                  {| _cursor := Some 7%nat; _results := []; _step := 1;
                     _forward := 7; _stop := Some 7;
                     calls := [Begin; OpenCursor; Fetch 3; Commit;
                               Begin; OpenCursor; Forward 3; Fetch 3; Commit;
                               Begin; OpenCursor; Forward 6; Fetch 1; Commit;
                               Begin; OpenCursor; Forward 7; Rollback] |}))
    by (vm_compute; reflexivity).
  split; [|split].
  - intros n. rewrite anext_times_add, H7. cbn [anext_times]. rewrite H8.
    match goal with
    | |- context [anext_times ?t n ?s] =>
        destruct (anext_times_drained t n s) as [Houts Hf];
          [repeat split; discriminate|];
          destruct (anext_times t n s) as [rs st2]
    end.
    cbn [fst snd] in *. subst rs. split; [reflexivity|]. rewrite Hf. reflexivity.
  - rewrite H7. reflexivity.
  - change 8%nat with (7 + 1)%nat. rewrite anext_times_add, H7.
    cbn [anext_times]. rewrite H8. reflexivity.
Qed.

End CursorProperties.

(** [cursor_step_3_stop_7] over nine rows, and at a cursor whose offset has
    reached its stop bound. *)
Lemma cursor_step_3_stop_7_witness :
  let table := [10; 11; 12; 13; 14; 15; 16; 17; 18]%nat in
  (fst (Cursor.anext_times table 8 (Cursor.init 3 0 (Some 7)))
   = [Ok 10; Ok 11; Ok 12; Ok 13; Ok 14; Ok 15; Ok 16; Raise StopAsyncIteration]%nat
   /\ Cursor.fetches
        (Cursor.calls (snd (Cursor.anext_times table 8 (Cursor.init 3 0 (Some 7)))))
      = [3; 3; 1])
  /\ fst (Cursor.get_results table (Cursor.init 3 7 (Some 7)))
     = Raise StopAsyncIteration.
Proof.
  intros table. split.
  - apply (proj1 (proj1 cursor_step_3_stop_7 table ltac:(cbn; lia)) 0%nat).
  - apply (proj2 cursor_step_3_stop_7 table (Cursor.init 3 7 (Some 7)) 7);
      [reflexivity | cbn; lia | cbn; lia].
Defined.

(** ** Field type system *)

Section FieldProperties.

Import Fields.

Variable lib : Library.

Implicit Types (f : field) (v : pyval).

(** *** [validate] and [sanitize_data] on [None] *)

Lemma py_eq_None_l v : py_eq VNone v = true <-> v = VNone.
Proof. destruct v; simpl; split; intros H; congruence. Qed.

(** [Field.validate] on [None]: the field must admit null, and its choices,
    if any, must list [None]. *)
Lemma Field_validate_None f null :
  getattr f "null" = Ok null ->
  Field_validate f VNone
  = if negb (truthy null) then Raise FieldError
    else if choices_admit_None f then Ok VNone
    else if choices_exclude_None f then Raise FieldError
    else Raise AttributeError.
Proof.
  intros Hnull. unfold Field_validate, choices_admit_None, choices_exclude_None.
  cbn [is_none]. rewrite Hnull. cbn [bind].
  destruct (truthy null); cbn [negb bind]; [|reflexivity].
  destruct (attrs f !! "choices") as [[]|]; cbn; try reflexivity.
  destruct (existsb _ items); reflexivity.
Qed.

(** C3, as the code has it.  For a field of any class but the two whose
    validation is the address parsing of netaddr: declared with null false,
    [validate(None)] raises [FieldError]; declared with null true, and of
    any class but the email class, [validate(None)] succeeds when the field
    has no choices or its choices list [None], and raises [FieldError] when
    its choices do not list [None]. *)
Theorem validate_None f :
  cls f <> GenericIPAddressField ->
  cls f <> MACAdressField ->
  (getattr f "null" = Ok (VBool false) -> validate lib f VNone = Raise FieldError)
  /\ (getattr f "null" = Ok (VBool true) ->
      choices_exclude_None f = true ->
      validate lib f VNone = Raise FieldError)
  /\ (getattr f "null" = Ok (VBool true) ->
      cls f <> EmailField ->
      choices_admit_None f = true ->
      validate lib f VNone = Ok VNone).
Proof.
  intros Hip Hmac. unfold validate.
  assert (Hexcl : choices_exclude_None f = true -> choices_admit_None f = false).
  { unfold choices_exclude_None, choices_admit_None.
    destruct (attrs f !! "choices") as [[]|]; try discriminate.
    intros H. apply negb_true_iff in H. exact H. }
  repeat split.
  - intros Hnull.
    pose proof (Field_validate_None f _ Hnull) as H. cbn in H.
    destruct (cls f); try contradiction;
      unfold EmailField_validate, ManyToManyField_validate, ArrayField_validate;
      rewrite H; reflexivity.
  - intros Hnull Hchoices.
    pose proof (Field_validate_None f _ Hnull) as H. cbn in H.
    rewrite (Hexcl Hchoices), Hchoices in H.
    destruct (cls f); try contradiction;
      unfold EmailField_validate, ManyToManyField_validate, ArrayField_validate;
      rewrite H; reflexivity.
  - intros Hnull Hemail Hchoices.
    pose proof (Field_validate_None f _ Hnull) as H. cbn in H.
    rewrite Hchoices in H.
    destruct (cls f); try contradiction;
      unfold ManyToManyField_validate, ArrayField_validate;
      rewrite H; reflexivity.
Qed.

(** A nullable email field that admits [None] by its choices does not
    validate it: the regular expression is matched against [None], a
    [TypeError]. *)
Lemma EmailField_validate_None f :
  cls f = EmailField ->
  getattr f "null" = Ok (VBool true) ->
  choices_admit_None f = true ->
  validate lib f VNone = Raise TypeError.
Proof.
  intros Hcls Hnull Hc. unfold validate, EmailField_validate. rewrite Hcls.
  rewrite (Field_validate_None f _ Hnull). cbn [truthy negb]. rewrite Hc.
  reflexivity.
Qed.

(** C10, as the code has it.  For a Char or Json field declared nullable
    that has no choices, or whose choices list [None]: [validate(None)]
    accepts, and [sanitize_data(None)] neither returns nor raises
    [FieldError]: the length check applies [len] to [None], a [TypeError].
    When the choices of the field do not list [None], [sanitize_data(None)]
    raises the [FieldError] of [validate]. *)
Theorem sanitize_data_None f :
  cls f = CharField \/ cls f = JsonField ->
  getattr f "null" = Ok (VBool true) ->
  (choices_admit_None f = true ->
   validate lib f VNone = Ok VNone /\ sanitize_data lib f VNone = Raise TypeError)
  /\ (choices_exclude_None f = true ->
      sanitize_data lib f VNone = Raise FieldError).
Proof.
  intros Hcls Hnull.
  pose proof (Field_validate_None f _ Hnull) as Hv. cbn [truthy negb] in Hv.
  assert (Hexcl : choices_exclude_None f = true -> choices_admit_None f = false).
  { unfold choices_exclude_None, choices_admit_None.
    destruct (attrs f !! "choices") as [[]|]; try discriminate.
    intros H. apply negb_true_iff in H. exact H. }
  split.
  - intros Hc. rewrite Hc in Hv.
    assert (Hval : validate lib f VNone = Ok VNone)
      by (unfold validate; destruct Hcls as [E|E]; rewrite E; exact Hv).
    split; [exact Hval|].
    unfold sanitize_data.
    destruct Hcls as [E|E]; rewrite E;
      unfold CharField_sanitize_data, JsonField_sanitize_data, Field_sanitize_data;
      rewrite Hval; reflexivity.
  - intros Hc. rewrite (Hexcl Hc), Hc in Hv.
    assert (Hval : validate lib f VNone = Raise FieldError)
      by (unfold validate; destruct Hcls as [E|E]; rewrite E; exact Hv).
    unfold sanitize_data.
    destruct Hcls as [E|E]; rewrite E;
      unfold CharField_sanitize_data, JsonField_sanitize_data, Field_sanitize_data;
      rewrite Hval; reflexivity.
Qed.

(** *** [recompose] after [sanitize_data] *)

Lemma prefix_split (p s : string) :
  String.prefix p s = true -> exists b, s = p +:+ b.
Proof.
  revert s. induction p as [|c p IH]; intros s H.
  - exists s. reflexivity.
  - destruct s as [|c' s]; [discriminate|]. simpl in H.
    destruct (ascii_dec c c') as [->|]; [|discriminate].
    destruct (IH s H) as [b ->]. exists b. reflexivity.
Qed.

Lemma prefix_append (p b : string) : String.prefix p (p +:+ b) = true.
Proof.
  induction p as [|c p IH]; simpl; [by destruct b|].
  destruct (ascii_dec c c); [assumption|contradiction].
Qed.

Lemma occurs_in_contains (sub s : string) :
  occurs_in sub s <-> contains s sub = true.
Proof.
  split.
  - intros (a & b & ->). induction a as [|c a IH].
    + change ("" +:+ sub +:+ b) with (sub +:+ b).
      assert (Hunfold : forall s, String.prefix sub s = true -> contains s sub = true)
        by (intros [|c s] H; cbn [contains]; rewrite H; reflexivity).
      apply Hunfold, prefix_append.
    + simpl. rewrite IH. apply orb_true_r.
  - induction s as [|c s IH]; cbn [contains]; intros H.
    + rewrite orb_false_r in H. destruct (prefix_split _ _ H) as [b Hb].
      exists "", b. exact Hb.
    + apply orb_true_iff in H as [H|H].
      * destruct (prefix_split _ _ H) as [b Hb]. exists "", b. exact Hb.
      * destruct (IH H) as (a & b & ->). exists (String c a), b. reflexivity.
Qed.

(** Replacing a text that does not occur changes nothing. *)
Lemma replace_absent (s old new : string) :
  ~ occurs_in old s -> replace s old new = s.
Proof.
  unfold replace. induction s as [|c s IH]; intros Habs; [reflexivity|].
  cbn [replace_from].
  destruct (String.prefix old (String c s)) eqn:Hp.
  - exfalso. apply Habs. destruct (prefix_split _ _ Hp) as [b Hb].
    exists "", b. exact Hb.
  - f_equal. apply IH. intros (a & b & ->). apply Habs.
    exists (String c a), b. reflexivity.
Qed.

(** What [CharField.sanitize_data] returns for a string is the string. *)
Lemma CharField_sanitize_data_str f s r :
  cls f = CharField \/ cls f = EmailField ->
  sanitize_data lib f (VStr s) = Ok r -> r = VStr s.
Proof.
  intros Hcls H. unfold sanitize_data in H.
  assert (H' : CharField_sanitize_data lib f (VStr s) = Ok r)
    by (destruct Hcls as [Hc|Hc]; rewrite Hc in H; exact H).
  clear H. unfold CharField_sanitize_data, Field_sanitize_data in H'.
  destruct (validate lib f (VStr s)); cbn [bind] in H'; [|discriminate].
  cbn [py_len bind] in H'.
  bind_ok H' m Hm. bind_ok H' long Hlong.
  destruct long; [discriminate|]. injection H' as <-. reflexivity.
Qed.

(** C4.  For a Char field (the email class included) and a string [v] in
    which neither the backslash-semicolon nor the backslash-hyphen-hyphen
    occurs: when [sanitize_data(v)] returns, [recompose] of what it returns
    is [v]. *)
Theorem recompose_sanitize_data f (v : string) r :
  cls f = CharField \/ cls f = EmailField ->
  ~ occurs_in "\;" v ->
  ~ occurs_in "\--" v ->
  sanitize_data lib f (VStr v) = Ok r ->
  CharField_recompose r = Ok (VStr v).
Proof.
  intros Hcls Hsemi Hdash Hsan.
  rewrite (CharField_sanitize_data_str f v r Hcls Hsan).
  unfold CharField_recompose.
  rewrite (replace_absent v "\;" ";" Hsemi), (replace_absent v "\--" "--" Hdash).
  reflexivity.
Qed.

(** *** What the constructors leave in the instance dictionary *)

Lemma set_attributes_lookup items : forall a a' k,
  set_attributes a items = Ok a' ->
  (k = "choices" -> lookup_later items k = None) ->
  a' !! k = match lookup_later items k with
            | Some v => Some v
            | None => a !! k
            end.
Proof.
  induction items as [|[kw v] items IH]; intros a a' k Hset Hk.
  - injection Hset as <-. reflexivity.
  - cbn [set_attributes] in Hset. bind_ok Hset a1 Ha1.
    cbn [lookup_later] in *.
    assert (Hk' : k = "choices" -> lookup_later items k = None).
    { intros E. specialize (Hk E). destruct (lookup_later items k); congruence. }
    rewrite (IH _ _ _ Hset Hk').
    destruct (lookup_later items k) as [v'|] eqn:Hl; [reflexivity|].
    destruct (String.eqb kw k) eqn:Hkw.
    + apply String.eqb_eq in Hkw. subst kw.
      assert (Hne : k <> "choices").
      { intros E. specialize (Hk E). discriminate. }
      apply String.eqb_neq in Hne. rewrite Hne in Ha1. injection Ha1 as <-.
      apply lookup_insert_eq.
    + apply String.eqb_neq in Hkw.
      destruct (String.eqb kw "choices") eqn:Hc.
      * apply String.eqb_eq in Hc. subst kw.
        destruct v; try (injection Ha1 as <-);
          try (bind_ok Ha1 pairs Hp; bind_ok Ha1 d Hd; injection Ha1 as <-);
          rewrite ?lookup_insert_ne by assumption; reflexivity.
      * injection Ha1 as <-. rewrite lookup_insert_ne by assumption. reflexivity.
Qed.

Lemma validate_kwargs_lookup c a kwargs a' k :
  validate_kwargs c a kwargs = Ok a' ->
  k <> "db_column" ->
  a' !! k = a !! k.
Proof.
  intros H Hk. unfold validate_kwargs in H.
  bind_ok H u1 H1. bind_ok H u2 H2.
  destruct (truthy _); [|congruence].
  unfold set_field_name in H.
  destruct (kwargs_get kwargs "db_column" VNone); try discriminate.
  destruct (contains s "__"); [discriminate|].
  destruct (startswith s "_"); [discriminate|].
  destruct (endswith s "_"); [discriminate|].
  injection H as <-. rewrite lookup_insert_ne by congruence. reflexivity.
Qed.

(** The steps of a construction that returned. *)
Lemma init_Ok c args f :
  init c args = Ok f ->
  exists a0 a1 a2,
    before_init c args = Ok a0
    /\ validate_kwargs c a0 (forwarded c args) = Ok a1
    /\ set_attributes
         (<["db_index" := VBool false]> (<["field_type" := VStr (class_name c)]> a1))
         (forwarded c args) = Ok a2
    /\ f = after_init c args {| cls := c; attrs := a2 |}.
Proof.
  unfold init. destruct (negb _); [discriminate|]. intros H.
  bind_ok H a0 H0. bind_ok H f1 H1. injection H as <-.
  unfold Field_init in H1. bind_ok H1 a1 Ha1. bind_ok H1 a2 Ha2.
  injection H1 as <-. exists a0, a1, a2. auto.
Qed.

Lemma init_cls c args f : init c args = Ok f -> cls f = c.
Proof.
  intros H. destruct (init_Ok _ _ _ H) as (a0 & a1 & a2 & _ & _ & _ & ->).
  destruct c; reflexivity.
Qed.

(** A keyword argument handed to [Field.__init__] is an attribute of the
    field. *)
Lemma init_attr c args f k v :
  init c args = Ok f ->
  lookup_later (forwarded c args) k = Some v ->
  k <> "choices" ->
  attrs f !! k = Some v.
Proof.
  intros H Hl Hk. destruct (init_Ok _ _ _ H) as (a0 & a1 & a2 & _ & _ & Hset & ->).
  pose proof (set_attributes_lookup _ _ _ k Hset ltac:(congruence)) as Hk2.
  rewrite Hl in Hk2.
  destruct c; cbn [after_init attrs]; try exact Hk2.
  rewrite lookup_insert_ne; [exact Hk2|].
  intros <-. cbn in Hl. discriminate.
Qed.

Lemma init_field_type c args f :
  init c args = Ok f -> attrs f !! "field_type" = Some (VStr (class_name c)).
Proof.
  intros H. destruct (init_Ok _ _ _ H) as (a0 & a1 & a2 & _ & _ & Hset & ->).
  pose proof (set_attributes_lookup _ _ _ "field_type" Hset ltac:(discriminate))
    as Hk.
  assert (Hl : lookup_later (forwarded c args) "field_type" = None)
    by (destruct c; reflexivity).
  rewrite Hl in Hk. rewrite lookup_insert_ne, lookup_insert_eq in Hk by discriminate.
  destruct c; cbn [after_init attrs]; try exact Hk.
  rewrite lookup_insert_ne by discriminate. exact Hk.
Qed.

(** An Array field has no choices. *)
Lemma init_ArrayField_choices args f :
  init ArrayField args = Ok f -> attrs f !! "choices" = None.
Proof.
  intros H. destruct (init_Ok _ _ _ H) as (a0 & a1 & a2 & H0 & H1 & Hset & ->).
  pose proof (set_attributes_lookup _ _ _ "choices" Hset ltac:(reflexivity)) as Hk.
  cbn [forwarded lookup_later String.eqb Ascii.eqb Bool.eqb] in Hk.
  cbn [after_init attrs]. rewrite lookup_insert_ne by discriminate.
  rewrite Hk. rewrite !lookup_insert_ne by discriminate.
  rewrite (validate_kwargs_lookup _ _ _ _ "choices" H1) by discriminate.
  injection H0 as <-. apply lookup_empty.
Qed.

(** *** Array validation *)

Lemma same_lengths_lists first items :
  is_list first = true ->
  forallb is_list items = true ->
  same_lengths first items
  = Ok (forallb (fun x => (list_length x =? list_length first)%nat) items).
Proof.
  intros Hf. induction items as [|x items IH]; intros Hl; [reflexivity|].
  cbn [forallb] in *. apply andb_true_iff in Hl as [Hx Hl].
  destruct x; try discriminate. destruct first; try discriminate.
  cbn [same_lengths py_len bind list_length].
  rewrite (IH Hl).
  destruct (Nat.eqb_spec (length l) (length l0)) as [E|E].
  - rewrite E, Z.eqb_refl. reflexivity.
  - destruct (Z.eqb_spec (Z.of_nat (length l)) (Z.of_nat (length l0))); [lia|].
    reflexivity.
Qed.

(** [ArrayField.validate] on a list, for a field without choices *)
Lemma ArrayField_validate_list f items :
  attrs f !! "choices" = None ->
  cls f = ArrayField ->
  validate lib f (VList items)
  = match items with
    | [] => Ok (VList [])
    | first :: rest =>
        if forallb (fun x => isinstance x (type_of first)) rest then
          if pytype_eqb (type_of first) T_list then
            do same <- same_lengths first items;
            if negb same then Raise FieldError else Ok (VList items)
          else Ok (VList items)
        else Raise FieldError
    end.
Proof.
  intros Hc Hcls. unfold validate. rewrite Hcls.
  unfold ArrayField_validate, Field_validate. rewrite Hc, Hcls.
  cbn [is_none bind internal_type isinstance_any existsb isinstance type_of
       issubclass pytype_eqb orb negb andb].
  destruct items as [|first rest]; [reflexivity|].
  cbn [truthy homogeneous_type py_iter bind].
  destruct (forallb _ rest); [|reflexivity].
  cbn [bind]. destruct (pytype_eqb (type_of first) T_list); reflexivity.
Qed.

(** C5, as the code has it.  For an Array field as its constructor builds
    it: [validate] raises [FieldError] on a list with an element that is
    not an instance of the class of the first element; it returns on a
    non-empty list of lists that all have one length; it raises
    [FieldError] on a list of lists two of which differ in length. *)
Theorem ArrayField_validate_lists args f :
  init ArrayField args = Ok f ->
  (forall first rest x,
     x ∈ rest ->
     isinstance x (type_of first) = false ->
     validate lib f (VList (first :: rest)) = Raise FieldError)
  /\ (forall items n,
        items <> [] ->
        Forall (fun x => is_list x = true /\ list_length x = n) items ->
        validate lib f (VList items) = Ok (VList items))
  /\ (forall items x y,
        Forall (fun x => is_list x = true) items ->
        x ∈ items -> y ∈ items ->
        list_length x <> list_length y ->
        validate lib f (VList items) = Raise FieldError).
Proof.
  intros Hinit.
  pose proof (init_ArrayField_choices _ _ Hinit) as Hc.
  pose proof (init_cls _ _ _ Hinit) as Hcls.
  repeat split.
  - intros first rest x Hx Hinst.
    rewrite (ArrayField_validate_list f _ Hc Hcls).
    assert (Hall : forallb (fun x => isinstance x (type_of first)) rest = false).
    { apply not_true_is_false. intros Hall.
      rewrite forallb_forall in Hall. apply list_elem_of_In in Hx.
      rewrite (Hall x Hx) in Hinst. discriminate. }
    rewrite Hall. reflexivity.
  - intros items n Hne Hall.
    rewrite (ArrayField_validate_list f _ Hc Hcls).
    destruct items as [|first rest]; [contradiction|].
    assert (Hlists : forallb is_list (first :: rest) = true).
    { apply forallb_forall. intros x Hx. apply list_elem_of_In in Hx.
      rewrite Forall_forall in Hall. apply (Hall x Hx). }
    pose proof Hlists as Hlists'. cbn [forallb] in Hlists'.
    apply andb_true_iff in Hlists' as [Hfirst Hrest].
    destruct first as [| | | |l0| | | |]; try discriminate.
    assert (Hinst : forallb (fun x => isinstance x (type_of (VList l0))) rest = true).
    { apply forallb_forall. intros x Hx. rewrite forallb_forall in Hrest.
      specialize (Hrest x Hx). destruct x; try discriminate. reflexivity. }
    rewrite Hinst. cbn [type_of pytype_eqb].
    rewrite (same_lengths_lists (VList l0) _ eq_refl Hlists).
    assert (Hsame : forallb (fun x => (list_length x =? list_length (VList l0))%nat)
                      (VList l0 :: rest) = true).
    { apply forallb_forall. intros x Hx. apply list_elem_of_In in Hx.
      rewrite Forall_forall in Hall.
      destruct (Hall x Hx) as [_ Hn].
      destruct (Hall (VList l0) ltac:(left)) as [_ Hn0].
      rewrite Hn, Hn0. apply Nat.eqb_refl. }
    rewrite Hsame. reflexivity.
  - intros items x y Hall Hx Hy Hlen.
    rewrite (ArrayField_validate_list f _ Hc Hcls).
    destruct items as [|first rest]; [inversion Hx|].
    assert (Hlists : forallb is_list (first :: rest) = true).
    { apply forallb_forall. intros z Hz. apply list_elem_of_In in Hz.
      rewrite Forall_forall in Hall. apply (Hall z Hz). }
    pose proof Hlists as Hlists'. cbn [forallb] in Hlists'.
    apply andb_true_iff in Hlists' as [Hfirst Hrest].
    destruct first as [| | | |l0| | | |]; try discriminate.
    assert (Hinst : forallb (fun x => isinstance x (type_of (VList l0))) rest = true).
    { apply forallb_forall. intros z Hz. rewrite forallb_forall in Hrest.
      specialize (Hrest z Hz). destruct z; try discriminate. reflexivity. }
    rewrite Hinst. cbn [type_of pytype_eqb].
    rewrite (same_lengths_lists (VList l0) _ eq_refl Hlists).
    assert (Hsame : forallb (fun x => (list_length x =? list_length (VList l0))%nat)
                      (VList l0 :: rest) = false).
    { apply not_true_is_false. intros Hsame. rewrite forallb_forall in Hsame.
      apply list_elem_of_In in Hx, Hy.
      pose proof (Hsame x Hx) as Ex. pose proof (Hsame y Hy) as Ey.
      apply Nat.eqb_eq in Ex, Ey. congruence. }
    rewrite Hsame. reflexivity.
Qed.

(** *** Construction that fails *)

Lemma check_required_FieldError kwargs required :
  check_required kwargs required = Ok tt
  \/ check_required kwargs required = Raise FieldError.
Proof.
  induction required as [|kw required IH]; [left; reflexivity|].
  cbn [check_required]. destruct (negb _); auto.
Qed.

Lemma check_required_missing kwargs required kw :
  In kw required ->
  truthy (kwargs_get kwargs kw VNone) = false ->
  check_required kwargs required = Raise FieldError.
Proof.
  induction required as [|kw' required IH]; intros Hin Hf; [contradiction|].
  cbn [check_required]. destruct Hin as [->|Hin].
  - rewrite Hf. reflexivity.
  - destruct (negb _); [reflexivity|]. by apply IH.
Qed.

Lemma check_types_FieldError kwargs :
  known_keys kwargs = true ->
  check_types kwargs = (if existsb (fun kv => mistyped (fst kv) (snd kv)) kwargs
                        then Raise FieldError else Ok tt).
Proof.
  induction kwargs as [|[k v] kwargs IH]; intros Hk; [reflexivity|].
  cbn [known_keys forallb fst] in Hk. apply andb_true_iff in Hk as [Hk1 Hk2].
  cbn [check_types existsb fst snd]. unfold mistyped at 1.
  destruct (lookup_types k KWARGS_TYPES) as [ts|]; [|discriminate].
  cbn [bind].
  destruct (negb (isinstance_any v ts) && negb (is_none v && String.eqb k "choices"));
    [reflexivity|].
  cbn [orb]. by apply IH.
Qed.

Lemma forwarded_known c args : known_keys (forwarded c args) = true.
Proof. destruct c; reflexivity. Qed.

Lemma validate_kwargs_FieldError c a args :
  (exists a', validate_kwargs c a (forwarded c args) = Ok a')
  \/ validate_kwargs c a (forwarded c args) = Raise FieldError.
Proof.
  unfold validate_kwargs.
  destruct (check_required_FieldError (forwarded c args) (required_kwargs c)) as [->| ->];
    [|right; reflexivity].
  cbn [bind]. rewrite (check_types_FieldError _ (forwarded_known c args)).
  destruct (existsb _ _) eqn:Hex; [right; reflexivity|]. cbn [bind].
  destruct (truthy _) eqn:Ht; [|left; eauto].
  assert (Hcol : exists dflt,
             (forall d, kwargs_get (forwarded c args) "db_column" d
                        = param args "db_column" dflt)
             /\ In ("db_column", param args "db_column" dflt) (forwarded c args)).
  { destruct c; eexists; (split; [intros d; reflexivity|]); cbn;
      repeat (first [left; reflexivity | right]). }
  destruct Hcol as (dflt & Hcol & Hin). rewrite !Hcol in *.
  assert (Hm : mistyped "db_column" (param args "db_column" dflt) = false).
  { destruct (mistyped _ _) eqn:Hm; [|reflexivity].
    assert (existsb (fun kv => mistyped (fst kv) (snd kv)) (forwarded c args) = true)
      by (apply existsb_exists; eexists; split; [exact Hin | exact Hm]).
    congruence. }
  destruct (param args "db_column" dflt) as [| | |s| | | |t ? ? ?|];
    try discriminate Hm; [|destruct t; discriminate Hm].
  unfold set_field_name.
  destruct (contains s "__"); [right; reflexivity|].
  destruct (startswith s "_"); [right; reflexivity|].
  destruct (endswith s "_"); [right; reflexivity|]. left. eauto.
Qed.

Lemma isinstance_str v : isinstance v T_str = true -> exists s, v = VStr s.
Proof.
  destruct v as [| | |s| | | |t ? ? ?|]; try discriminate; [eauto|].
  destruct t; discriminate.
Qed.

(** Before [Field.__init__] is reached, a constructor has returned or has
    raised [FieldError], provided the protocol arguments of an address
    field are strings and the dialect of a MAC field can be hashed. *)
Lemma before_init_FieldError c args :
  (c = GenericIPAddressField ->
   isinstance (param args "protocol" (VStr "both")) T_str = true
   /\ isinstance (param args "unpack_protocol" (VStr "same")) T_str = true) ->
  (c = MACAdressField -> hashable (param args "dialect" (VStr "unix")) = true) ->
  (exists a0, before_init c args = Ok a0) \/ before_init c args = Raise FieldError.
Proof.
  intros Hip Hmac. destruct c; try (left; eexists; reflexivity).
  - cbn [before_init]. destruct (negb _); [right|left]; eauto.
  - destruct (Hip eq_refl) as [Hp Hu].
    apply isinstance_str in Hp as [p Hp]. apply isinstance_str in Hu as [u Hu].
    cbn [before_init]. rewrite Hp, Hu. cbn [str_lower bind].
    destruct (negb (str_in (lower p) _)); [right; reflexivity|].
    destruct (negb (str_in (lower u) _)); [right; reflexivity|].
    destruct (_ && _); [right|left]; eauto.
  - cbn [before_init]. rewrite (Hmac eq_refl). cbn [negb].
    destruct (negb _); [right|left]; eauto.
Qed.

(** C8, as the code has it.  A constructor called with keyword arguments
    among its parameters raises [FieldError] when a required parameter is
    missing or false (such as 0 or the empty string), when an argument is
    not an instance of the type declared for its parameter, or when the
    column name given is not empty and holds two underscores in a row,
    starts with one or ends with one.  Left aside: a [strftime] argument
    that is false (the date and time constructors put the format of the
    class in its place), the address constructor called with a protocol or
    an unpack protocol that is not a string, and the MAC constructor
    called with a dialect that cannot be hashed. *)
Theorem init_FieldError c args :
  map_Forall (fun k _ => k ∈ map fst (signature c)) args ->
  (c = GenericIPAddressField ->
   isinstance (param args "protocol" (VStr "both")) T_str = true
   /\ isinstance (param args "unpack_protocol" (VStr "same")) T_str = true) ->
  (c = MACAdressField -> hashable (param args "dialect" (VStr "unix")) = true) ->
  (exists kw, In kw (required_kwargs c)
              /\ (args !! kw = None
                  \/ exists v, args !! kw = Some v /\ truthy v = false))
  \/ (exists k v, args !! k = Some v
                  /\ mistyped k v = true
                  /\ ~ (date_or_time_class c = true /\ k = "strftime"
                        /\ truthy v = false))
  \/ (exists s, args !! "db_column" = Some (VStr s)
                /\ s <> "" /\ bad_column_name s = true) ->
  init c args = Raise FieldError.
Proof.
  intros Hkeys Hip Hmac Hcases. unfold init.
  rewrite (bool_decide_eq_true_2 _ Hkeys). cbn [negb].
  destruct (before_init_FieldError c args Hip Hmac) as [[a0 ->]| ->];
    [|reflexivity].
  cbn [bind]. unfold Field_init.
  enough (Hv : validate_kwargs c a0 (forwarded c args) = Raise FieldError)
    by (rewrite Hv; reflexivity).
  unfold validate_kwargs.
  destruct Hcases as [(kw & Hin & Hkw) | [(k & v & Hk & Hm & Hstrf) | (s & Hs & Hne & Hbad)]].
  - rewrite (check_required_missing _ _ kw Hin); [reflexivity|].
    destruct c; cbn in Hin; try contradiction; destruct Hin as [<-|[]];
      cbn [forwarded bound signature map fst snd kwargs_get String.eqb Ascii.eqb
           Bool.eqb]; unfold param;
      (destruct Hkw as [-> | (v & -> & Hv)]; [reflexivity | exact Hv]).
  - destruct (check_required_FieldError (forwarded c args) (required_kwargs c))
      as [-> | ->]; [|reflexivity].
    cbn [bind]. rewrite (check_types_FieldError _ (forwarded_known c args)).
    enough (Hex : existsb (fun kv => mistyped (fst kv) (snd kv)) (forwarded c args)
                  = true) by (rewrite Hex; reflexivity).
    apply existsb_exists. exists (k, v). split; [|exact Hm].
    pose proof (map_Forall_lookup_1 _ _ _ _ Hkeys Hk) as Hsig.
    apply list_elem_of_In in Hsig.
    assert (Htruthy : date_or_time_class c = true -> k = "strftime" -> truthy v = true).
    { intros Hc Hkk. destruct (truthy v); [reflexivity|]. exfalso. apply Hstrf. auto. }
    destruct c; cbn in Hsig;
      repeat (destruct Hsig as [<- | Hsig]; [|]); try contradiction;
      try discriminate Hm;
      cbn [forwarded bound signature map fst snd]; unfold param; rewrite ?Hk;
      cbn [default from_option id]; rewrite ?(Htruthy eq_refl eq_refl);
      cbn [In]; repeat (first [left; reflexivity | right]).
  - destruct (check_required_FieldError (forwarded c args) (required_kwargs c))
      as [-> | ->]; [|reflexivity].
    cbn [bind]. rewrite (check_types_FieldError _ (forwarded_known c args)).
    destruct (existsb _ _); [reflexivity|]. cbn [bind].
    assert (Hcol : forall d, kwargs_get (forwarded c args) "db_column" d = VStr s).
    { intros d. destruct c;
        cbn [forwarded bound signature map fst snd kwargs_get String.eqb Ascii.eqb
             Bool.eqb]; unfold param; rewrite Hs; reflexivity. }
    rewrite !Hcol. cbn [truthy].
    destruct (String.eqb_spec s ""); [contradiction|]. cbn [negb].
    unfold set_field_name. unfold bad_column_name in Hbad.
    destruct (contains s "__"); [reflexivity|].
    destruct (startswith s "_"); [reflexivity|].
    destruct (endswith s "_"); [reflexivity|discriminate].
Qed.

(** *** [creation_query] *)

Lemma field_value_attr (d : gmap string pyval) name v :
  d !! name = Some v ->
  (String.eqb name "" || all_digits name) = false ->
  field_value d name = Ok v.
Proof. intros H1 H2. apply field_value_Some. auto. Qed.

Lemma getattr_Some f k v : attrs f !! k = Some v -> getattr f k = Ok v.
Proof. intros H. unfold getattr. by rewrite H. Qed.

Lemma template_text_app ps qs :
  template_text (ps ++ qs) = template_text ps +:+ template_text qs.
Proof.
  induction ps as [|[s|n] ps IH]; cbn [template_text app]; [reflexivity| |].
  - rewrite IH, append_assoc. reflexivity.
  - rewrite IH. cbn [String.append]. rewrite !append_assoc. reflexivity.
Qed.

Lemma render_app d ps qs :
  render d (ps ++ qs)
  = do a <- render d ps; do b <- render d qs; Ok (a +:+ b).
Proof.
  induction ps as [|[s|n] ps IH]; cbn [render app].
  - destruct (render d qs); reflexivity.
  - rewrite IH. destruct (render d ps); [|reflexivity]. cbn [bind].
    destruct (render d qs); [|reflexivity]. cbn [bind].
    rewrite append_assoc. reflexivity.
  - destruct (field_value d n); [|reflexivity]. cbn [bind]. rewrite IH.
    destruct (render d ps); [|reflexivity]. cbn [bind].
    destruct (render d qs); [|reflexivity]. cbn [bind].
    rewrite append_assoc. reflexivity.
Qed.

Lemma isinstance_bool v : isinstance v T_bool = true -> exists b, v = VBool b.
Proof.
  destruct v as [|b| | | | | |t ? ? ?|]; try discriminate; [eauto|].
  destruct t; discriminate.
Qed.

(** The clause the code appends for a default is the default resolved as
    the specification words it. *)
Lemma default_clause_resolved f d :
  default_clause lib f d
  = do text <- resolved_default lib f d; Ok (" DEFAULT " +:+ text).
Proof.
  unfold default_clause, resolved_default.
  set (v := match d with VCallable _ ret => ret | _ => d end). clearbody v.
  destruct v as [|b| | | | | |t ? ? ?|]; try reflexivity.
  destruct t; reflexivity.
Qed.

(** [Field.creation_query], once the fragment of the class is known as a
    sequence of pieces [ps] that renders to [fragment], and the clause of
    the default as a text without braces: the final [format] leaves the
    clauses as they are and fills in the column name and the fragment. *)
Lemma Field_creation_query_pieces f ps fragment column field_type unique null clause :
  creation_string f = Ok (template_text ps) ->
  forallb piece_ok ps = true ->
  render (attrs f) ps = Ok fragment ->
  attrs f !! "db_column" = Some column ->
  attrs f !! "field_type" = Some field_type ->
  attrs f !! "unique" = Some unique ->
  attrs f !! "null" = Some null ->
  match attrs f !! "default" with
  | Some VNone | None =>
      if existsb (py_eq field_type) DATE_FIELDS then
        do auto_now <- getattr f "auto_now";
        Ok (if truthy auto_now then " DEFAULT now()" else "")
      else Ok ""
  | Some default_ => default_clause lib f default_
  end = Ok clause ->
  plain clause = true ->
  Field_creation_query lib f
  = Ok (py_str column +:+ " " +:+ fragment +:+ clause
        +:+ (if truthy unique then " UNIQUE" else "")
        +:+ (if truthy null then " NULL" else " NOT NULL")).
Proof.
  intros Hcs Hok Hrender Hcol Hft Hu Hn Hclause Hplain.
  unfold Field_creation_query.
  rewrite Hcs, (getattr_Some _ _ _ Hft), (getattr_Some _ _ _ Hu),
    (getattr_Some _ _ _ Hn).
  cbn [bind]. rewrite Hclause. cbn [bind].
  set (U := if truthy unique then " UNIQUE" else "").
  set (N := if truthy null then " NULL" else " NOT NULL").
  replace (((("{db_column} " +:+ template_text ps) +:+ clause) +:+ U) +:+ N)
    with (template_text ([Fld "db_column"; Lit " "] ++ ps ++ [Lit clause; Lit U; Lit N])).
  2: { rewrite !template_text_app. cbn [template_text String.append].
       rewrite !append_assoc, !append_empty_r. reflexivity. }
  rewrite format_template.
  2: { rewrite !forallb_app. rewrite Hok. cbn [forallb piece_ok andb].
       rewrite Hplain. subst U N. destruct (truthy unique), (truthy null); reflexivity. }
  rewrite !render_app. cbn [render]. rewrite Hrender.
  rewrite (field_value_Some _ "db_column" column) by (split; [reflexivity|exact Hcol]).
  cbn [bind String.append]. rewrite !append_assoc, !append_empty_r.
  cbn [String.append]. reflexivity.
Qed.

Lemma init_Uuid4Field_uuid_type args f :
  init Uuid4Field args = Ok f ->
  attrs f !! "uuid_type" = Some (VStr "v1") \/ attrs f !! "uuid_type" = Some (VStr "v4").
Proof.
  intros H.
  pose proof (init_attr _ _ _ "uuid_type" _ H eq_refl ltac:(discriminate)) as Hu.
  destruct (init_Ok _ _ _ H) as (a0 & _ & _ & H0 & _).
  cbn [before_init] in H0. rewrite Hu.
  destruct (existsb _ _) eqn:Hex; [|discriminate].
  cbn [existsb] in Hex. rewrite orb_false_r in Hex.
  apply orb_true_iff in Hex as [E|E]; apply py_eq_str in E; rewrite E; auto.
Qed.

(** The fragment of the class of a constructed field, as pieces. *)
Lemma init_creation_string c args f :
  init c args = Ok f ->
  c <> ManyToManyField ->
  exists variant : bool,
    creation_string f = Ok (template_text (class_pieces c variant))
    /\ forallb piece_ok (class_pieces c variant) = true
    /\ render (attrs f) (class_pieces c variant) = Ok (ddl_fragment f).
Proof.
  intros H Hm. pose proof (init_cls _ _ _ H) as Hcls.
  unfold creation_string, ddl_fragment, attr_text. rewrite Hcls.
  destruct c; try contradiction;
    try (exists false; repeat split; reflexivity).
  - (* CharField *)
    pose proof (init_attr _ _ _ "max_length" _ H eq_refl ltac:(discriminate)) as Hk.
    exists false. repeat split. cbn [class_pieces render].
    rewrite (field_value_attr _ _ _ Hk eq_refl), Hk. reflexivity.
  - (* EmailField *)
    pose proof (init_attr _ _ _ "max_length" _ H eq_refl ltac:(discriminate)) as Hk.
    exists false. repeat split. cbn [class_pieces render].
    rewrite (field_value_attr _ _ _ Hk eq_refl), Hk. reflexivity.
  - (* DecimalField *)
    pose proof (init_attr _ _ _ "max_digits" _ H eq_refl ltac:(discriminate)) as Hk.
    pose proof (init_attr _ _ _ "decimal_places" _ H eq_refl ltac:(discriminate))
      as Hk'.
    exists false. repeat split. cbn [class_pieces render].
    rewrite (field_value_attr _ _ _ Hk eq_refl), Hk.
    rewrite (field_value_attr _ _ _ Hk' eq_refl), Hk'. reflexivity.
  - (* ForeignKey *)
    pose proof (init_attr _ _ _ "foreign_key" _ H eq_refl ltac:(discriminate)) as Hk.
    exists false. repeat split. cbn [class_pieces render].
    rewrite (field_value_attr _ _ _ Hk eq_refl), Hk. cbn [bind].
    rewrite append_empty_r. reflexivity.
  - (* Uuid4Field *)
    destruct (init_Uuid4Field_uuid_type _ _ H) as [Hu|Hu];
      [exists true | exists false]; rewrite (getattr_Some _ _ _ Hu), Hu;
      repeat split.
  - (* ArrayField *)
    assert (Hk : attrs f !! "value_type" = Some (param args "value_type" (VStr "text"))).
    { destruct (init_Ok _ _ _ H) as (a0 & a1 & a2 & _ & _ & _ & ->).
      cbn [after_init attrs]. apply lookup_insert_eq. }
    exists false. repeat split. cbn [class_pieces render].
    rewrite (field_value_attr _ _ _ Hk eq_refl), Hk. reflexivity.
Qed.

(** The clause of the default, as the code computes it and as the
    specification words it. *)
Lemma init_default_clause c args f :
  init c args = Ok f ->
  c <> ManyToManyField ->
  match attrs f !! "default" with
  | Some VNone | None =>
      if existsb (py_eq (VStr (class_name c))) DATE_FIELDS then
        do auto_now <- getattr f "auto_now";
        Ok (if truthy auto_now then " DEFAULT now()" else "")
      else Ok ""
  | Some default_ => default_clause lib f default_
  end = default_clause_text lib f.
Proof.
  intros H Hm. pose proof (init_cls _ _ _ H) as Hcls.
  unfold default_clause_text. rewrite Hcls.
  assert (Hnone :
    (if existsb (py_eq (VStr (class_name c))) DATE_FIELDS then
       do auto_now <- getattr f "auto_now";
       Ok (if truthy auto_now then " DEFAULT now()" else "")
     else Ok "")
    = match c with
      | DateField | DateTimeField =>
          Ok (if attr_true f "auto_now" then " DEFAULT now()" else "")
      | _ => Ok ""
      end).
  { destruct c; try reflexivity;
      pose proof (init_attr _ _ _ "auto_now" _ H eq_refl ltac:(discriminate)) as Hk;
      cbn [class_name DATE_FIELDS existsb py_eq String.eqb Ascii.eqb Bool.eqb orb];
      unfold attr_true; rewrite (getattr_Some _ _ _ Hk), Hk; reflexivity. }
  destruct (attrs f !! "default") as [[]|];
    rewrite ?default_clause_resolved; try reflexivity; exact Hnone.
Qed.

(** *** What the checks of a construction leave known *)

Lemma lookup_later_In items k v :
  lookup_later items k = Some v -> In (k, v) items.
Proof.
  induction items as [|[kw x] items IH]; [discriminate|].
  cbn [lookup_later]. destruct (lookup_later items k) as [v'|].
  - intros [= ->]. right. by apply IH.
  - destruct (String.eqb_spec kw k) as [->|]; [|discriminate].
    intros [= ->]. by left.
Qed.

Lemma check_types_Ok kwargs k v :
  known_keys kwargs = true ->
  check_types kwargs = Ok tt ->
  In (k, v) kwargs ->
  mistyped k v = false.
Proof.
  intros Hk Hc Hin. rewrite (check_types_FieldError _ Hk) in Hc.
  destruct (existsb _ kwargs) eqn:Hex; [discriminate|].
  destruct (mistyped k v) eqn:Hm; [|reflexivity].
  assert (existsb (fun kv => mistyped (fst kv) (snd kv)) kwargs = true)
    by (apply existsb_exists; by exists (k, v)).
  congruence.
Qed.

Lemma check_required_Ok kwargs required kw :
  check_required kwargs required = Ok tt ->
  In kw required ->
  truthy (kwargs_get kwargs kw VNone) = true.
Proof.
  induction required as [|kw' required IH]; intros H Hin; [contradiction|].
  cbn [check_required] in H. destruct (truthy (kwargs_get kwargs kw' VNone)) eqn:Ht;
    [|discriminate].
  destruct Hin as [<-|Hin]; [assumption|by apply IH].
Qed.

(** The checks of [validate_kwargs] that a construction has passed. *)
Lemma init_forwarded c args f :
  init c args = Ok f ->
  check_required (forwarded c args) (required_kwargs c) = Ok tt
  /\ check_types (forwarded c args) = Ok tt
  /\ (truthy (kwargs_get (forwarded c args) "db_column" (VStr "")) = true ->
      exists a a',
        set_field_name a (kwargs_get (forwarded c args) "db_column" VNone) = Ok a').
Proof.
  intros H. destruct (init_Ok _ _ _ H) as (a0 & a1 & a2 & _ & Hv & _ & _).
  unfold validate_kwargs in Hv. bind_ok Hv u1 H1. bind_ok Hv u2 H2.
  destruct u1, u2. repeat split.
  intros Ht. rewrite Ht in Hv. eauto.
Qed.

(** The foreign key of a many-to-many field as built is a text. *)
Lemma init_ManyToManyField_foreign_key args f :
  init ManyToManyField args = Ok f ->
  exists fk, attrs f !! "foreign_key" = Some (VStr fk).
Proof.
  intros H. destruct (init_forwarded _ _ _ H) as (_ & Htypes & _).
  pose proof (init_attr _ _ _ "foreign_key" _ H eq_refl ltac:(discriminate)) as Hfk.
  cbn [fst snd] in Hfk.
  assert (Hin : In ("foreign_key", param args "foreign_key" VNone)
                  (forwarded ManyToManyField args))
    by (cbn; auto 10).
  pose proof (check_types_Ok _ _ _ (forwarded_known _ args) Htypes Hin) as Hm.
  unfold mistyped in Hm. cbn in Hm.
  rewrite orb_false_r, andb_false_r in Hm. cbn [negb] in Hm.
  rewrite andb_true_r in Hm. apply negb_false_iff, isinstance_str in Hm as [fk Hs].
  exists fk. by rewrite Hfk, Hs.
Qed.

(** C6, as the code has it.  For a field built by the constructor of any
    class but the many-to-many class, and whose default clause holds no
    brace, [creation_query] returns the column name, a space, the DDL
    fragment of the kind, the default clause, " UNIQUE" when the column is
    unique, and " NULL" or " NOT NULL"; it raises what resolving the
    default raises.  The default clause is " DEFAULT " and the default
    resolved (a producer called, a string quoted, a boolean bare, anything
    else through [sanitize_data]); without a default it is " DEFAULT now()"
    for a date or date-time column with [auto_now], and empty otherwise.
    For a many-to-many field as its constructor builds it, once the
    attribute [own_model] is set on it, [creation_query] returns the two
    columns of the link table, the one named after the own model and the
    one named after the foreign key, each an integer that references the
    table of its name and is not null. *)
Theorem creation_query_column_definition c args f :
  init c args = Ok f ->
  (c <> ManyToManyField ->
   (forall clause, default_clause_text lib f = Ok clause -> plain clause = true) ->
   creation_query lib f = column_definition lib f)
  /\ (c = ManyToManyField ->
      forall own : pyval,
      exists fk : string,
        attrs f !! "foreign_key" = Some (VStr fk)
        /\ creation_query lib (set_own_model f own)
           = Ok (link_table_columns (py_str own) fk)).
Proof.
  intros H. pose proof (init_cls _ _ _ H) as Hcls. split.
  - intros Hm Hplain.
    destruct (init_creation_string _ _ _ H Hm) as (variant & Hcs & Hok & Hrender).
    pose proof (init_default_clause _ _ _ H Hm) as Hclause.
    pose proof (init_field_type _ _ _ H) as Hft.
    assert (Hcq : creation_query lib f = Field_creation_query lib f)
      by (unfold creation_query; rewrite Hcls; destruct c; try reflexivity;
          contradiction).
    rewrite Hcq. unfold column_definition.
    destruct (default_clause_text lib f) as [clause|e] eqn:Hdc; cbn [bind].
    + assert (Hattrs : exists column unique null,
                attrs f !! "db_column" = Some column
                /\ attrs f !! "unique" = Some unique
                /\ attrs f !! "null" = Some null).
      { destruct c; try contradiction;
          (do 3 eexists; (split; [|split]);
           [ apply (init_attr _ _ _ "db_column" _ H)
           | apply (init_attr _ _ _ "unique" _ H)
           | apply (init_attr _ _ _ "null" _ H) ];
           first [reflexivity | discriminate]). }
      destruct Hattrs as (column & unique & null & Hcol & Hu & Hn).
      rewrite (Field_creation_query_pieces f _ _ _ _ _ _ clause
                 Hcs Hok Hrender Hcol Hft Hu Hn Hclause (Hplain _ eq_refl)).
      unfold attr_text, attr_true. rewrite Hcol, Hu, Hn. reflexivity.
    + unfold Field_creation_query.
      rewrite Hcs, (getattr_Some _ _ _ Hft). cbn [bind].
      rewrite Hclause. reflexivity.
  - intros -> own.
    destruct (init_ManyToManyField_foreign_key _ _ H) as [fk Hfk].
    exists fk. split; [exact Hfk|].
    unfold creation_query, ManyToManyField_creation_query, creation_string.
    cbn [set_own_model cls attrs]. rewrite Hcls. cbn [bind].
    change ManyToManyField_creation_string with (template_text many_to_many_pieces).
    rewrite format_template by reflexivity.
    unfold many_to_many_pieces. cbn [render].
    rewrite !(field_value_attr _ "own_model" own)
      by (first [apply lookup_insert_eq | reflexivity]).
    rewrite !(field_value_attr _ "foreign_key" (VStr fk))
      by (first [by rewrite lookup_insert_ne | reflexivity]).
    cbn [bind py_str]. unfold link_table_columns. reflexivity.
Qed.

End FieldProperties.

(** [validate_None] at [CharField(max_length=5)],
    [CharField(max_length=5, null=True, choices={'a': 'A'})] and
    [CharField(max_length=5, null=True)]. *)
Lemma validate_None_witness :
  Fields.validate no_library (char_field false) VNone = Raise FieldError
  /\ Fields.validate no_library nullable_char_with_choices VNone = Raise FieldError
  /\ Fields.validate no_library (char_field true) VNone = Ok VNone.
Proof.
  split; [|split].
  - apply (proj1 (validate_None no_library (char_field false)
                    ltac:(discriminate) ltac:(discriminate))).
    reflexivity.
  - apply (proj1 (proj2 (validate_None no_library nullable_char_with_choices
                           ltac:(discriminate) ltac:(discriminate))));
      reflexivity.
  - apply (proj2 (proj2 (validate_None no_library (char_field true)
                           ltac:(discriminate) ltac:(discriminate))));
      [reflexivity | discriminate | reflexivity].
Defined.

(** C3 as stated fails: the field
    [CharField(max_length=5, null=True, choices={'a': 'A'})] is declared
    nullable, and its [validate(None)] raises [FieldError]. *)
Lemma validate_None_nullable_with_choices :
  Fields.init Fields.CharField nullable_char_args = Ok nullable_char_with_choices
  /\ Fields.getattr nullable_char_with_choices "null" = Ok (VBool true)
  /\ Fields.validate no_library nullable_char_with_choices VNone = Raise FieldError.
Proof. repeat split; vm_compute; reflexivity. Qed.

(** [sanitize_data_None] at [CharField(max_length=5, null=True)] and at
    [CharField(max_length=5, null=True, choices={'a': 'A'})]. *)
Lemma sanitize_data_None_witness :
  (Fields.validate no_library (char_field true) VNone = Ok VNone
   /\ Fields.sanitize_data no_library (char_field true) VNone = Raise TypeError)
  /\ Fields.sanitize_data no_library nullable_char_with_choices VNone
     = Raise FieldError.
Proof.
  split.
  - apply (proj1 (sanitize_data_None no_library (char_field true)
                    (or_introl eq_refl) eq_refl)).
    reflexivity.
  - apply (proj2 (sanitize_data_None no_library nullable_char_with_choices
                    (or_introl eq_refl) eq_refl)).
    reflexivity.
Defined.

(** C10 as stated fails: the field
    [CharField(max_length=5, null=True, choices={'a': 'A'})] is a nullable
    Char field, and its [sanitize_data(None)] raises [FieldError]. *)
Lemma sanitize_data_None_nullable_with_choices :
  Fields.init Fields.CharField nullable_char_args = Ok nullable_char_with_choices
  /\ Fields.getattr nullable_char_with_choices "null" = Ok (VBool true)
  /\ Fields.sanitize_data no_library nullable_char_with_choices VNone
     = Raise FieldError.
Proof. repeat split; vm_compute; reflexivity. Qed.

(** [recompose_sanitize_data] at [CharField(max_length=5)] and the string
    "a;b". *)
Lemma recompose_sanitize_data_witness :
  Fields.sanitize_data no_library (char_field false) (VStr "a;b") = Ok (VStr "a;b")
  /\ Fields.CharField_recompose (VStr "a;b") = Ok (VStr "a;b").
Proof.
  split; [reflexivity|].
  apply (recompose_sanitize_data no_library (char_field false) "a;b" (VStr "a;b")
           (or_introl eq_refl)).
  - intros H. apply occurs_in_contains in H. discriminate.
  - intros H. apply occurs_in_contains in H. discriminate.
  - reflexivity.
Defined.

(** [ArrayField_validate_lists] at [ArrayField()] and the three lists of the
    specification. *)
Lemma ArrayField_validate_lists_witness :
  Fields.validate no_library array_field (VList [VInt 1; VStr "a"]) = Raise FieldError
  /\ Fields.validate no_library array_field
       (VList [VList [VInt 1; VInt 2]; VList [VInt 3; VInt 4]])
     = Ok (VList [VList [VInt 1; VInt 2]; VList [VInt 3; VInt 4]])
  /\ Fields.validate no_library array_field
       (VList [VList [VInt 1; VInt 2]; VList [VInt 3]])
     = Raise FieldError.
Proof.
  assert (Hinit : Fields.init Fields.ArrayField ∅ = Ok array_field)
    by (vm_compute; reflexivity).
  destruct (ArrayField_validate_lists no_library ∅ array_field Hinit)
    as (Hmixed & Hrect & Hjagged).
  split; [|split].
  - apply (Hmixed (VInt 1) [VStr "a"] (VStr "a")); [left | reflexivity].
  - apply (Hrect _ 2%nat); [discriminate|].
    repeat constructor.
  - apply (Hjagged _ (VList [VInt 1; VInt 2]) (VList [VInt 3]));
      [repeat constructor | left | right; left | discriminate].
Defined.

(** C5 as stated fails: the elements of the list [1, True] are of the two
    classes int and bool, and [validate] of [ArrayField()] returns on it,
    a bool being an instance of int.  On [True, 1] it raises. *)
Lemma ArrayField_validate_int_bool :
  Fields.init Fields.ArrayField ∅ = Ok array_field
  /\ type_of (VInt 1) <> type_of (VBool true)
  /\ Fields.validate no_library array_field (VList [VInt 1; VBool true])
     = Ok (VList [VInt 1; VBool true])
  /\ Fields.validate no_library array_field (VList [VBool true; VInt 1])
     = Raise FieldError.
Proof. repeat split; try (vm_compute; reflexivity). discriminate. Qed.

(** [init_FieldError] at [CharField()], [CharField(max_length='5')] and
    [CharField(max_length=5, db_column='a__b')]. *)
Lemma init_FieldError_witness :
  Fields.init Fields.CharField ∅ = Raise FieldError
  /\ Fields.init Fields.CharField {[ "max_length" := VStr "5" ]} = Raise FieldError
  /\ Fields.init Fields.CharField
       {[ "max_length" := VInt 5; "db_column" := VStr "a__b" ]} = Raise FieldError.
Proof.
  split; [|split].
  - apply init_FieldError;
      [apply map_Forall_empty | discriminate | discriminate|].
    left. exists "max_length". split; [left; reflexivity|]. left. reflexivity.
  - apply init_FieldError;
      [apply (proj1 (bool_decide_eq_true _)); vm_compute; reflexivity
      | discriminate | discriminate|].
    right. left. exists "max_length", (VStr "5").
    split; [reflexivity|]. split; [reflexivity|]. intros (H & _). discriminate.
  - apply init_FieldError;
      [apply (proj1 (bool_decide_eq_true _)); vm_compute; reflexivity
      | discriminate | discriminate|].
    right. right. exists "a__b". repeat split. discriminate.
Defined.

(** C8 as stated fails: [DateTimeField(strftime=0)] is given an integer for
    a parameter declared a string, and the construction returns, the
    format of the class taking the place of the argument. *)
Lemma init_DateTimeField_strftime_0 :
  mistyped "strftime" (VInt 0) = true
  /\ Fields.init Fields.DateTimeField {[ "strftime" := VInt 0 ]}
     = Ok datetime_strftime_0.
Proof. split; vm_compute; reflexivity. Qed.

(** [creation_query_column_definition] at
    [DateField(auto_now=True, db_column='t')], at
    [CharField(max_length=5, db_column='name', default='x', unique=True)]
    and at [ManyToManyField(foreign_key='author')] with [own_model] set to
    'book'. *)
Lemma creation_query_column_definition_witness :
  Fields.creation_query no_library date_auto_now = Ok "t date DEFAULT now() NOT NULL"
  /\ Fields.creation_query no_library char_default
     = Ok "name varchar(5) DEFAULT 'x' UNIQUE NOT NULL"
  /\ Fields.creation_query no_library (set_own_model many_to_many_built (VStr "book"))
     = Ok "
        book INTEGER REFERENCES book NOT NULL,
        author INTEGER REFERENCES author NOT NULL
    ".
Proof.
  split; [|split].
  - rewrite (proj1 (creation_query_column_definition no_library
                      Fields.DateField date_auto_now_args date_auto_now
                      ltac:(vm_compute; reflexivity)) ltac:(discriminate)).
    + reflexivity.
    + intros clause Hc. vm_compute in Hc. injection Hc as <-. reflexivity.
  - rewrite (proj1 (creation_query_column_definition no_library
                      Fields.CharField char_default_args char_default
                      ltac:(vm_compute; reflexivity)) ltac:(discriminate)).
    + reflexivity.
    + intros clause Hc. vm_compute in Hc. injection Hc as <-. reflexivity.
  - destruct (proj2 (creation_query_column_definition no_library
                       Fields.ManyToManyField many_to_many_args many_to_many_built
                       ltac:(vm_compute; reflexivity)) eq_refl (VStr "book"))
      as (fk & Hfk & Hcq).
    injection Hfk as <-. exact Hcq.
Defined.

(** C6 as stated fails.  [TimeField(auto_now=True, db_column='t')] is of a
    time kind, has [auto_now] set and no default, and its column definition
    has no default clause.  The definition of a many-to-many field is the
    pair of link-table columns; it does not start with the column name and
    has no NULL clause of the field. *)
Lemma creation_query_time_and_many_to_many :
  (Fields.init Fields.TimeField time_auto_now_args = Ok time_auto_now
   /\ Fields.getattr time_auto_now "auto_now" = Ok (VBool true)
   /\ Fields.getattr time_auto_now "default" = Ok VNone
   /\ Fields.creation_query no_library time_auto_now = Ok "t time NOT NULL")
  /\ Fields.init Fields.ManyToManyField {[ "foreign_key" := VStr "author" ]}
     = Ok {| Fields.cls := Fields.ManyToManyField;
             Fields.attrs := delete "own_model" (Fields.attrs many_to_many) |}
  /\ Fields.creation_query no_library many_to_many
     = Ok "
        book INTEGER REFERENCES book NOT NULL,
        author INTEGER REFERENCES author NOT NULL
    ".
Proof. repeat split; vm_compute; reflexivity. Qed.

(** A protocol that is not a string makes the address constructor raise
    [AttributeError], before any check of [Field.__init__]. *)
Lemma init_GenericIPAddressField_protocol_int :
  Fields.init Fields.GenericIPAddressField {[ "protocol" := VInt 4 ]}
  = Raise AttributeError.
Proof. vm_compute. reflexivity. Qed.

(** A default with braces is read again as a template by the final
    [format]: the default '{db_column}' comes out as the column name. *)
Lemma creation_query_default_with_braces :
  (do f <- Fields.init Fields.CharField
             {[ "max_length" := VInt 5; "db_column" := VStr "name";
                "default" := VStr "{db_column}" ]};
   Fields.creation_query no_library f)
  = Ok "name varchar(5) DEFAULT 'name' NOT NULL".
Proof. vm_compute. reflexivity. Qed.

(** * Further properties *)

(** ** The cursor in general *)

Section CursorInGeneral.

Import Cursor.

Context {Row : Type}.

Implicit Types (table : list Row) (st : @state Row).

Lemma take_add {A} (a b : nat) (l : list A) :
  take (a + b) l = take a l ++ take b (drop a l).
Proof.
  revert l. induction a as [|a IH]; intros l; [reflexivity|].
  destruct l as [|x l]; cbn; [by rewrite take_nil|]. by rewrite IH.
Qed.

Lemma take_nil_inv {A} (n : nat) (l : list A) :
  (0 < n)%nat -> take n l = [] -> l = [].
Proof. destruct n, l; cbn; intros; [lia|lia|reflexivity|discriminate]. Qed.

(** A batch and what is left after it make what was left before it. *)
Lemma rows_from_batch table stop f k :
  0 <= f -> 0 < k ->
  match stop with Some s => f + k <= s | None => True end ->
  take (Z.to_nat k) (drop (Z.to_nat f) table) ++ rows_from table stop (f + k)
  = rows_from table stop f.
Proof.
  intros Hf Hk Hs. unfold rows_from.
  replace (Z.to_nat (f + k)) with (Z.to_nat f + Z.to_nat k)%nat by lia.
  rewrite <- drop_drop. destruct stop as [s|].
  - replace (Z.to_nat (s - f)) with (Z.to_nat k + Z.to_nat (s - (f + k)))%nat by lia.
    by rewrite take_add.
  - apply take_drop.
Qed.

(** Once a batch is empty, nothing is left from there on. *)
Lemma rows_from_exhausted table stop f k f' :
  0 <= f -> 0 < k -> f <= f' ->
  take (Z.to_nat k) (drop (Z.to_nat f) table) = [] ->
  rows_from table stop f' = [].
Proof.
  intros Hf Hk Hf' Hrows. apply take_nil_inv in Hrows; [|lia].
  assert (drop (Z.to_nat f') table = []) as Hdrop.
  { replace (Z.to_nat f') with (Z.to_nat f + Z.to_nat (f' - f))%nat by lia.
    by rewrite <- drop_drop, Hrows, drop_nil. }
  unfold rows_from. rewrite Hdrop. destruct stop; [apply take_nil|reflexivity].
Qed.

(** Nothing is left from the stop bound on. *)
Lemma rows_from_reached table s f :
  s <= f -> rows_from table (Some s) f = [].
Proof.
  intros Hs. unfold rows_from. by replace (Z.to_nat (s - f)) with 0%nat by lia.
Qed.

(** What [get_results] does at offset [f], told by the rows left from [f]
    on: none left, it signals the end; some left, it returns a non-empty
    batch, and what is left after the batch is what is left from the next
    offset on.  The step it leaves behind is positive, the offset, the
    buffer and the stop bound are as before. *)
Lemma get_results_rows table cur res k f stop cs :
  0 <= f -> 0 < k -> stop_ok stop ->
  exists k' pos cs',
    0 < k'
    /\ ((rows_from table stop f = []
         /\ rows_from table stop (f + k') = []
         /\ get_results table
              {| _cursor := cur; _results := res; _step := k; _forward := f;
                 _stop := stop; calls := cs |}
            = (Raise StopAsyncIteration,
               {| _cursor := Some pos; _results := res; _step := k';
                  _forward := f; _stop := stop; calls := cs' |}))
        \/ exists rows,
             rows <> []
             /\ rows ++ rows_from table stop (f + k') = rows_from table stop f
             /\ get_results table
                  {| _cursor := cur; _results := res; _step := k; _forward := f;
                     _stop := stop; calls := cs |}
                = (Ok rows,
                   {| _cursor := Some pos; _results := res; _step := k';
                      _forward := f; _stop := stop; calls := cs' |})).
Proof.
  intros Hf Hk Hstop.
  cbv [get_results get_results_body driver_forward driver_fetch log set_cursor set_step
       _cursor _results _step _forward _stop calls position default from_option id].
  destruct (Z.eqb_spec f 0) as [Hz|Hnz];
    [|destruct (Z.leb_spec f 0) as [Hbad|_]; [lia|]].
  all: destruct stop as [s|]; cbn [stop_ok] in *.
  all: try (destruct (Z.leb_spec s f) as [Hreached|Hnot];
            [ exists k; eexists _, _; split; [assumption|]; left;
              rewrite !rows_from_reached by lia; repeat split
            | destruct (Z.leb_spec s (f + k)) as [Hshrink|Hfull]; cbv beta iota ]).
  all: cbv beta iota.
  all: try (replace (drop 0 table) with (drop (Z.to_nat f) table) by (by rewrite Hz)).
  all: try change (0 + Z.to_nat f)%nat with (Z.to_nat f).
  all: match goal with
       | |- context [if ?kk <=? 0 then _ else _] =>
           destruct (Z.leb_spec kk 0) as [Hbad|_]; [lia|]; exists kk;
           match goal with
           | Hf : 0 <= ?ff |- context [rows_from ?tb ?stop _] =>
               pose proof (rows_from_batch tb stop ff kk Hf ltac:(lia) ltac:(cbn; lia))
                 as Hbatch;
               pose proof (fun f' => rows_from_exhausted tb stop ff kk f' Hf ltac:(lia))
                 as Hnil
           end
       end.
  all: match goal with
       | |- context [take ?n (drop ?p ?tb)] =>
           destruct (take n (drop p tb)) as [|r rows] eqn:Hrows
       end.
  all: eexists _, _; (split; [lia|]).
  all: try (left; rewrite !(fun f' Hf' => Hnil f' Hf' eq_refl) by lia;
            repeat split; fail).
  all: right; eexists; (split; [|split; [exact Hbatch|reflexivity]]); discriminate.
Qed.

(** Past the stop bound the offset is set back to it; nothing is left from
    either. *)
Lemma rows_from_clamp table s f :
  rows_from table (Some s) (if s <? f then s else f) = rows_from table (Some s) f.
Proof.
  destruct (Z.ltb_spec s f); [|reflexivity]. by rewrite !rows_from_reached by lia.
Qed.

(** One call of [__anext__] on a cursor with [ys] yet to hand out: the first
    of [ys], the rest being yet to hand out; the end signal when there is
    none, and none afterwards either. *)
Lemma anext_pending table st ys :
  pending table st ys ->
  exists st',
    anext table st
    = (match ys with [] => Raise StopAsyncIteration | y :: _ => Ok y end, st')
    /\ pending table st' (tail ys).
Proof.
  destruct st as [cur res k f stop cs]. unfold pending. cbn -[rows_from].
  intros (Hf & Hk & Hstop & Hys). destruct cur as [pos|].
  - destruct res as [|r rest].
    + (* the buffer is empty: the next offset, then a fetch *)
      cbn [app] in Hys. unfold anext.
      cbv [set_forward _cursor _results _step _forward _stop calls].
      assert (Hnext : exists f', 0 <= f' /\ ys = rows_from table stop f'
                /\ f' = match stop with
                        | Some s => if s <? f + k then s else f + k
                        | None => f + k
                        end).
      { eexists. split; [|split; [|reflexivity]].
        - destruct stop as [s|]; [cbn in Hstop; destruct (s <? f + k)|]; lia.
        - destruct stop as [s|]; [by rewrite rows_from_clamp|done]. }
      destruct Hnext as (f' & Hf' & Hrows & Heq).
      destruct (get_results_rows table (Some pos) [] k f' stop cs Hf' Hk Hstop)
        as (k' & pos' & cs' & Hk' & [(Hnone & Hnext & Hres)|(rows & Hne & Hbatch & Hres)]).
      all: rewrite Heq in Hres.
      all: destruct stop as [s|]; [destruct (s <? f + k)|]; rewrite Hres.
      all: rewrite Hrows; rewrite <- Heq in *.
      all: try (rewrite Hnone; eexists; split; [reflexivity|]; cbn -[rows_from];
                rewrite Hnext; by repeat split).
      all: destruct rows as [|r rows]; [done|]; rewrite <- Hbatch.
      all: eexists; split; [reflexivity|]; cbn -[rows_from]; by repeat split.
    + subst ys. eexists. split; [reflexivity|]. cbn -[rows_from]. by repeat split.
  - destruct Hys as [-> ->]. unfold anext. cbn [_cursor].
    destruct (get_results_rows table None [] k f stop cs Hf Hk Hstop)
      as (k' & pos' & cs' & Hk' & [(Hnone & Hnext & ->)|(rows & Hne & Hbatch & ->)]).
    + rewrite Hnone. eexists. split; [reflexivity|]. cbn -[rows_from]. rewrite Hnext.
      by repeat split.
    + destruct rows as [|r rows]; [done|]. rewrite <- Hbatch.
      eexists. split; [reflexivity|]. cbn -[rows_from]. by repeat split.
Qed.

Lemma anext_times_pending table ys n st :
  pending table st ys ->
  fst (anext_times table (length ys + n) st)
  = map Ok ys ++ repeat (Raise StopAsyncIteration) n.
Proof.
  revert st. induction ys as [|y ys IH]; intros st Hst.
  - cbn [length Nat.add map app]. revert st Hst.
    induction n as [|n IHn]; intros st Hst; [reflexivity|].
    destruct (anext_pending table st [] Hst) as (st' & Heq & Hst').
    cbn [anext_times repeat]. rewrite Heq.
    specialize (IHn st' Hst'). destruct (anext_times table n st'). cbn in *.
    by rewrite IHn.
  - destruct (anext_pending table st (y :: ys) Hst) as (st' & Heq & Hst').
    cbn [length Nat.add anext_times]. rewrite Heq.
    specialize (IH st' Hst'). destruct (anext_times table (length ys + n) st').
    cbn in *. by rewrite IH.
Qed.

(** X1.  A cursor made with a positive batch size [k], an offset [f0] that
    is not negative and a stop bound that is absent or not negative hands
    out, one row a call, the rows of the query from [f0] on, up to the stop
    bound when there is one, whatever the batch size; every call after the
    last row ends the iteration ([StopAsyncIteration]). *)
Theorem anext_times_rows_from table (k f0 : Z) (stop : option Z) (n : nat) :
  0 < k -> 0 <= f0 -> stop_ok stop ->
  fst (anext_times table (length (rows_from table stop f0) + n) (init k f0 stop))
  = map Ok (rows_from table stop f0) ++ repeat (Raise StopAsyncIteration) n.
Proof.
  intros Hk Hf Hstop. apply anext_times_pending. unfold pending. cbn.
  by repeat split.
Qed.

End CursorInGeneral.

(** [anext_times_rows_from] over five rows, by batches of two from the
    second row up to the stop bound four, with two calls after the last
    row. *)
Lemma anext_times_rows_from_witness :
  fst (Cursor.anext_times [10; 20; 30; 40; 50] (3 + 2) (Cursor.init 2 1 (Some 4)))
  = [Ok 20; Ok 30; Ok 40; Raise StopAsyncIteration; Raise StopAsyncIteration].
Proof.
  apply (anext_times_rows_from [10; 20; 30; 40; 50] 2 1 (Some 4) 2);
    [lia | lia | cbn; lia].
Defined.

(** ** The query compiler in general *)

Section CompilerInGeneral.

Import GeneralManager.

Implicit Types (h : gmap nat (gmap string pyval)) (d : gmap string pyval).

Lemma concat_and_assoc (a c : string) (conds : list string) :
  String.concat " AND " ((a +:+ " AND " +:+ c) :: conds)
  = String.concat " AND " (a :: c :: conds).
Proof.
  destruct conds as [|c' conds]; cbn [String.concat]; [reflexivity|].
  by rewrite !append_assoc.
Qed.

Lemma where_at_update h res k v q c :
  q ≠ res -> where_at h q c -> where_at (update h res k v) q c.
Proof.
  intros Hne (dq & Hq & Ha & Hc). exists dq.
  rewrite update_lookup_ne by congruence. auto.
Qed.

(** The loop over Where records, once the first record is a conditioned
    select with the condition [acc]: each condition is joined to [acc]
    behind an AND. *)
Lemma merge_conditions_wheres res qs : forall conds h d acc,
  h !! res = Some d ->
  Forall2 (fun q c => q ≠ res /\ where_at h q c) qs conds ->
  d !! "action" = Some (VStr "db__select") ->
  d !! "condition" = Some (VStr acc) ->
  acc ≠ "" ->
  exists h' d',
    merge_conditions res h (VStr "db__select") qs = Ok (h', VStr "db__select")
    /\ h' !! res = Some d'
    /\ d' !! "action" = Some (VStr "db__select")
    /\ d' !! "condition" = Some (VStr (String.concat " AND " (acc :: conds)))
    /\ same_but ["action"; "condition"] d d'.
Proof.
  induction qs as [|q qs IH]; intros conds h d acc Hd Hall Hact Hcond Hacc.
  - apply Forall2_nil_inv_l in Hall as ->. exists h, d.
    repeat split; try assumption; apply same_but_refl.
  - apply Forall2_cons_inv_l
      in Hall as (c & conds' & (Hne & dq & Hq & Hqa & Hqc) & Hall & ->).
    cbn [merge_conditions].
    rewrite (proj2 (deref_Ok _ _ _) Hq). cbn [bind].
    unfold getitem at 1. rewrite Hqa. cbn [bind].
    change (py_eq (VStr "db__where") (VStr "db__where")) with true.
    change (py_eq (VStr "db__select") (VStr "db__select_all")) with false.
    cbv iota.
    rewrite (proj2 (deref_Ok _ _ _) Hd), (proj2 (deref_Ok _ _ _) Hq). cbn [bind].
    unfold get. rewrite Hcond. cbn [default from_option id truthy].
    destruct (String.eqb_spec acc ""); [contradiction|]. cbn [negb].
    unfold getitem at 1. rewrite Hqc. cbn [bind join_and String.concat].
    destruct (IH conds' (update h res "condition" (VStr (acc +:+ " AND " +:+ c)))
                (<["condition" := VStr (acc +:+ " AND " +:+ c)]> d)
                (acc +:+ " AND " +:+ c))
      as (h' & d' & Hm & Hd' & Hact' & Hcond' & Hsame).
    + by apply update_lookup_eq.
    + eapply Forall2_impl; [exact Hall|].
      intros q' c' [Hne' Hw]. split; [assumption|]. by apply where_at_update.
    + by rewrite lookup_insert_ne.
    + apply lookup_insert_eq.
    + destruct acc; [contradiction|discriminate].
    + exists h', d'. rewrite Hm, Hcond', concat_and_assoc.
      repeat split; try assumption.
      intros k Hk. rewrite (Hsame k Hk). apply lookup_insert_ne.
      intros <-. apply Hk. apply list_elem_of_In. simpl. auto.
Qed.

(** X2.  A chain of a select-all record without condition, followed by
    any number of Where records, the first of them with a condition that is
    not empty, compiles to the conditioned select over all the conditions
    in order, joined by AND, whatever the select clause and the ordering:
    the ordering clause is the one [ordering_syntax] makes when the select
    clause is the star, and empty otherwise.  The merged condition is left
    in the first record. *)
Theorem construct_query_wheres h res d q c qs conds (sel table clause : string) :
  h !! res = Some d ->
  d !! "action" = Some (VStr "db__select_all") ->
  d !! "condition" = None ->
  d !! "select" = Some (VStr sel) ->
  d !! "table_name" = Some (VStr table) ->
  Forall2 (fun q c => q ≠ res /\ where_at h q c) (q :: qs) (c :: conds) ->
  c ≠ "" ->
  (if String.eqb sel "*" then ordering_syntax (get d "ordering" (VList []))
   else Ok "") = Ok clause ->
  let r := construct_query h (res :: q :: qs) in
  sql_of r
  = Ok ("SELECT " +:+ sel +:+ " FROM " +:+ table +:+ " WHERE ( "
        +:+ String.concat " AND " (c :: conds) +:+ " ) " +:+ clause +:+ ";")
  /\ exists d', store_of h r !! res = Some d'
                /\ d' !! "condition" = Some (VStr (String.concat " AND " (c :: conds))).
Proof.
  intros Hd Hact Hcond Hsel Htable Hall Hc Hclause.
  apply Forall2_cons_1 in Hall as [(Hne & dq & Hq & Hqa & Hqc) Hall].
  (* the loop: the first record is passed over, the first Where record makes
     the chain a conditioned select *)
  set (h1 := update (update h res "action" (VStr "db__select")) res "condition" (VStr c)).
  set (d1 := <["condition" := VStr c]> (<["action" := VStr "db__select"]> d)).
  assert (Hd1 : h1 !! res = Some d1).
  { subst h1 d1. by apply update_lookup_eq, update_lookup_eq. }
  destruct (merge_conditions_wheres res qs conds h1 d1 c Hd1) as
    (h' & d' & Hm & Hd' & Hact' & Hcond' & Hsame).
  { eapply Forall2_impl; [exact Hall|].
    intros q' c' [Hne' Hw]. split; [assumption|].
    subst h1. by apply where_at_update, where_at_update. }
  { subst d1. by rewrite lookup_insert_ne, lookup_insert_eq. }
  { subst d1. apply lookup_insert_eq. }
  { assumption. }
  assert (Hloop : merge_conditions res h (VStr "db__select_all") (res :: q :: qs)
                  = Ok (h', VStr "db__select")).
  { cbn [merge_conditions].
    rewrite (proj2 (deref_Ok _ _ _) Hd). cbn [bind].
    unfold getitem at 1. rewrite Hact. cbn [bind].
    change (py_eq (VStr "db__select_all") (VStr "db__where")) with false. cbv iota.
    rewrite (proj2 (deref_Ok _ _ _) Hq). cbn [bind].
    unfold getitem at 1. rewrite Hqa. cbn [bind].
    change (py_eq (VStr "db__where") (VStr "db__where")) with true.
    change (py_eq (VStr "db__select_all") (VStr "db__select_all")) with true.
    cbv iota.
    rewrite (proj2 (deref_Ok _ _ _)
               (update_lookup_eq _ _ "action" (VStr "db__select") _ Hd)).
    cbn [bind]. unfold deref at 1. rewrite update_lookup_ne by congruence.
    rewrite Hq. cbn [bind]. unfold get.
    rewrite lookup_insert_ne by discriminate. rewrite Hcond.
    cbn [default from_option id truthy String.eqb negb].
    unfold getitem at 1. rewrite Hqc. cbn [bind]. exact Hm. }
  assert (Hother : forall k, k ≠ "action" -> k ≠ "condition" -> d' !! k = d !! k).
  { intros k Ha Hk. rewrite (Hsame k).
    - subst d1. by rewrite !lookup_insert_ne by congruence.
    - intros Hin. apply list_elem_of_In in Hin. simpl in Hin.
      destruct Hin as [<-|[<-|[]]]; congruence. }
  assert (Hr : construct_query h (res :: q :: qs)
               = Ok ("SELECT " +:+ sel +:+ " FROM " +:+ table +:+ " WHERE ( "
                     +:+ String.concat " AND " (c :: conds) +:+ " ) " +:+ clause
                     +:+ ";",
                     update h' res "ordering" (VStr clause))).
  { unfold construct_query.
    rewrite (proj2 (deref_Ok _ _ _) Hd). cbn [bind].
    unfold getitem at 1. rewrite Hact. cbn [bind]. rewrite Hloop. cbn [bind fst].
    rewrite (proj2 (deref_Ok _ _ _) Hd'). cbn [bind].
    unfold get at 1 2. rewrite !Hother by discriminate. rewrite Hsel.
    cbn [default from_option id py_eq].
    fold (get d "ordering" (VList [])). rewrite Hclause. cbn [bind].
    rewrite (proj2 (deref_Ok _ _ _)
               (update_lookup_eq _ _ "ordering" (VStr clause) _ Hd')).
    cbn [bind]. unfold getitem. rewrite lookup_insert_ne by discriminate.
    rewrite Hact'. cbn [bind].
    change (getattr (VStr "db__select"))
      with (Ok (template_text [Lit "SELECT "; Fld "select"; Lit " FROM ";
                               Fld "table_name"; Lit " WHERE ( "; Fld "condition";
                               Lit " ) "; Fld "ordering"])).
    cbn [bind]. rewrite format_template by reflexivity. cbn [render].
    rewrite (field_value_Some _ "select" (VStr sel))
      by (split; [reflexivity|]; rewrite lookup_insert_ne by discriminate;
          rewrite Hother by discriminate; exact Hsel).
    rewrite (field_value_Some _ "table_name" (VStr table))
      by (split; [reflexivity|]; rewrite lookup_insert_ne by discriminate;
          rewrite Hother by discriminate; exact Htable).
    rewrite (field_value_Some _ "condition" (VStr (String.concat " AND " (c :: conds))))
      by (split; [reflexivity|]; rewrite lookup_insert_ne by discriminate;
          exact Hcond').
    rewrite (field_value_Some _ "ordering" (VStr clause))
      by (split; [reflexivity|]; apply lookup_insert_eq).
    cbn [bind py_str]. unfold query_clean.
    repeat (rewrite ?append_assoc; simpl). rewrite ?append_empty_r. reflexivity. }
  intros r. subst r. rewrite Hr. cbn [sql_of store_of]. split; [reflexivity|].
  exists (<["ordering" := VStr clause]> d'). split.
  - by apply update_lookup_eq.
  - by rewrite lookup_insert_ne.
Qed.

(** *** Compiling a chain again *)

Lemma merge_conditions_no_where res qs : forall h query_type,
  Forall (not_where_at h) qs ->
  merge_conditions res h query_type qs = Ok (h, query_type).
Proof.
  induction qs as [|q qs IH]; intros h qt Hall; [reflexivity|].
  apply Forall_cons in Hall as [(dq & a & Hq & Ha & Hw) Hall].
  cbn [merge_conditions]. rewrite (proj2 (deref_Ok _ _ _) Hq). cbn [bind].
  unfold getitem. rewrite Ha. cbn [bind]. rewrite Hw. by apply IH.
Qed.

Lemma update_update h res k v :
  update (update h res k v) res k v = update h res k v.
Proof.
  unfold update. apply map_eq. intros l. destruct (decide (l = res)) as [->|Hne].
  - rewrite !lookup_alter_eq. destruct (h !! res) as [d0|]; [|reflexivity].
    cbn. by rewrite insert_insert_eq.
  - by rewrite !lookup_alter_ne.
Qed.

(** X3.  A chain without Where records whose first record asks for no
    ordering clause (its select clause is not the star, or its ordering is
    absent or empty) compiles to the same text each time: the store the
    first compilation leaves is left as it is by the second. *)
Theorem construct_query_again h res rest d sql h' :
  h !! res = Some d ->
  Forall (not_where_at h) (res :: rest) ->
  py_eq (get d "select" (VStr "")) (VStr "*") = false
  \/ truthy (get d "ordering" (VList [])) = false ->
  construct_query h (res :: rest) = Ok (sql, h') ->
  construct_query h' (res :: rest) = Ok (sql, h').
Proof.
  intros Hd Hall Hord Hc.
  assert (Hclause : forall o,
            truthy o = false ->
            (if py_eq (get d "select" (VStr "")) (VStr "*")
             then ordering_syntax o else Ok "") = Ok "").
  { intros o Ho. destruct (py_eq _ _); [|reflexivity].
    unfold ordering_syntax. by rewrite Ho. }
  assert (Hfirst : (if py_eq (get d "select" (VStr "")) (VStr "*")
                    then ordering_syntax (get d "ordering" (VList []))
                    else Ok "") = Ok "").
  { destruct Hord as [Hs|Ho]; [by rewrite Hs | by apply Hclause]. }
  unfold construct_query in Hc.
  rewrite (proj2 (deref_Ok _ _ _) Hd) in Hc. cbn [bind] in Hc.
  bind_ok Hc qt Hqt.
  rewrite (merge_conditions_no_where _ _ _ _ Hall) in Hc. cbn [bind fst] in Hc.
  rewrite (proj2 (deref_Ok _ _ _) Hd) in Hc. cbn [bind] in Hc.
  rewrite Hfirst in Hc. cbn [bind] in Hc.
  set (d1 := <["ordering" := VStr ""]> d) in *.
  assert (Hd1 : update h res "ordering" (VStr "") !! res = Some d1)
    by (by apply update_lookup_eq).
  rewrite (proj2 (deref_Ok _ _ _) Hd1) in Hc. cbn [bind] in Hc.
  bind_ok Hc action Hact. bind_ok Hc template Ht. bind_ok Hc query Hf.
  injection Hc as <- <-.
  (* the second compilation *)
  assert (Hall1 : Forall (not_where_at (update h res "ordering" (VStr ""))) (res :: rest)).
  { eapply Forall_impl; [exact Hall|].
    intros q (dq & a & Hq & Ha & Hw). destruct (decide (q = res)) as [->|Hne].
    - exists d1, a. split; [assumption|]. split; [|assumption].
      subst d1. rewrite lookup_insert_ne by discriminate. congruence.
    - exists dq, a. by rewrite update_lookup_ne by congruence. }
  unfold construct_query.
  rewrite (proj2 (deref_Ok _ _ _) Hd1). cbn [bind].
  assert (Hqt1 : getitem d1 "action" = Ok qt).
  { unfold getitem in *. subst d1. by rewrite lookup_insert_ne. }
  rewrite Hqt1. cbn [bind].
  rewrite (merge_conditions_no_where _ _ _ _ Hall1). cbn [bind fst].
  rewrite (proj2 (deref_Ok _ _ _) Hd1). cbn [bind].
  assert (Hsel1 : get d1 "select" (VStr "") = get d "select" (VStr "")).
  { unfold get. subst d1. by rewrite lookup_insert_ne. }
  assert (Hord1 : get d1 "ordering" (VList []) = VStr "").
  { unfold get. subst d1. by rewrite lookup_insert_eq. }
  rewrite Hsel1, Hord1, (Hclause (VStr "") eq_refl). cbn [bind].
  rewrite update_update, (proj2 (deref_Ok _ _ _) Hd1). cbn [bind].
  rewrite Hact. cbn [bind]. rewrite Ht. cbn [bind]. rewrite Hf. reflexivity.
Qed.

(** *** The ordering clause of a chain compiled again *)

Lemma length_append (a b : string) :
  String.length (a +:+ b) = (String.length a + String.length b)%nat.
Proof. induction a as [|x a IH]; simpl; congruence. Qed.

(** A select-all record alone compiles to the plain select with the
    ordering clause, which is left in the record. *)
Lemma construct_query_select_all h res d (sel table clause : string) :
  h !! res = Some d ->
  d !! "action" = Some (VStr "db__select_all") ->
  d !! "select" = Some (VStr sel) ->
  d !! "table_name" = Some (VStr table) ->
  (if String.eqb sel "*" then ordering_syntax (get d "ordering" (VList []))
   else Ok "") = Ok clause ->
  construct_query h [res]
  = Ok ("SELECT " +:+ sel +:+ " FROM " +:+ table +:+ " " +:+ clause +:+ ";",
        update h res "ordering" (VStr clause)).
Proof.
  intros Hd Hact Hsel Htable Hclause. unfold construct_query.
  rewrite (proj2 (deref_Ok _ _ _) Hd). cbn [bind].
  unfold getitem at 1. rewrite Hact. cbn [bind].
  rewrite (merge_conditions_no_where res [res] h).
  2:{ constructor; [|constructor]. by exists d, (VStr "db__select_all"). }
  cbn [bind fst]. rewrite (proj2 (deref_Ok _ _ _) Hd). cbn [bind].
  unfold get at 1. rewrite Hsel. cbn [default from_option id py_eq].
  rewrite Hclause. cbn [bind].
  rewrite (proj2 (deref_Ok _ _ _)
             (update_lookup_eq _ _ "ordering" (VStr clause) _ Hd)).
  cbn [bind]. unfold getitem. rewrite lookup_insert_ne by discriminate.
  rewrite Hact. cbn [bind].
  change (getattr (VStr "db__select_all"))
    with (Ok (template_text [Lit "SELECT "; Fld "select"; Lit " FROM ";
                             Fld "table_name"; Lit " "; Fld "ordering"])).
  cbn [bind]. rewrite format_template by reflexivity. cbn [render].
  rewrite (field_value_Some _ "select" (VStr sel))
    by (split; [reflexivity|]; by rewrite lookup_insert_ne).
  rewrite (field_value_Some _ "table_name" (VStr table))
    by (split; [reflexivity|]; by rewrite lookup_insert_ne).
  rewrite (field_value_Some _ "ordering" (VStr clause))
    by (split; [reflexivity|]; apply lookup_insert_eq).
  cbn [bind py_str]. unfold query_clean.
  repeat (rewrite ?append_assoc; simpl). rewrite ?append_empty_r. reflexivity.
Qed.

Lemma chars_length (s : string) : length (chars s) = String.length s.
Proof.
  unfold chars. rewrite length_map. induction s; simpl; congruence.
Qed.

(** The clause made of the characters of a text is longer than the text. *)
Lemma concat_entries_length (l : list string) :
  Forall (fun x => String.length x = 1%nat) l ->
  (length l <= String.length (String.concat "," (map ordering_entry_text l)))%nat.
Proof.
  assert (Hentry : forall x, String.length x = 1%nat ->
                             (1 <= String.length (ordering_entry_text x))%nat).
  { intros x Hx. unfold ordering_entry_text.
    destruct (startswith x "-"); [|lia]. simpl. lia. }
  induction l as [|x l IH]; intros Hall; [simpl; lia|].
  apply Forall_cons in Hall as [Hx Hall]. specialize (IH Hall).
  specialize (Hentry x Hx).
  destruct l as [|y l]; [simpl; lia|].
  change (String.concat "," (map ordering_entry_text (x :: y :: l)))
    with (ordering_entry_text x +:+ ","
          +:+ String.concat "," (map ordering_entry_text (y :: l))).
  rewrite !length_append. cbn [length String.length] in *. lia.
Qed.

Lemma chars_singletons (s : string) :
  Forall (fun x => String.length x = 1%nat) (chars s).
Proof.
  unfold chars. induction s; simpl; constructor; [reflexivity|assumption].
Qed.

(** X4.  A select-all record with the star and an ordering list of column
    names compiles once to the select ordered by those columns.  The
    clause is left in the record in place of the list, so that compiling
    the same chain again orders by the characters of that clause, one
    column a character: the second text is another than the first. *)
Theorem construct_query_ordering_again h res d (table : string) (names : list string) :
  h !! res = Some d ->
  d !! "action" = Some (VStr "db__select_all") ->
  d !! "select" = Some (VStr "*") ->
  d !! "table_name" = Some (VStr table) ->
  d !! "ordering" = Some (VList (map VStr names)) ->
  names ≠ [] ->
  let clause := "ORDER BY " +:+ String.concat "," (map ordering_entry_text names) in
  let r1 := construct_query h [res] in
  let r2 := construct_query (store_of h r1) [res] in
  sql_of r1 = Ok ("SELECT * FROM " +:+ table +:+ " " +:+ clause +:+ ";")
  /\ sql_of r2
     = Ok ("SELECT * FROM " +:+ table +:+ " ORDER BY "
           +:+ String.concat "," (map ordering_entry_text (chars clause)) +:+ ";")
  /\ sql_of r2 ≠ sql_of r1.
Proof.
  intros Hd Hact Hsel Htable Hord Hnames clause r1 r2.
  assert (H1 : r1 = Ok ("SELECT " +:+ "*" +:+ " FROM " +:+ table +:+ " " +:+ clause
                        +:+ ";", update h res "ordering" (VStr clause))).
  { apply (construct_query_select_all h res d "*" table clause Hd Hact Hsel Htable).
    cbn [String.eqb Ascii.eqb Bool.eqb]. unfold get. rewrite Hord.
    cbn [default from_option id]. by apply ordering_syntax_names. }
  set (clause2 := "ORDER BY " +:+ String.concat "," (map ordering_entry_text (chars clause))).
  assert (H2 : r2 = Ok ("SELECT " +:+ "*" +:+ " FROM " +:+ table +:+ " " +:+ clause2
                        +:+ ";",
                        update (update h res "ordering" (VStr clause)) res "ordering"
                          (VStr clause2))).
  { subst r2. rewrite H1. cbn [store_of].
    apply (construct_query_select_all _ res (<["ordering" := VStr clause]> d)
             "*" table clause2).
    - by apply update_lookup_eq.
    - by rewrite lookup_insert_ne.
    - by rewrite lookup_insert_ne.
    - by rewrite lookup_insert_ne.
    - cbn [String.eqb Ascii.eqb Bool.eqb]. unfold get. rewrite lookup_insert_eq.
      cbn [default from_option id]. unfold ordering_syntax.
      subst clause. cbn [truthy String.append String.eqb negb py_iter bind].
      rewrite ordering_entries_names. reflexivity. }
  rewrite H1, H2. cbn [sql_of]. split; [reflexivity|]. split.
  - subst clause2. f_equal.
  - assert (Hgt : (String.length clause < String.length clause2)%nat).
    { pose proof (concat_entries_length (chars clause) (chars_singletons clause))
        as Hlen.
      rewrite chars_length in Hlen. subst clause2. rewrite length_append.
      change (String.length "ORDER BY ") with 9%nat. lia. }
    clearbody clause clause2. intros Heq.
    apply (f_equal (fun r => match r with
                             | Ok s => String.length s
                             | Raise _ => 0%nat
                             end)) in Heq.
    cbv beta iota in Heq. rewrite !length_append in Heq. lia.
Qed.

(** *** A chain that begins with a Where record *)

(** The loop over Where records when the chain is no select-all: each
    condition is joined to the condition [acc] of the first record behind
    an AND, and nothing else of that record changes. *)
Lemma merge_conditions_joined res qs : forall conds h d acc query_type,
  h !! res = Some d ->
  Forall2 (fun q c => q ≠ res /\ where_at h q c) qs conds ->
  py_eq query_type (VStr "db__select_all") = false ->
  d !! "condition" = Some (VStr acc) ->
  acc ≠ "" ->
  exists h' d',
    merge_conditions res h query_type qs = Ok (h', query_type)
    /\ h' !! res = Some d'
    /\ d' !! "condition" = Some (VStr (String.concat " AND " (acc :: conds)))
    /\ same_but ["condition"] d d'.
Proof.
  induction qs as [|q qs IH]; intros conds h d acc qt Hd Hall Hqt Hcond Hacc.
  - apply Forall2_nil_inv_l in Hall as ->. exists h, d.
    repeat split; try assumption; apply same_but_refl.
  - apply Forall2_cons_inv_l
      in Hall as (c & conds' & (Hne & dq & Hq & Hqa & Hqc) & Hall & ->).
    cbn [merge_conditions].
    rewrite (proj2 (deref_Ok _ _ _) Hq). cbn [bind].
    unfold getitem at 1. rewrite Hqa. cbn [bind].
    change (py_eq (VStr "db__where") (VStr "db__where")) with true.
    rewrite Hqt. cbv iota.
    rewrite (proj2 (deref_Ok _ _ _) Hd), (proj2 (deref_Ok _ _ _) Hq). cbn [bind].
    unfold get. rewrite Hcond. cbn [default from_option id truthy].
    destruct (String.eqb_spec acc ""); [contradiction|]. cbn [negb].
    unfold getitem at 1. rewrite Hqc. cbn [bind join_and String.concat].
    destruct (IH conds' (update h res "condition" (VStr (acc +:+ " AND " +:+ c)))
                (<["condition" := VStr (acc +:+ " AND " +:+ c)]> d)
                (acc +:+ " AND " +:+ c) qt)
      as (h' & d' & Hm & Hd' & Hcond' & Hsame).
    + by apply update_lookup_eq.
    + eapply Forall2_impl; [exact Hall|].
      intros q' c' [Hne' Hw]. split; [assumption|]. by apply where_at_update.
    + assumption.
    + apply lookup_insert_eq.
    + destruct acc; [contradiction|discriminate].
    + exists h', d'. rewrite Hm, Hcond', concat_and_assoc.
      repeat split; try assumption.
      intros k Hk. rewrite (Hsame k Hk). apply lookup_insert_ne.
      intros <-. apply Hk. apply list_elem_of_In. simpl. auto.
Qed.

(** X5.  A Where record at the head of a chain is both the record the
    text is made from and a record of the loop that merges conditions: its
    condition [c], when not empty, is joined to itself, and the conditions
    of the Where records that follow, if any, are joined behind.  The
    text is the Where clause over all of them and no select. *)
Theorem construct_query_where_first h res d (c : string) qs conds (clause : string) :
  h !! res = Some d ->
  d !! "action" = Some (VStr "db__where") ->
  d !! "condition" = Some (VStr c) ->
  c ≠ "" ->
  Forall2 (fun q c => q ≠ res /\ where_at h q c) qs conds ->
  (if py_eq (get d "select" (VStr "")) (VStr "*")
   then ordering_syntax (get d "ordering" (VList []))
   else Ok "") = Ok clause ->
  sql_of (construct_query h (res :: qs))
  = Ok ("WHERE " +:+ String.concat " AND " (c :: c :: conds) +:+ " ;").
Proof.
  intros Hd Hact Hcond Hc Hall Hclause.
  set (c2 := c +:+ " AND " +:+ c).
  set (h1 := update h res "condition" (VStr c2)).
  set (d1 := <["condition" := VStr c2]> d).
  assert (Hd1 : h1 !! res = Some d1) by (by apply update_lookup_eq).
  destruct (merge_conditions_joined res qs conds h1 d1 c2 (VStr "db__where") Hd1)
    as (h' & d' & Hm & Hd' & Hcond' & Hsame).
  { eapply Forall2_impl; [exact Hall|].
    intros q' c' [Hne' Hw]. split; [assumption|]. by apply where_at_update. }
  { reflexivity. }
  { apply lookup_insert_eq. }
  { subst c2. destruct c; [contradiction|discriminate]. }
  assert (Hloop : merge_conditions res h (VStr "db__where") (res :: qs)
                  = Ok (h', VStr "db__where")).
  { cbn [merge_conditions].
    rewrite (proj2 (deref_Ok _ _ _) Hd). cbn [bind].
    unfold getitem at 1. rewrite Hact. cbn [bind].
    change (py_eq (VStr "db__where") (VStr "db__where")) with true.
    change (py_eq (VStr "db__where") (VStr "db__select_all")) with false.
    cbv iota. rewrite (proj2 (deref_Ok _ _ _) Hd). cbn [bind].
    assert (Hget : get d "condition" (VStr "") = VStr c)
      by (unfold get; by rewrite Hcond).
    rewrite !Hget. cbn [truthy].
    destruct (String.eqb_spec c ""); [contradiction|]. cbn [negb].
    unfold getitem at 1. rewrite Hcond. cbn [bind join_and String.concat].
    exact Hm. }
  assert (Hother : forall k, k ≠ "condition" -> d' !! k = d !! k).
  { intros k Hk. rewrite (Hsame k).
    - subst d1. by rewrite lookup_insert_ne.
    - intros Hin. apply list_elem_of_In in Hin. simpl in Hin.
      destruct Hin as [<-|[]]. congruence. }
  unfold construct_query.
  rewrite (proj2 (deref_Ok _ _ _) Hd). cbn [bind].
  unfold getitem at 1. rewrite Hact. cbn [bind]. rewrite Hloop. cbn [bind fst].
  rewrite (proj2 (deref_Ok _ _ _) Hd'). cbn [bind].
  assert (Hsel : get d' "select" (VStr "") = get d "select" (VStr ""))
    by (unfold get; by rewrite Hother).
  assert (Hord : get d' "ordering" (VList []) = get d "ordering" (VList []))
    by (unfold get; by rewrite Hother).
  rewrite Hsel, Hord, Hclause. cbn [bind].
  rewrite (proj2 (deref_Ok _ _ _)
             (update_lookup_eq _ _ "ordering" (VStr clause) _ Hd')).
  cbn [bind]. unfold getitem. rewrite lookup_insert_ne by discriminate.
  rewrite Hother by discriminate. rewrite Hact. cbn [bind].
  change (getattr (VStr "db__where"))
    with (Ok (template_text [Lit "WHERE "; Fld "condition"; Lit " "])).
  cbn [bind]. rewrite format_template by reflexivity. cbn [render].
  rewrite (field_value_Some _ "condition"
             (VStr (String.concat " AND " (c2 :: conds))))
    by (split; [reflexivity|]; by rewrite lookup_insert_ne).
  cbn [bind py_str sql_of]. unfold query_clean. subst c2.
  rewrite concat_and_assoc.
  repeat (rewrite ?append_assoc; simpl). reflexivity.
Qed.

End CompilerInGeneral.

(** [construct_query_wheres] at a chain of three conditions with an
    ordering. *)
Lemma construct_query_wheres_witness :
  sql_of (GeneralManager.construct_query three_conditions_store [0; 1; 2; 3]%nat)
  = Ok "SELECT * FROM book WHERE ( price > 100 AND quantity > 0 AND year = 2000 ) ORDER BY  id DESC ;".
Proof.
  apply (proj1 (construct_query_wheres three_conditions_store 0%nat
                  (select_star_ordered "book" ["-id"]) 1%nat "price > 100"
                  [2; 3]%nat ["quantity > 0"; "year = 2000"] "*" "book"
                  "ORDER BY  id DESC "
                  eq_refl eq_refl eq_refl eq_refl eq_refl
                  ltac:(repeat constructor; try discriminate;
                        eexists; (split; [reflexivity|]); split; reflexivity)
                  ltac:(discriminate) eq_refl)).
Defined.

(** [construct_query_again] at a counting select. *)
Lemma construct_query_again_witness :
  let h := select_all_store "COUNT(*)" ["-id"] in
  let h' := store_of h (GeneralManager.construct_query h [0%nat]) in
  GeneralManager.construct_query h' [0%nat] = Ok ("SELECT COUNT(*) FROM book ;", h').
Proof.
  intros h h'.
  apply (construct_query_again h 0%nat []
           {[ "action" := VStr "db__select_all"; "table_name" := VStr "book";
              "select" := VStr "COUNT(*)"; "ordering" := VList [VStr "-id"] ]}
           "SELECT COUNT(*) FROM book ;" h' eq_refl).
  - repeat constructor. eexists _, _. split; [reflexivity|]. split; reflexivity.
  - left. reflexivity.
  - vm_compute. reflexivity.
Defined.

(** [construct_query_ordering_again] at the books by descending
    identifier. *)
Lemma construct_query_ordering_again_witness :
  let h := select_all_store "*" ["-id"] in
  let r1 := GeneralManager.construct_query h [0%nat] in
  let r2 := GeneralManager.construct_query (store_of h r1) [0%nat] in
  sql_of r1 = Ok "SELECT * FROM book ORDER BY  id DESC ;"
  /\ sql_of r2
     = Ok "SELECT * FROM book ORDER BY O,R,D,E,R, ,B,Y, , ,i,d, ,D,E,S,C, ;"
  /\ sql_of r2 <> sql_of r1.
Proof.
  apply (construct_query_ordering_again (select_all_store "*" ["-id"]) 0%nat
           {[ "action" := VStr "db__select_all"; "table_name" := VStr "book";
              "select" := VStr "*"; "ordering" := VList [VStr "-id"] ]}
           "book" ["-id"] eq_refl eq_refl eq_refl eq_refl eq_refl
           ltac:(discriminate)).
Defined.

(** [construct_query_where_first] at a chain of one Where record and at
    a chain of two. *)
Lemma construct_query_where_first_witness :
  sql_of (GeneralManager.construct_query where_alone_store [0%nat])
  = Ok "WHERE price > 100 AND price > 100 ;"
  /\ sql_of (GeneralManager.construct_query two_wheres_store [0; 1]%nat)
     = Ok "WHERE price > 100 AND price > 100 AND quantity > 0 ;".
Proof.
  split.
  - apply (construct_query_where_first where_alone_store 0%nat
             {[ "action" := VStr "db__where"; "condition" := VStr "price > 100" ]}
             "price > 100" [] [] "" eq_refl eq_refl eq_refl ltac:(discriminate)
             ltac:(constructor) eq_refl).
  - apply (construct_query_where_first two_wheres_store 0%nat
             {[ "action" := VStr "db__where"; "condition" := VStr "price > 100" ]}
             "price > 100" [1%nat] ["quantity > 0"] "" eq_refl eq_refl eq_refl
             ltac:(discriminate)
             ltac:(repeat constructor; try discriminate;
                   eexists; (split; [reflexivity|]); split; reflexivity)
             eq_refl).
Defined.

(** ** The field classes in general *)

Section FieldsInGeneral.

Import Fields.

Variable lib : Library.

Implicit Types (f : field) (v : pyval).

(** *** What [validate] lets through *)

(** What [Field.validate] has checked when it returns. *)
Lemma Field_validate_Ok f v r :
  Field_validate f v = Ok r ->
  (v = VNone -> exists null, getattr f "null" = Ok null /\ truthy null = true)
  /\ (v <> VNone -> isinstance_any v (internal_type (cls f)) = true)
  /\ (forall items,
        attrs f !! "choices" = Some (VDict items) ->
        existsb (fun kv => py_eq v (fst kv)) items = true).
Proof.
  unfold Field_validate. intros H.
  bind_ok H u1 H1. bind_ok H u2 H2. split; [|split].
  - intros ->. cbn [is_none] in H1. bind_ok H1 null Hnull.
    exists null. split; [reflexivity|]. by destruct (truthy null).
  - intros Hv. destruct v; try contradiction; cbn [is_none negb andb] in H;
      by destruct (isinstance_any _ _).
  - intros items Hc. rewrite Hc in H2. bind_ok H2 found Hfound.
    unfold in_keys in Hfound. destruct (hashable v); [|discriminate].
    injection Hfound as <-. by destruct (existsb _ items).
Qed.


(** *** What [sanitize_data] returns *)

Lemma validate_str_or_None f v r :
  cls f = CharField \/ cls f = EmailField ->
  validate lib f v = Ok r ->
  v = VNone \/ exists s, v = VStr s.
Proof.
  intros Hcls H.
  assert (Hnone : v = VNone \/ v <> VNone)
    by (destruct v; first [by left | by right]).
  destruct Hnone as [->|Hv]; [by left|right].
  assert (Hf : exists r0, Field_validate f v = Ok r0).
  { unfold validate in H. destruct Hcls as [E|E]; rewrite E in H; [eauto|].
    unfold EmailField_validate in H. bind_ok H r0 H0. eauto. }
  destruct Hf as [r0 Hf].
  destruct (Field_validate_Ok f v r0 Hf) as (_ & Ht & _). specialize (Ht Hv).
  assert (Hs : isinstance v T_str = true).
  { destruct Hcls as [E|E]; rewrite E in Ht; cbn in Ht;
      by rewrite orb_false_r in Ht. }
  by apply isinstance_str.
Qed.

(** X7.  [sanitize_data] returns the value it was given, for a field of
    any class but the Json class: it checks and hands back, it does not
    convert. *)
Theorem sanitize_data_unchanged f v r :
  cls f <> JsonField ->
  sanitize_data lib f v = Ok r ->
  r = v.
Proof.
  intros Hjson H. unfold sanitize_data in H.
  destruct (cls f) eqn:Hcls; try contradiction;
    try (unfold Field_sanitize_data in H; bind_ok H r0 H0; congruence);
    try congruence.
  - unfold BooleanField_sanitize_data in H. destruct (_ || _); congruence.
  - unfold CharField_sanitize_data, Field_sanitize_data in H.
    bind_ok H v0 Hv0. bind_ok Hv0 r0 H0. injection Hv0 as <-.
    destruct (validate_str_or_None f v r0 (or_introl Hcls) H0) as [->|[s ->]];
      [discriminate|].
    bind_ok H n Hn. bind_ok H m Hm. bind_ok H long Hlong.
    destruct long; [discriminate|]. by injection H as <-.
  - unfold CharField_sanitize_data, Field_sanitize_data in H.
    bind_ok H v0 Hv0. bind_ok Hv0 r0 H0. injection Hv0 as <-.
    destruct (validate_str_or_None f v r0 (or_intror Hcls) H0) as [->|[s ->]];
      [discriminate|].
    bind_ok H n Hn. bind_ok H m Hm. bind_ok H long Hlong.
    destruct long; [discriminate|]. by injection H as <-.
  - unfold Uuid4Field_sanitize_data in H. destruct v; try discriminate.
    destruct (uuid_regex_match s); congruence.
Qed.

(** X8.  What [sanitize_data] of a Char, Email or Json field returns is a
    text no longer than the [max_length] of the field. *)
Theorem sanitize_data_max_length f v r (m : Z) :
  cls f = CharField \/ cls f = EmailField \/ cls f = JsonField ->
  getattr f "max_length" = Ok (VInt m) ->
  sanitize_data lib f v = Ok r ->
  exists s, r = VStr s /\ Z.of_nat (String.length s) <= m.
Proof.
  intros Hcls Hmax H. unfold sanitize_data in H.
  assert (Hlen : forall x long,
            (do n <- py_len x; do max_length <- getattr f "max_length";
             do too_long <- int_gt n max_length;
             if too_long then Raise FieldError else Ok long) = Ok r ->
            (exists s, x = VStr s) ->
            exists s, x = VStr s /\ long = r /\ Z.of_nat (String.length s) <= m).
  { intros x long Hx [s ->]. cbn [py_len bind] in Hx. rewrite Hmax in Hx.
    cbn [bind int_gt] in Hx. destruct (Z.ltb_spec m (Z.of_nat (String.length s)));
      [discriminate|]. injection Hx as <-. eauto. }
  destruct Hcls as [Hc|[Hc|Hc]]; rewrite Hc in H.
  - unfold CharField_sanitize_data, Field_sanitize_data in H.
    bind_ok H v0 Hv0. bind_ok Hv0 r0 H0. injection Hv0 as <-.
    destruct (validate_str_or_None f v r0 (or_introl Hc) H0) as [->|[s ->]];
      [discriminate|].
    destruct (Hlen _ _ H (ex_intro _ s eq_refl)) as (s' & Hs & <- & Hle).
    injection Hs as <-. eauto.
  - unfold CharField_sanitize_data, Field_sanitize_data in H.
    bind_ok H v0 Hv0. bind_ok Hv0 r0 H0. injection Hv0 as <-.
    destruct (validate_str_or_None f v r0 (or_intror Hc) H0) as [->|[s ->]];
      [discriminate|].
    destruct (Hlen _ _ H (ex_intro _ s eq_refl)) as (s' & Hs & <- & Hle).
    injection Hs as <-. eauto.
  - unfold JsonField_sanitize_data in H. bind_ok H r0 H0. bind_ok H x Hx.
    destruct (is_none v) eqn:Hnone; cbn [negb] in Hx.
    + injection Hx as <-. destruct v; discriminate.
    + bind_ok Hx loaded Hl. bind_ok Hx text Ht. injection Hx as <-.
      destruct (Hlen _ _ H (ex_intro _ text eq_refl)) as (s' & Hs & <- & Hle).
      injection Hs as <-. eauto.
Qed.

(** *** Escapes are not given back *)

Lemma prefix_length (p s : string) :
  String.prefix p s = true -> (String.length p <= String.length s)%nat.
Proof.
  intros H. destruct (prefix_split _ _ H) as [b ->]. rewrite length_append. lia.
Qed.

(** Replacing by a text that is not longer gives a text that is not
    longer. *)
Lemma replace_from_length (old new : string) (s : string) : forall k,
  (String.length new <= String.length old)%nat ->
  (String.length (replace_from old new k s) + Nat.min k (String.length s)
   <= String.length s)%nat.
Proof.
  induction s as [|c s IH]; intros k Hle; [simpl; lia|].
  cbn [replace_from]. destruct k as [|k].
  - destruct (String.prefix old (String c s)) eqn:Hp.
    + apply prefix_length in Hp. cbn [String.length] in *.
      rewrite length_append. specialize (IH (String.length old - 1)%nat Hle). lia.
    + cbn [String.length]. specialize (IH 0%nat Hle). lia.
  - cbn [String.length]. specialize (IH k Hle). lia.
Qed.

(** Replacing by a shorter text a text that occurs gives a shorter text. *)
Lemma replace_length_lt (old new s : string) :
  (String.length new < String.length old)%nat ->
  occurs_in old s ->
  (String.length (replace s old new) < String.length s)%nat.
Proof.
  intros Hlt. unfold replace. induction s as [|c s IH]; intros Hocc.
  - destruct Hocc as (a & b & Heq). apply (f_equal String.length) in Heq.
    rewrite !length_append in Heq. simpl in Heq. lia.
  - cbn [replace_from]. destruct (String.prefix old (String c s)) eqn:Hp.
    + apply prefix_length in Hp. cbn [String.length] in *. rewrite length_append.
      pose proof (replace_from_length old new s (String.length old - 1)%nat
                    ltac:(lia)). lia.
    + cbn [String.length]. apply -> Nat.succ_lt_mono. apply IH.
      destruct Hocc as (a & b & Heq). destruct a as [|c' a].
      * exfalso. simpl in Heq. rewrite Heq, prefix_append in Hp. discriminate.
      * injection Heq as _ ->. by exists a, b.
Qed.

(** X9.  A text that holds an escaped semicolon or an escaped comment
    mark does not come back from the store as it went in: [recompose] of
    what [sanitize_data] returned is a shorter text. *)
Theorem recompose_sanitize_data_escaped f (v : string) r :
  cls f = CharField \/ cls f = EmailField ->
  occurs_in "\;" v \/ occurs_in "\--" v ->
  sanitize_data lib f (VStr v) = Ok r ->
  exists w, CharField_recompose r = Ok (VStr w)
            /\ (String.length w < String.length v)%nat.
Proof.
  intros Hcls Hocc Hsan.
  rewrite (CharField_sanitize_data_str lib f v r Hcls Hsan).
  unfold CharField_recompose. eexists. split; [reflexivity|].
  pose proof (replace_from_length "\--" "--" (replace v "\;" ";") 0%nat
                ltac:(simpl; lia)) as Hsecond.
  fold (replace (replace v "\;" ";") "\--" "--") in Hsecond.
  destruct (contains v "\;") eqn:Hsemi.
  - apply occurs_in_contains in Hsemi.
    pose proof (replace_length_lt "\;" ";" v ltac:(simpl; lia) Hsemi). lia.
  - assert (Habs : ~ occurs_in "\;" v).
    { intros H. apply occurs_in_contains in H. congruence. }
    destruct Hocc as [H|Hdash]; [contradiction|].
    rewrite (replace_absent v "\;" ";" Habs).
    apply replace_length_lt; [simpl; lia|assumption].
Qed.

(** *** What the constructors guarantee *)

(** The [choices] attribute after the loop of [Field.__init__]. *)
Lemma set_attributes_choices items : forall a a',
  set_attributes a items = Ok a' ->
  match lookup_later items "choices" with
  | Some v => exists x, choices_of v = Ok x /\ a' !! "choices" = Some x
  | None => a' !! "choices" = a !! "choices"
  end.
Proof.
  induction items as [|[kw v] items IH]; intros a a' Hset.
  - injection Hset as <-. reflexivity.
  - cbn [set_attributes] in Hset. bind_ok Hset a1 Ha1.
    specialize (IH _ _ Hset). cbn [lookup_later].
    destruct (lookup_later items "choices") as [v'|]; [exact IH|].
    rewrite IH. destruct (String.eqb_spec kw "choices") as [->|Hne].
    + destruct v; cbn [choices_of];
        try (injection Ha1 as <-; eexists; split; [reflexivity|];
             by rewrite ?lookup_insert_eq);
        bind_ok Ha1 pairs Hp; bind_ok Ha1 d Hd; injection Ha1 as <-;
        first [ rewrite Hp | cbn [py_iter] in Hp; try discriminate Hp ];
        cbn [bind]; rewrite ?Hd; cbn [bind];
        eexists; (split; [reflexivity|]); by rewrite lookup_insert_eq.
    + injection Ha1 as <-. by rewrite lookup_insert_ne.
Qed.

(** What a constructor has stored before it calls [Field.__init__]: the
    requirement note of a UUID field at most. *)
Lemma before_init_lookup c args a0 k :
  before_init c args = Ok a0 ->
  k = "field_requirement" \/ a0 !! k = None.
Proof.
  intros H0. destruct c; cbn [before_init] in H0;
    try (injection H0 as <-; right; apply lookup_empty).
  - destruct (negb _); [discriminate|]. injection H0 as <-.
    destruct (String.eqb_spec k "field_requirement") as [->|Hfr]; [by left|right].
    by rewrite lookup_singleton_ne.
  - bind_ok H0 p Hp. destruct (negb _); [discriminate|].
    bind_ok H0 u Hu. destruct (negb _); [discriminate|].
    destruct (_ && _); [discriminate|]. injection H0 as <-.
    right. apply lookup_empty.
  - destruct (negb _); [discriminate|]. destruct (negb _); [discriminate|].
    injection H0 as <-. right. apply lookup_empty.
Qed.

(** The attributes of a field as built: what was handed on, and what
    [Field.__init__] and the constructor store by themselves. *)
Lemma init_attrs_cases c args f k v :
  init c args = Ok f ->
  attrs f !! k = Some v ->
  k = "choices" \/ In (k, v) (forwarded c args)
  \/ (k = "db_index" /\ v = VBool false)
  \/ k = "field_type" \/ k = "field_requirement" \/ k = "value_type".
Proof.
  intros H Hk. destruct (init_Ok _ _ _ H) as (a0 & a1 & a2 & H0 & H1 & Hset & ->).
  destruct (String.eqb_spec k "choices") as [->|Hc]; [by left|right].
  assert (Ha2 : attrs (after_init c args {| cls := c; attrs := a2 |}) !! k = Some v ->
                k = "value_type" \/ a2 !! k = Some v).
  { destruct c; cbn [after_init attrs]; auto.
    intros Hl. apply lookup_insert_Some in Hl as [[<- _]|[_ Hl]]; auto. }
  destruct (Ha2 Hk) as [->|Hk2]; [by auto 10|]. clear Ha2 Hk.
  rewrite (set_attributes_lookup _ _ _ k Hset ltac:(congruence)) in Hk2.
  destruct (lookup_later (forwarded c args) k) as [v'|] eqn:Hl.
  - injection Hk2 as ->. left. by apply lookup_later_In.
  - right. apply lookup_insert_Some in Hk2 as [[<- <-]|[_ Hk2]]; [by auto|].
    apply lookup_insert_Some in Hk2 as [[<- _]|[Hft Hk2]]; [by auto|].
    assert (Hcol : lookup_later (forwarded c args) "db_column" <> None)
      by (destruct c; discriminate).
    destruct (String.eqb_spec k "db_column") as [->|Hdb]; [congruence|].
    rewrite (validate_kwargs_lookup _ _ _ _ k H1 Hdb) in Hk2.
    destruct (before_init_lookup _ _ _ k H0) as [->|Hnone]; [by auto 10|congruence].
Qed.

(** The [choices] attribute of a field as built: made of the argument
    handed on, and absent when the constructor hands none on. *)
Lemma init_choices c args f :
  init c args = Ok f ->
  match lookup_later (forwarded c args) "choices" with
  | Some v => exists x, choices_of v = Ok x /\ attrs f !! "choices" = Some x
  | None => attrs f !! "choices" = None
  end.
Proof.
  intros H. destruct (init_Ok _ _ _ H) as (a0 & a1 & a2 & H0 & H1 & Hset & ->).
  assert (Ha2 : attrs (after_init c args {| cls := c; attrs := a2 |}) !! "choices"
                = a2 !! "choices").
  { destruct c; cbn [after_init attrs]; try reflexivity.
    by rewrite lookup_insert_ne. }
  rewrite Ha2. pose proof (set_attributes_choices _ _ _ Hset) as Hc.
  destruct (lookup_later (forwarded c args) "choices") as [x|]; [exact Hc|].
  rewrite Hc, !lookup_insert_ne by discriminate.
  rewrite (validate_kwargs_lookup _ _ _ _ "choices" H1) by discriminate.
  destruct (before_init_lookup _ _ _ "choices" H0); [discriminate|assumption].
Qed.

Lemma choices_of_Ok v x :
  choices_of v = Ok x -> x = VNone \/ exists d, x = VDict d.
Proof.
  intros Hy. destruct v; cbn [choices_of] in Hy;
    try (injection Hy as <-; eauto; fail);
    bind_ok Hy pairs Hp; bind_ok Hy d Hd; injection Hy as <-; eauto.
Qed.

(** X10.  A field that a constructor has built is well formed: it is of
    the class called and says so in [field_type]; its column name is a text
    without two underscores in a row and without an underscore at either
    end; the parameters its class requires are set and true; its choices,
    if it has any, are [None] or a dict; and every attribute that has a
    declared type is an instance of that type. *)
Theorem init_well_formed c args f :
  init c args = Ok f ->
  cls f = c
  /\ attrs f !! "field_type" = Some (VStr (class_name c))
  /\ (exists s, attrs f !! "db_column" = Some (VStr s) /\ bad_column_name s = false)
  /\ (forall kw, In kw (required_kwargs c) ->
                 exists v, attrs f !! kw = Some v /\ truthy v = true)
  /\ (forall v, attrs f !! "choices" = Some v -> v = VNone \/ exists d, v = VDict d)
  /\ (forall k v, attrs f !! k = Some v -> mistyped k v = false).
Proof.
  intros H. destruct (init_forwarded _ _ _ H) as (Hreq & Htypes & Hname).
  pose proof (forwarded_known c args) as Hknown.
  assert (Hchoices : forall v, attrs f !! "choices" = Some v ->
                               v = VNone \/ exists d, v = VDict d).
  { intros v Hv. pose proof (init_choices _ _ _ H) as Hc.
    destruct (lookup_later (forwarded c args) "choices") as [x|]; [|congruence].
    destruct Hc as (y & Hy & Hc). rewrite Hc in Hv. injection Hv as <-.
    by eapply choices_of_Ok. }
  split; [by eapply init_cls|]. split; [by eapply init_field_type|].
  split; [|split; [|split; [exact Hchoices|]]].
  - (* the column name *)
    assert (Hcol : exists x,
               lookup_later (forwarded c args) "db_column" = Some x
               /\ forall dflt, kwargs_get (forwarded c args) "db_column" dflt = x).
    { destruct c; eexists; split; reflexivity. }
    destruct Hcol as (x & Hl & Hget). rewrite !Hget in Hname.
    pose proof (check_types_Ok _ _ _ Hknown Htypes (lookup_later_In _ _ _ Hl)) as Hm.
    assert (Hs : exists s, x = VStr s).
    { apply isinstance_str. unfold mistyped in Hm. cbn in Hm.
      rewrite andb_false_r, orb_false_r in Hm. cbn [negb] in Hm.
      rewrite andb_true_r in Hm. by apply negb_false_iff in Hm. }
    destruct Hs as [s ->]. exists s.
    split; [apply (init_attr _ _ _ "db_column" _ H Hl); discriminate|].
    cbn [truthy] in Hname. destruct (String.eqb s "") eqn:Hempty.
    { apply String.eqb_eq in Hempty. by rewrite Hempty. }
    destruct (Hname eq_refl) as (a & a' & Hset). unfold set_field_name in Hset.
    unfold bad_column_name.
    destruct (contains s "__"); [discriminate|].
    destruct (startswith s "_"); [discriminate|].
    destruct (endswith s "_"); [discriminate|reflexivity].
  - (* the required parameters *)
    intros kw Hin. pose proof (check_required_Ok _ _ _ Hreq Hin) as Ht.
    exists (kwargs_get (forwarded c args) kw VNone). split; [|exact Ht].
    apply (init_attr _ _ _ kw _ H).
    + destruct c; cbn in Hin; try contradiction; destruct Hin as [<-|[]];
        reflexivity.
    + destruct c; cbn in Hin; try contradiction; destruct Hin as [<-|[]];
        discriminate.
  - (* the declared types *)
    intros k v Hk.
    destruct (init_attrs_cases _ _ _ _ _ H Hk)
      as [->|[Hin|[[-> ->]|[->|[->| ->]]]]]; try reflexivity.
    + destruct (Hchoices v Hk) as [->|[d ->]]; reflexivity.
    + by apply (check_types_Ok _ _ _ Hknown Htypes).
Qed.

(** *** [current_state] *)

Lemma collect_args_Some f names :
  Forall (fun k => is_Some (attrs f !! k)) names ->
  collect_args f names
  = Ok (map (fun k => (k, default VNone (attrs f !! k))) names).
Proof.
  induction names as [|k names IH]; intros Hall; [reflexivity|].
  apply Forall_cons in Hall as [[v Hv] Hall].
  cbn [collect_args map]. unfold getattr_arg. rewrite Hv, (IH Hall). reflexivity.
Qed.

Lemma dict_update_lookup (g : string -> pyval) names : forall state k,
  dict_update state (map (fun k => (k, g k)) names) !! k
  = if bool_decide (k ∈ names) then Some (g k) else state !! k.
Proof.
  unfold dict_update. induction names as [|n names IH]; intros state k.
  - cbn. by rewrite bool_decide_eq_false_2 by apply not_elem_of_nil.
  - cbn [map foldl fst snd]. rewrite IH.
    destruct (bool_decide (k ∈ names)) eqn:Hin.
    + apply bool_decide_eq_true in Hin.
      by rewrite bool_decide_eq_true_2 by (by right).
    + apply bool_decide_eq_false in Hin.
      destruct (decide (k = n)) as [->|Hne].
      * rewrite bool_decide_eq_true_2 by left. apply lookup_insert_eq.
      * rewrite bool_decide_eq_false_2
          by (intros Hk; apply elem_of_cons in Hk as [?|?]; contradiction).
        by rewrite lookup_insert_ne.
Qed.

(** Every name of [args] is an attribute of a field as built, the Boolean
    class apart. *)
Lemma init_args_set c args f k :
  init c args = Ok f ->
  c <> BooleanField ->
  k ∈ Fields.args c ->
  is_Some (attrs f !! k).
Proof.
  intros H Hc Hk. apply list_elem_of_In in Hk.
  pose proof (init_choices _ _ _ H) as Hchoices.
  assert (Hvalue : c = ArrayField -> is_Some (attrs f !! "value_type")).
  { intros ->. destruct (init_Ok _ _ _ H) as (a0 & a1 & a2 & _ & _ & _ & ->).
    cbn [after_init attrs]. rewrite lookup_insert_eq. eauto. }
  destruct c; try contradiction; cbn [Fields.args In] in Hk;
    repeat (destruct Hk as [<-|Hk]); try contradiction;
    first
      [ eexists; eapply (init_attr _ _ _ _ _ H); [reflexivity|discriminate]
      | by apply Hvalue
      | cbn in Hchoices; destruct Hchoices as (x & _ & ->); eauto ].
Qed.

(** X11.  [current_state] of a field as built returns, for every class
    but the Boolean class, the dict of the class path under [field_type]
    and of each attribute that [args] names under its name, and of nothing
    else.  For a Boolean field it raises [AttributeError]: [args] of the
    class names [choices], which its constructor never sets. *)
Theorem current_state_init (module : string) c args f :
  init c args = Ok f ->
  (c = BooleanField -> current_state module f = Raise AttributeError)
  /\ (c <> BooleanField ->
      exists state,
        current_state module f = Ok state
        /\ state !! "field_type" = Some (VStr (module +:+ "." +:+ class_name c))
        /\ (forall k, k ∈ Fields.args c ->
                      is_Some (attrs f !! k) /\ state !! k = attrs f !! k)
        /\ (forall k, k <> "field_type" -> k ∉ Fields.args c -> state !! k = None)).
Proof.
  intros H. pose proof (init_cls _ _ _ H) as Hcls. split.
  - intros ->. pose proof (init_choices _ _ _ H) as Hc. cbn in Hc.
    unfold current_state. rewrite Hcls. cbn [Fields.args collect_args].
    unfold getattr_arg. rewrite Hc, Hcls. reflexivity.
  - intros Hc. unfold current_state. rewrite Hcls.
    rewrite collect_args_Some
      by (apply Forall_forall; intros k Hk; by eapply init_args_set).
    cbn [bind]. eexists. split; [reflexivity|].
    split; [|split].
    + rewrite dict_update_lookup.
      rewrite bool_decide_eq_false_2; [apply lookup_singleton_eq|].
      intros Hin. apply list_elem_of_In in Hin.
      destruct c; cbn in Hin; intuition discriminate.
    + intros k Hk. pose proof (init_args_set _ _ _ _ H Hc Hk) as [v Hv].
      split; [eauto|]. rewrite dict_update_lookup.
      rewrite bool_decide_eq_true_2 by assumption. by rewrite Hv.
    + intros k Hft Hk. rewrite dict_update_lookup.
      rewrite bool_decide_eq_false_2 by assumption.
      by rewrite lookup_singleton_ne.
Qed.

(** *** A many-to-many field as built *)

(** X12.  The many-to-many constructor stores neither [null] nor
    [own_model]: on the field it returns, [validate(None)] raises
    [AttributeError] and [creation_query] raises [KeyError], until
    something else sets those attributes. *)
Theorem init_ManyToManyField_incomplete args f :
  init ManyToManyField args = Ok f ->
  validate lib f VNone = Raise AttributeError
  /\ creation_query lib f = Raise KeyError.
Proof.
  intros H. pose proof (init_cls _ _ _ H) as Hcls.
  assert (Habsent : forall k, k = "null" \/ k = "own_model" -> attrs f !! k = None).
  { intros k Hk. destruct (attrs f !! k) as [v|] eqn:Hv; [exfalso|reflexivity].
    destruct (init_attrs_cases _ _ _ _ _ H Hv) as [->|[Hin|[[-> _]|[->|[->| ->]]]]];
      try (destruct Hk; discriminate).
    cbn in Hin. destruct Hk as [-> | ->]; intuition discriminate. }
  split.
  - unfold validate. rewrite Hcls.
    unfold ManyToManyField_validate, Field_validate, getattr.
    rewrite (Habsent "null") by auto. reflexivity.
  - unfold creation_query. rewrite Hcls.
    unfold ManyToManyField_creation_query, creation_string. rewrite Hcls.
    cbn [bind]. unfold format, ManyToManyField_creation_string.
    cbn [format_from Ascii.eqb Bool.eqb field_special orb String.append].
    unfold field_value. cbn [String.eqb all_digits]. 
    rewrite (Habsent "own_model") by auto. reflexivity.
Qed.

(** *** Choices given as pairs *)

Lemma dict_set_keys (d : list (pyval * pyval)) (k : string) (v : pyval) (s : string) :
  existsb (fun kv => py_eq (VStr s) (fst kv)) (dict_set d (VStr k) v)
  = existsb (fun kv => py_eq (VStr s) (fst kv)) d || String.eqb s k.
Proof.
  induction d as [|[k' v'] d IH]; cbn [dict_set existsb fst].
  - cbn [py_eq]. by rewrite orb_false_r, orb_false_l.
  - destruct (py_eq k' (VStr k)) eqn:Hk; cbn [existsb fst].
    + apply py_eq_str in Hk as ->. cbn [py_eq].
      destruct (String.eqb s k); cbn [orb]; [reflexivity|by rewrite orb_false_r].
    + rewrite IH. by rewrite orb_assoc.
Qed.

Lemma dict_of_pairs_choice_pairs (kvs : list (string * pyval)) : forall d0,
  exists d,
    dict_of_pairs d0 (map choice_pair kvs) = Ok d
    /\ forall s,
         existsb (fun kv => py_eq (VStr s) (fst kv)) d
         = existsb (fun kv => py_eq (VStr s) (fst kv)) d0
           || bool_decide (s ∈ map fst kvs).
Proof.
  induction kvs as [|[k v] kvs IH]; intros d0.
  - exists d0. split; [reflexivity|]. intros s.
    rewrite bool_decide_eq_false_2 by apply not_elem_of_nil. by rewrite orb_false_r.
  - cbn [map choice_pair fst snd dict_of_pairs py_iter bind hashable].
    destruct (IH (dict_set d0 (VStr k) v)) as (d & Hd & Hkeys).
    exists d. split; [exact Hd|]. intros s. rewrite Hkeys, dict_set_keys.
    rewrite <- orb_assoc. f_equal.
    destruct (String.eqb_spec s k) as [->|Hne].
    + cbn [orb]. symmetry. apply bool_decide_eq_true_2. left.
    + cbn [orb]. apply bool_decide_ext. split.
      * intros Hin. by right.
      * intros Hin. apply elem_of_cons in Hin as [?|?]; [contradiction|assumption].
Qed.

(** X13.  A Char or Text field built with its choices given as a tuple of
    pairs, the keys being texts, accepts a text exactly when it is the key
    of one of the pairs, and raises [FieldError] on any other text. *)
Theorem validate_choice_pairs c args f (kvs : list (string * pyval)) (s : string) :
  c = CharField \/ c = TextField ->
  init c args = Ok f ->
  args !! "choices" = Some (VTuple (map choice_pair kvs)) ->
  validate lib f (VStr s)
  = if bool_decide (s ∈ map fst kvs) then Ok VNone else Raise FieldError.
Proof.
  intros Hc H Hargs. pose proof (init_cls _ _ _ H) as Hcls.
  pose proof (init_choices _ _ _ H) as Hchoices.
  assert (Hl : lookup_later (forwarded c args) "choices"
               = Some (VTuple (map choice_pair kvs))).
  { destruct Hc as [-> | ->]; cbn; unfold param; by rewrite Hargs. }
  rewrite Hl in Hchoices. destruct Hchoices as (x & Hx & Hattr).
  cbn [choices_of py_iter bind] in Hx.
  destruct (dict_of_pairs_choice_pairs kvs []) as (d & Hd & Hkeys).
  rewrite Hd in Hx. injection Hx as <-.
  assert (Hv : validate lib f (VStr s) = Field_validate f (VStr s)).
  { unfold validate. rewrite Hcls. by destruct Hc as [-> | ->]. }
  rewrite Hv. unfold Field_validate. rewrite Hattr.
  cbn [is_none bind in_keys hashable]. rewrite Hkeys. cbn [existsb orb].
  assert (Hstr : isinstance_any (VStr s) (internal_type (cls f)) = true).
  { rewrite Hcls. by destruct Hc as [-> | ->]. }
  rewrite Hstr. by destruct (bool_decide _).
Qed.

(** *** A Boolean field does not validate what it sanitizes *)

(** X14.  [sanitize_data] of a Boolean field hands [None] back, whatever
    the field says of null: on a field built without null, or with null
    false, [validate] raises [FieldError] on the [None] that
    [sanitize_data] lets through. *)
Theorem BooleanField_sanitize_data_None args f :
  init BooleanField args = Ok f ->
  args !! "null" = None \/ args !! "null" = Some (VBool false) ->
  sanitize_data lib f VNone = Ok VNone
  /\ validate lib f VNone = Raise FieldError.
Proof.
  intros H Hnull. pose proof (init_cls _ _ _ H) as Hcls. split.
  - unfold sanitize_data. rewrite Hcls. reflexivity.
  - assert (Hattr : attrs f !! "null" = Some (VBool false)).
    { apply (init_attr _ _ _ "null" _ H); [|discriminate].
      cbn. unfold param. by destruct Hnull as [-> | ->]. }
    unfold validate. rewrite Hcls.
    by rewrite (Field_validate_None f _ (getattr_Some _ _ _ Hattr)).
Qed.

(** *** What the constructors of the special classes guarantee *)

(** The protocols of an address field as built. *)
Lemma init_GenericIPAddressField_protocols args f :
  init GenericIPAddressField args = Ok f ->
  exists p u,
    attrs f !! "protocol" = Some (VStr p)
    /\ attrs f !! "unpack_protocol" = Some (VStr u)
    /\ In (lower p) ["both"; "ipv6"; "ipv4"]
    /\ In (lower u) ["same"; "ipv6"; "ipv4"]
    /\ (lower p = "both" \/ u = "same").
Proof.
  intros H.
  pose proof (init_attr _ _ _ "protocol" _ H eq_refl ltac:(discriminate)) as Hp.
  pose proof (init_attr _ _ _ "unpack_protocol" _ H eq_refl ltac:(discriminate))
    as Hu.
  destruct (init_Ok _ _ _ H) as (a0 & _ & _ & H0 & _).
  cbn [before_init] in H0. bind_ok H0 p' Hp'.
  destruct (str_in p' _) eqn:Hinp; [|discriminate]. cbn [negb] in H0.
  bind_ok H0 u' Hu'.
  destruct (str_in u' _) eqn:Hinu; [|discriminate]. cbn [negb] in H0.
  destruct (negb (String.eqb p' "both") && _) eqn:Hboth; [discriminate|].
  unfold str_lower in Hp', Hu'.
  destruct (param args "protocol" (VStr "both")) as [| | |p| | | | |];
    try discriminate.
  destruct (param args "unpack_protocol" (VStr "same")) as [| | |u| | | | |];
    try discriminate.
  injection Hp' as <-. injection Hu' as <-. exists p, u.
  assert (Hin : forall x l, str_in x l = true -> In x l).
  { intros x l Hx. apply existsb_exists in Hx as (y & Hy & Heq).
    apply String.eqb_eq in Heq. by subst. }
  repeat split; [assumption|assumption|by apply Hin|by apply Hin|].
  apply andb_false_iff in Hboth as [Hb|Hs].
  - left. apply negb_false_iff in Hb. by apply String.eqb_eq.
  - right. apply negb_false_iff in Hs. cbn [py_eq] in Hs. by apply String.eqb_eq.
Qed.

(** X15.  The checks the constructors of the UUID, MAC and address
    classes make before [Field.__init__] hold of the fields they return:
    the UUID type is v1 or v4; the dialect is one of the six dialects; the
    protocol, in lower case, is both, ipv6 or ipv4, the unpack protocol,
    in lower case, is same, ipv6 or ipv4, and is "same" as written unless
    the protocol is both. *)
Theorem init_special_classes args f :
  (init Uuid4Field args = Ok f ->
   attrs f !! "uuid_type" = Some (VStr "v1")
   \/ attrs f !! "uuid_type" = Some (VStr "v4"))
  /\ (init MACAdressField args = Ok f ->
      exists d, attrs f !! "dialect" = Some (VStr d) /\ In d mac_dialects)
  /\ (init GenericIPAddressField args = Ok f ->
      exists p u,
        attrs f !! "protocol" = Some (VStr p)
        /\ attrs f !! "unpack_protocol" = Some (VStr u)
        /\ In (lower p) ["both"; "ipv6"; "ipv4"]
        /\ In (lower u) ["same"; "ipv6"; "ipv4"]
        /\ (lower p = "both" \/ u = "same")).
Proof.
  split; [apply init_Uuid4Field_uuid_type|]. split.
  - intros H.
    pose proof (init_attr _ _ _ "dialect" _ H eq_refl ltac:(discriminate)) as Hd.
    destruct (init_Ok _ _ _ H) as (a0 & _ & _ & H0 & _).
    cbn [before_init] in H0. destruct (negb (hashable _)); [discriminate|].
    destruct (existsb _ mac_dialects) eqn:Hex; [|discriminate].
    apply existsb_exists in Hex as (d & Hin & Heq). apply py_eq_str in Heq.
    exists d. split; [|assumption]. rewrite Hd. f_equal. exact Heq.
  - apply init_GenericIPAddressField_protocols.
Qed.

(** *** An address field checks the version *)

Lemma lower_char_digit (c : ascii) (n : nat) :
  (48 <= n <= 57)%nat -> lower_char c = ascii_of_nat n -> c = ascii_of_nat n.
Proof.
  intros Hn Hc. unfold lower_char in Hc.
  destruct (_ || _) eqn:Hup; [|exact Hc]. exfalso.
  apply (f_equal nat_of_ascii) in Hc.
  assert (Hrange : (65 <= nat_of_ascii c <= 222)%nat).
  { apply orb_true_iff in Hup as [Hup|Hup].
    - apply andb_true_iff in Hup as [H1 H2]. apply Nat.leb_le in H1, H2. lia.
    - apply andb_true_iff in Hup as [Hup _]. apply andb_true_iff in Hup as [H1 H2].
      apply Nat.leb_le in H1, H2. lia. }
  rewrite !nat_ascii_embedding in Hc by lia. lia.
Qed.

Lemma last_digit_lower (p : string) (a b c : ascii) (n : nat) :
  (48 <= n <= 57)%nat ->
  lower p = String a (String b (String c (String (ascii_of_nat n) ""))) ->
  last_digit p = Ok (Z.of_nat (n - 48)).
Proof.
  intros Hn Hp.
  destruct p as [|c1 [|c2 [|c3 [|c4 [|c5 p]]]]]; try discriminate.
  cbn [lower] in Hp. injection Hp as _ _ _ Hc4.
  apply (lower_char_digit c4 n Hn) in Hc4. subst c4.
  unfold last_digit. cbn [list_ascii_of_string rev app].
  rewrite nat_ascii_embedding by lia.
  destruct (Nat.leb_spec 48 n); [|lia]. destruct (Nat.leb_spec n 57); [|lia].
  reflexivity.
Qed.

(** X16.  An address field as built checks an address that netaddr reads
    by its IP version: any version when the protocol is both, version 4
    for ipv4 and version 6 for ipv6, however the protocol is capitalised;
    another version is a [FieldError]. *)
Theorem GenericIPAddressField_validate_version args f v (version : Z) :
  init GenericIPAddressField args = Ok f ->
  IPNetwork lib v = Ok version ->
  exists p,
    attrs f !! "protocol" = Some (VStr p)
    /\ validate lib f v
       = if String.eqb (lower p) "both" then Ok VNone
         else if version =? (if String.eqb (lower p) "ipv4" then 4 else 6)
              then Ok VNone
              else Raise FieldError.
Proof.
  intros H Hv. pose proof (init_cls _ _ _ H) as Hcls.
  destruct (init_GenericIPAddressField_protocols args f H)
    as (p & u & Hp & _ & Hin & _).
  exists p. split; [assumption|].
  unfold validate. rewrite Hcls. unfold GenericIPAddressField_validate.
  rewrite Hv. cbn [bind]. rewrite (getattr_Some _ _ _ Hp). cbn [bind].
  cbn [In] in Hin. destruct Hin as [Hl|[Hl|[Hl|[]]]]; rewrite <- Hl;
    cbn [String.eqb Ascii.eqb Bool.eqb negb bind]; [reflexivity| |].
  - rewrite (last_digit_lower p "i" "p" "v" 54%nat ltac:(lia) (eq_sym Hl)).
    cbn [bind]. change (Z.of_nat (54 - 48)) with 6.
    by destruct (version =? 6).
  - rewrite (last_digit_lower p "i" "p" "v" 52%nat ltac:(lia) (eq_sym Hl)).
    cbn [bind]. change (Z.of_nat (52 - 48)) with 4.
    by destruct (version =? 4).
Qed.

(** *** A UUID field validates objects and sanitizes texts *)

(** X17.  No value passes both checks of a UUID field: what [validate]
    accepts is [None] or a UUID object, and [sanitize_data], which matches
    its argument against a regular expression, raises [TypeError] on
    either. *)
Theorem Uuid4Field_validate_sanitize_data f v r :
  cls f = Uuid4Field ->
  validate lib f v = Ok r ->
  sanitize_data lib f v = Raise TypeError.
Proof.
  intros Hcls H. unfold validate in H. rewrite Hcls in H.
  destruct (Field_validate_Ok f v r H) as (_ & Ht & _). rewrite Hcls in Ht.
  unfold sanitize_data, Uuid4Field_sanitize_data. rewrite Hcls.
  destruct v; try reflexivity. specialize (Ht ltac:(discriminate)). discriminate.
Qed.

(** *** The addresses an Email field accepts *)

Lemma split_first_Some (c : ascii) (s l r : string) :
  split_first c s = Some (l, r) -> s = l +:+ String c r.
Proof.
  revert l. induction s as [|a s IH]; intros l H; [discriminate|].
  cbn [split_first] in H. destruct (Ascii.eqb_spec a c) as [->|Hne].
  - by injection H as <- <-.
  - destruct (split_first c s) as [[l' r']|]; [|discriminate].
    injection H as <- <-. cbn [String.append]. f_equal. by apply IH.
Qed.

(** X18.  A text that an Email field accepts is made of a local part of
    two characters at least, the first of them a word character, an at
    sign, a host that is not empty, a dot, and a rest that is not empty. *)
Theorem EmailField_validate_shape f (s : string) r :
  cls f = EmailField ->
  validate lib f (VStr s) = Ok r ->
  exists (a : ascii) (user host rest : string),
    s = String a user +:+ "@" +:+ host +:+ "." +:+ rest
    /\ word_char a = true /\ user <> "" /\ host <> "" /\ rest <> "".
Proof.
  intros Hcls H. unfold validate in H. rewrite Hcls in H.
  unfold EmailField_validate in H. bind_ok H r0 H0.
  destruct (email_regex_match s) eqn:Hm; [|discriminate]. clear H.
  unfold email_regex_match in Hm.
  destruct (split_first "@" s) as [[[|a user] domain]|] eqn:Hat; try discriminate.
  apply split_first_Some in Hat.
  destruct (split_first "." domain) as [[host rest]|] eqn:Hdot;
    [|by rewrite andb_false_r in Hm].
  apply split_first_Some in Hdot.
  apply andb_true_iff in Hm as [Hm Hdomain].
  apply andb_true_iff in Hm as [Hm Huser].
  apply andb_true_iff in Hm as [Ha Hnonempty].
  apply andb_true_iff in Hdomain as [Hdomain Hrest].
  apply andb_true_iff in Hdomain as [Hdomain Hlast].
  apply andb_true_iff in Hdomain as [Hhost Hhostchars].
  exists a, user, host, rest. subst domain.
  assert (Hne : forall x, nonempty x = true -> x <> "").
  { intros x Hx ->. discriminate. }
  split; [exact Hat|]. split; [exact Ha|].
  split; [by apply Hne|]. split; [by apply Hne|].
  intros ->. discriminate.
Qed.

End FieldsInGeneral.


(** [sanitize_data_unchanged] at [ArrayField()] and the list [[1]]. *)
Lemma sanitize_data_unchanged_witness :
  Fields.sanitize_data no_library array_field (VList [VInt 1]) = Ok (VList [VInt 1])
  /\ VList [VInt 1] = VList [VInt 1].
Proof.
  split; [reflexivity|].
  apply (sanitize_data_unchanged no_library array_field (VList [VInt 1])
           (VList [VInt 1])); [discriminate|reflexivity].
Defined.

(** [sanitize_data_max_length] at [CharField(max_length=5)] and the text
    "abc". *)
Lemma sanitize_data_max_length_witness :
  exists s, VStr "abc" = VStr s /\ Z.of_nat (String.length s) <= 5.
Proof.
  apply (sanitize_data_max_length no_library (char_field false) (VStr "abc")
           (VStr "abc") 5 (or_introl eq_refl) eq_refl eq_refl).
Defined.

(** [recompose_sanitize_data_escaped] at [CharField(max_length=5)] and the
    text of an a, an escaped semicolon and a b. *)
Lemma recompose_sanitize_data_escaped_witness :
  exists w, Fields.CharField_recompose (VStr "a\;b") = Ok (VStr w)
            /\ (String.length w < 4)%nat.
Proof.
  apply (recompose_sanitize_data_escaped no_library (char_field false) "a\;b"
           (VStr "a\;b") (or_introl eq_refl)).
  - left. apply occurs_in_contains. reflexivity.
  - reflexivity.
Defined.

(** [init_well_formed] at
    [CharField(max_length=5, db_column='name', default='x', unique=True)]. *)
Lemma init_well_formed_witness :
  Fields.cls char_default = Fields.CharField
  /\ Fields.attrs char_default !! "field_type" = Some (VStr "CharField")
  /\ (exists s, Fields.attrs char_default !! "db_column" = Some (VStr s)
                /\ bad_column_name s = false)
  /\ (forall kw, In kw ["max_length"] ->
                 exists v, Fields.attrs char_default !! kw = Some v
                           /\ truthy v = true)
  /\ (forall v, Fields.attrs char_default !! "choices" = Some v ->
                v = VNone \/ exists d, v = VDict d)
  /\ (forall k v, Fields.attrs char_default !! k = Some v -> mistyped k v = false).
Proof.
  apply (init_well_formed Fields.CharField char_default_args char_default).
  vm_compute. reflexivity.
Defined.

(** [current_state_init] at [BooleanField()] and at
    [CharField(max_length=5, db_column='name', default='x', unique=True)]. *)
Lemma current_state_init_witness :
  Fields.current_state "asyncorm.models.fields" boolean_field = Raise AttributeError
  /\ exists state,
       Fields.current_state "asyncorm.models.fields" char_default = Ok state
       /\ state !! "field_type" = Some (VStr "asyncorm.models.fields.CharField")
       /\ state !! "max_length" = Some (VInt 5).
Proof.
  assert (Hinit : Fields.init Fields.BooleanField ∅ = Ok boolean_field)
    by (vm_compute; reflexivity).
  split.
  - apply (proj1 (current_state_init "asyncorm.models.fields" Fields.BooleanField
                    ∅ boolean_field Hinit)).
    reflexivity.
  - destruct (proj2 (current_state_init "asyncorm.models.fields" Fields.CharField
                       char_default_args char_default
                       ltac:(vm_compute; reflexivity)) ltac:(discriminate))
      as (state & Hstate & Htype & Hargs & _).
    exists state. split; [exact Hstate|]. split; [exact Htype|].
    rewrite (proj2 (Hargs "max_length"
                      ltac:(apply list_elem_of_In; simpl; auto 10))).
    reflexivity.
Defined.

(** [init_ManyToManyField_incomplete] at
    [ManyToManyField(foreign_key='author')]. *)
Lemma init_ManyToManyField_incomplete_witness :
  Fields.validate no_library many_to_many_built VNone = Raise AttributeError
  /\ Fields.creation_query no_library many_to_many_built = Raise KeyError.
Proof.
  apply (init_ManyToManyField_incomplete no_library many_to_many_args
           many_to_many_built).
  vm_compute. reflexivity.
Defined.

(** [validate_choice_pairs] at
    [CharField(max_length=5, choices=(('a', 'A'), ('b', 'B')))]. *)
Lemma validate_choice_pairs_witness :
  Fields.validate no_library char_choice_pairs (VStr "b") = Ok VNone
  /\ Fields.validate no_library char_choice_pairs (VStr "c") = Raise FieldError.
Proof.
  split.
  - apply (validate_choice_pairs no_library Fields.CharField char_choice_pairs_args
             char_choice_pairs [("a", VStr "A"); ("b", VStr "B")] "b"
             (or_introl eq_refl) ltac:(vm_compute; reflexivity) eq_refl).
  - apply (validate_choice_pairs no_library Fields.CharField char_choice_pairs_args
             char_choice_pairs [("a", VStr "A"); ("b", VStr "B")] "c"
             (or_introl eq_refl) ltac:(vm_compute; reflexivity) eq_refl).
Defined.

(** [BooleanField_sanitize_data_None] at [BooleanField()]. *)
Lemma BooleanField_sanitize_data_None_witness :
  Fields.sanitize_data no_library boolean_field VNone = Ok VNone
  /\ Fields.validate no_library boolean_field VNone = Raise FieldError.
Proof.
  assert (Hinit : Fields.init Fields.BooleanField ∅ = Ok boolean_field)
    by (vm_compute; reflexivity).
  apply (BooleanField_sanitize_data_None no_library ∅ boolean_field Hinit
           (or_introl eq_refl)).
Defined.

(** [init_special_classes] at [Uuid4Field()], [MACAdressField()] and
    [GenericIPAddressField(protocol='IPv4')]. *)
Lemma init_special_classes_witness :
  (Fields.attrs uuid4_field !! "uuid_type" = Some (VStr "v1")
   \/ Fields.attrs uuid4_field !! "uuid_type" = Some (VStr "v4"))
  /\ (exists d, Fields.attrs mac_field !! "dialect" = Some (VStr d)
                /\ In d Fields.mac_dialects)
  /\ (exists p u,
        Fields.attrs ipv4_field !! "protocol" = Some (VStr p)
        /\ Fields.attrs ipv4_field !! "unpack_protocol" = Some (VStr u)
        /\ In (lower p) ["both"; "ipv6"; "ipv4"]
        /\ In (lower u) ["same"; "ipv6"; "ipv4"]
        /\ (lower p = "both" \/ u = "same")).
Proof.
  split; [|split].
  - apply (proj1 (init_special_classes ∅ uuid4_field)). vm_compute. reflexivity.
  - apply (proj1 (proj2 (init_special_classes ∅ mac_field))).
    vm_compute. reflexivity.
  - apply (proj2 (proj2 (init_special_classes ipv4_args ipv4_field))).
    vm_compute. reflexivity.
Defined.

(** [GenericIPAddressField_validate_version] at
    [GenericIPAddressField(protocol='IPv4')] and an address of each
    version. *)
Lemma GenericIPAddressField_validate_version_witness :
  Fields.validate two_addresses ipv4_field (VStr "10.0.0.1") = Ok VNone
  /\ Fields.validate two_addresses ipv4_field (VStr "::1") = Raise FieldError.
Proof.
  split.
  - destruct (GenericIPAddressField_validate_version two_addresses ipv4_args
                ipv4_field (VStr "10.0.0.1") 4 ltac:(vm_compute; reflexivity)
                eq_refl) as (p & Hp & ->).
    injection Hp as <-. reflexivity.
  - destruct (GenericIPAddressField_validate_version two_addresses ipv4_args
                ipv4_field (VStr "::1") 6 ltac:(vm_compute; reflexivity)
                eq_refl) as (p & Hp & ->).
    injection Hp as <-. reflexivity.
Defined.

(** [Uuid4Field_validate_sanitize_data] at [Uuid4Field()] and a UUID
    object. *)
Lemma Uuid4Field_validate_sanitize_data_witness :
  let v := VObj L_UUID true "12345678-1234-5678-1234-567812345678"
             "UUID('12345678-1234-5678-1234-567812345678')" in
  Fields.validate no_library uuid4_field v = Ok VNone
  /\ Fields.sanitize_data no_library uuid4_field v = Raise TypeError.
Proof.
  intros v. split; [reflexivity|].
  apply (Uuid4Field_validate_sanitize_data no_library uuid4_field v VNone);
    reflexivity.
Defined.

(** [EmailField_validate_shape] at [EmailField(max_length=20)] and the
    address ab@c.de. *)
Lemma EmailField_validate_shape_witness :
  exists (a : ascii) (user host rest : string),
    "ab@c.de" = String a user +:+ "@" +:+ host +:+ "." +:+ rest
    /\ Fields.word_char a = true /\ user <> "" /\ host <> "" /\ rest <> "".
Proof.
  apply (EmailField_validate_shape no_library email_field "ab@c.de" VNone);
    reflexivity.
Defined.
